(** * Task scheduler: models, cron parsing, executors, metrics, scheduler

    A shallow embedding of the Go task scheduler (packages [models],
    [executor], [metrics], [repository], [scheduler], [handlers]) together
    with the properties of its specification.

    Conventions.
    - Go [int]/[int64]/[uint] values are [Z]; instants ([time.Time]) and
      durations ([time.Duration]) are [Z] nanoseconds.
    - Go [string]s are byte strings: [string] of the Standard Library;
      the functions that read runes decode them as UTF-8.
    - A Go pointer that may be [nil] is an [option].
    - [map[K]V] is a [gmap K V].
    - [log.Printf] lines only write to the process log and are elided. *)

From Stdlib Require Import ZArith List String Ascii Bool Lia Floats DecimalString Sorted.
From stdpp Require Import base option list gmap strings.

Local Open Scope string_scope.
Local Open Scope Z_scope.

(* ===================================================================== *)
(** ** Package [models] *)
(* ===================================================================== *)

Module models.

Definition UUID := N.
Definition Time := Z.

(** The zero [uuid.UUID], and the zero [time.Time]: 1 January of year 1,
    in nanoseconds from the Unix epoch. *)
Definition Nil : UUID := 0%N.
Definition zeroTime : Time := -62135596800 * 1000000000.

Definition TriggerType := string.
Definition TriggerTypeOneOff : TriggerType := "one-off".
Definition TriggerTypeCron : TriggerType := "cron".

Definition TaskStatus := string.
Definition TaskStatusScheduled : TaskStatus := "scheduled".
Definition TaskStatusCancelled : TaskStatus := "cancelled".
Definition TaskStatusCompleted : TaskStatus := "completed".

Record Task := mkTask {
  ID : UUID;
  Name : string;
  TriggerType_ : TriggerType;
  TriggerTime : option Time;
  CronExpr : option string;
  Method : string;
  URL : string;
  Headers : gmap string string;
  Payload : option string;
  Status : TaskStatus;
  CreatedAt : Time;
  UpdatedAt : Time;
  NextRun : option Time
}.

Definition withStatus (t : Task) (st : TaskStatus) : Task :=
  mkTask (ID t) (Name t) (TriggerType_ t) (TriggerTime t) (CronExpr t)
         (Method t) (URL t) (Headers t) (Payload t) st
         (CreatedAt t) (UpdatedAt t) (NextRun t).

Definition withUpdatedAt (t : Task) (now : Time) : Task :=
  mkTask (ID t) (Name t) (TriggerType_ t) (TriggerTime t) (CronExpr t)
         (Method t) (URL t) (Headers t) (Payload t) (Status t)
         (CreatedAt t) now (NextRun t).

Definition withNextRun (t : Task) (n : option Time) : Task :=
  mkTask (ID t) (Name t) (TriggerType_ t) (TriggerTime t) (CronExpr t)
         (Method t) (URL t) (Headers t) (Payload t) (Status t)
         (CreatedAt t) (UpdatedAt t) n.

Record TaskResult := mkTaskResult {
  ResultID : UUID;
  TaskID : UUID;
  RunAt : Time;
  StatusCode : option Z;
  Success : bool;
  ResponseHeaders : gmap string string;
  ResponseBody : option string;
  ErrorMessage : option string;
  DurationMs : Z;
  ResultCreatedAt : Time
}.

Definition withRun (r : TaskResult) (runAt : Time) (task : UUID) : TaskResult :=
  mkTaskResult (ResultID r) task runAt (StatusCode r) (Success r)
               (ResponseHeaders r) (ResponseBody r) (ErrorMessage r)
               (DurationMs r) (ResultCreatedAt r).

End models.

(* ===================================================================== *)
(** ** Go standard-library helpers on byte strings *)
(* ===================================================================== *)

Module gostrings.

(** [strings.Split] with a one-byte separator: empty pieces are kept. *)
Fixpoint Split_go (sep : ascii) (s cur : string) : list string :=
  match s with
  | EmptyString => [cur]
  | String c s' =>
      if Ascii.eqb c sep then cur :: Split_go sep s' ""
      else Split_go sep s' (cur ++ String c "")
  end.

Definition Split (s : string) (sep : ascii) : list string := Split_go sep s "".

Definition HasPrefix (s p : string) : bool := String.prefix p s.

(** [strings.Index] with a one-byte pattern; [-1] when absent. *)
Fixpoint IndexByte_go (c : ascii) (s : string) (i : Z) : Z :=
  match s with
  | EmptyString => -1
  | String d s' => if Ascii.eqb c d then i else IndexByte_go c s' (i + 1)
  end.

Definition IndexByte (s : string) (c : ascii) : Z := IndexByte_go c s 0.

Definition lowerByte (c : ascii) : ascii :=
  let n := N_of_ascii c in
  if ((65 <=? n) && (n <=? 90))%N then ascii_of_N (n + 32) else c.

Fixpoint ToLower (s : string) : string :=
  match s with
  | EmptyString => EmptyString
  | String c s' => String (lowerByte c) (ToLower s')
  end.

Definition upperByte (c : ascii) : ascii :=
  let n := N_of_ascii c in
  if ((97 <=? n) && (n <=? 122))%N then ascii_of_N (n - 32) else c.

Fixpoint ToUpper (s : string) : string :=
  match s with
  | EmptyString => EmptyString
  | String c s' => String (upperByte c) (ToUpper s')
  end.

(** [len(s)] *)
Definition len (s : string) : Z := Z.of_nat (String.length s).

(** [s[lo:hi]] for in-range bounds. *)
Definition slice (s : string) (lo hi : Z) : string :=
  String.substring (Z.to_nat lo) (Z.to_nat (hi - lo)) s.

(** [s[i]] for an index in range. *)
Definition byte (c : ascii) : Z := Z.of_N (N_of_ascii c).

Definition byteAt (s : string) (i : Z) : Z :=
  match String.get (Z.to_nat i) s with
  | Some c => byte c
  | None => 0
  end.

(** *** Package [unicode/utf8]

    Strings are read as UTF-8; a byte that starts no valid encoding is
    the rune [RuneError] of width 1. *)

Definition RuneError : Z := 0xFFFD.
Definition RuneSelf : Z := 0x80.
Definition UTFMax : Z := 4.

(** [utf8.DecodeRuneInString]: the first rune of [s] and its width. The
    size and the accepted range of the second byte are those of the
    [first] and [acceptRanges] tables. *)
Definition DecodeRuneInString (s : string) : Z * Z :=
  match s with
  | EmptyString => (RuneError, 0)
  | String c0 t0 =>
      let s0 := byte c0 in
      if s0 <? RuneSelf then (s0, 1)
      else if (s0 <? 0xC2) || (0xF4 <? s0) then (RuneError, 1)
      else
        let sz := if s0 <? 0xE0 then 2 else if s0 <? 0xF0 then 3 else 4 in
        let lo := if s0 =? 0xE0 then 0xA0 else if s0 =? 0xF0 then 0x90 else 0x80 in
        let hi := if s0 =? 0xED then 0x9F else if s0 =? 0xF4 then 0x8F else 0xBF in
        if len s <? sz then (RuneError, 1)
        else
          match t0 with
          | EmptyString => (RuneError, 1)
          | String c1 t1 =>
              let s1 := byte c1 in
              if (s1 <? lo) || (hi <? s1) then (RuneError, 1)
              else if sz <=? 2
              then (Z.lor (Z.shiftl (Z.land s0 0x1F) 6) (Z.land s1 0x3F), 2)
              else
                match t1 with
                | EmptyString => (RuneError, 1)
                | String c2 t2 =>
                    let s2 := byte c2 in
                    if (s2 <? 0x80) || (0xBF <? s2) then (RuneError, 1)
                    else if sz <=? 3
                    then (Z.lor (Z.shiftl (Z.land s0 0x0F) 12)
                            (Z.lor (Z.shiftl (Z.land s1 0x3F) 6) (Z.land s2 0x3F)), 3)
                    else
                      match t2 with
                      | EmptyString => (RuneError, 1)
                      | String c3 _ =>
                          let s3 := byte c3 in
                          if (s3 <? 0x80) || (0xBF <? s3) then (RuneError, 1)
                          else (Z.lor (Z.shiftl (Z.land s0 0x07) 18)
                                  (Z.lor (Z.shiftl (Z.land s1 0x3F) 12)
                                     (Z.lor (Z.shiftl (Z.land s2 0x3F) 6)
                                            (Z.land s3 0x3F))), 4)
                      end
                end
          end
  end.

(** [utf8.RuneStart] *)
Definition RuneStart (b : Z) : bool := negb (Z.land b 0xC0 =? 0x80).

(** The loop of [DecodeLastRuneInString] that walks back to the start of
    the last rune, at most [UTFMax] bytes from the end. *)
Fixpoint backToRuneStart (fuel : nat) (s : string) (lim start : Z) : Z :=
  match fuel with
  | O => start
  | S fuel' =>
      if start <? lim then start
      else if RuneStart (byteAt s start) then start
      else backToRuneStart fuel' s lim (start - 1)
  end.

(** [utf8.DecodeLastRuneInString]: the last rune of [s] and its width. *)
Definition DecodeLastRuneInString (s : string) : Z * Z :=
  let end_ := len s in
  if end_ =? 0 then (RuneError, 0)
  else
    let start := end_ - 1 in
    let r := byteAt s start in
    if r <? RuneSelf then (r, 1)
    else
      let lim := Z.max 0 (end_ - UTFMax) in
      let start := backToRuneStart (Z.to_nat UTFMax) s lim (start - 1) in
      let start := if start <? 0 then 0 else start in
      let '(r, size) := DecodeRuneInString (slice s start end_) in
      if start + size =? end_ then (r, size) else (RuneError, 1).

(** *** Package [unicode]

    [unicode.IsSpace]: the Latin-1 spaces of the function's switch, and
    the rest of the [White_Space] table. *)
Definition IsSpace (r : Z) : bool :=
  if r <=? 0xFF
  then ((0x09 <=? r) && (r <=? 0x0D)) || (r =? 0x20) || (r =? 0x85) || (r =? 0xA0)
  else (r =? 0x1680) || ((0x2000 <=? r) && (r <=? 0x200A))
       || (r =? 0x2028) || (r =? 0x2029) || (r =? 0x202F) || (r =? 0x205F)
       || (r =? 0x3000).

(** *** Package [strings], the functions that read runes

    [strings.FieldsFunc]: the maximal runs of runes not satisfying [f];
    empty fields are dropped. The loop ranges over the runes of [s]:
    [skip] counts the bytes still to pass of the rune decoded last, and
    [sep] tells whether that rune satisfied [f]. *)
Fixpoint FieldsFunc_go (f : Z -> bool) (s cur : string) (skip : nat) (sep : bool)
  : list string :=
  match s with
  | EmptyString => if String.eqb cur "" then [] else [cur]
  | String c s' =>
      match skip with
      | S skip' =>
          if sep then FieldsFunc_go f s' cur skip' sep
          else FieldsFunc_go f s' (cur ++ String c "") skip' sep
      | O =>
          let '(r, size) := DecodeRuneInString s in
          if f r
          then (if String.eqb cur "" then FieldsFunc_go f s' "" (Z.to_nat size - 1) true
                else cur :: FieldsFunc_go f s' "" (Z.to_nat size - 1) true)
          else FieldsFunc_go f s' (cur ++ String c "") (Z.to_nat size - 1) false
      end
  end.

Definition FieldsFunc (s : string) (f : Z -> bool) : list string :=
  FieldsFunc_go f s "" 0 false.

(** [strings.Fields]: on a string of ASCII bytes the function takes a
    path of its own, which splits as [FieldsFunc] with [unicode.IsSpace]
    does. *)
Definition Fields (s : string) : list string := FieldsFunc s IsSpace.

(** [indexFunc]: the byte index of the first rune [r] with
    [f r = truth], or [-1]. *)
Fixpoint indexFunc_go (f : Z -> bool) (truth : bool) (s : string) (i : Z)
    (skip : nat) : Z :=
  match s with
  | EmptyString => -1
  | String _ s' =>
      match skip with
      | S skip' => indexFunc_go f truth s' (i + 1) skip'
      | O =>
          let '(r, size) := DecodeRuneInString s in
          if Bool.eqb (f r) truth then i
          else indexFunc_go f truth s' (i + 1) (Z.to_nat size - 1)
      end
  end.

Definition indexFunc (s : string) (f : Z -> bool) (truth : bool) : Z :=
  indexFunc_go f truth s 0 0.

(** [lastIndexFunc]: the same from the end, rune by rune. *)
Fixpoint lastIndexFunc_go (fuel : nat) (s : string) (f : Z -> bool) (truth : bool)
    (i : Z) : Z :=
  match fuel with
  | O => -1
  | S fuel' =>
      if 0 <? i
      then
        let '(r, size) := DecodeLastRuneInString (slice s 0 i) in
        let i := i - size in
        if Bool.eqb (f r) truth then i else lastIndexFunc_go fuel' s f truth i
      else -1
  end.

Definition lastIndexFunc (s : string) (f : Z -> bool) (truth : bool) : Z :=
  lastIndexFunc_go (S (String.length s)) s f truth (len s).

(** [strings.TrimLeftFunc], [strings.TrimRightFunc], [strings.TrimFunc] *)
Definition TrimLeftFunc (s : string) (f : Z -> bool) : string :=
  let i := indexFunc s f false in
  if i =? -1 then "" else slice s i (len s).

Definition TrimRightFunc (s : string) (f : Z -> bool) : string :=
  let i := lastIndexFunc s f false in
  let i := if (0 <=? i) && (RuneSelf <=? byteAt s i)
           then i + snd (DecodeRuneInString (slice s i (len s)))
           else i + 1 in
  slice s 0 i.

Definition TrimFunc (s : string) (f : Z -> bool) : string :=
  TrimRightFunc (TrimLeftFunc s f) f.

(** [strings.TrimSpace]: its scan of leading and trailing ASCII bytes
    trims what [TrimFunc] with [unicode.IsSpace] trims, to which it falls
    back at the first byte that is not ASCII. *)
Definition TrimSpace (s : string) : string := TrimFunc s IsSpace.

(** [strings.HasSuffix] *)
Definition HasSuffix (s suffix : string) : bool :=
  (len suffix <=? len s) && String.eqb (slice s (len s - len suffix) (len s)) suffix.

(** [fmt.Sprintf("%d", n)] *)
Definition itoa (n : Z) : string :=
  match n with
  | Z0 => "0"
  | Zpos p => NilEmpty.string_of_uint (Pos.to_uint p)
  | Zneg p => "-" ++ NilEmpty.string_of_uint (Pos.to_uint p)
  end.

Definition digit (c : ascii) : option Z :=
  let n := Z.of_N (N_of_ascii c) in
  if (48 <=? n) && (n <=? 57) then Some (n - 48) else None.

Fixpoint digits (s : string) (acc : Z) : option Z :=
  match s with
  | EmptyString => Some acc
  | String c s' =>
      match digit c with
      | Some d => digits s' (10 * acc + d)
      | None => None
      end
  end.

(** [strconv.Atoi]: an optional sign and decimal digits. The second
    component tells whether the error is nil; on a syntax error the value is
    0, on a range error it is the nearest [int64]. *)
Definition Atoi (s : string) : Z * bool :=
  let inRange (v : Z) :=
    if v <? - 2 ^ 63 then (- 2 ^ 63, false)
    else if 2 ^ 63 <=? v then (2 ^ 63 - 1, false)
    else (v, true) in
  match s with
  | EmptyString => (0, false)
  | String c s' =>
      if Ascii.eqb c "-" then
        match s' with
        | EmptyString => (0, false)
        | _ => match digits s' 0 with Some v => inRange (- v) | None => (0, false) end
        end
      else if Ascii.eqb c "+" then
        match s' with
        | EmptyString => (0, false)
        | _ => match digits s' 0 with Some v => inRange v | None => (0, false) end
        end
      else match digits s 0 with Some v => inRange v | None => (0, false) end
  end.

End gostrings.

(* ===================================================================== *)
(** ** The cron library imported by the scheduler and the handlers

    [github.com/robfig/cron/v3] is a dependency of the repository, not part
    of it. Its parser ([parser.go], [option.go], [constantdelay.go]) is
    embedded here as published, because which expressions the scheduler
    arms is decided there. The time-zone database, [time.ParseDuration] and
    the calendar arithmetic of [Schedule.Next] are taken as a [TimeLib]. *)
(* ===================================================================== *)

Module cron.
Import gostrings.

Definition Location := string.

Inductive Schedule :=
| SpecSchedule (second minute hour dom month dow : Z) (loc : Location)
| ConstantDelaySchedule (delay : Z).

Record TimeLib := mkTimeLib {
  LoadLocation : string -> option Location;
  ParseDuration : string -> option Z;
  Next : Schedule -> models.Time -> models.Time
}.

Inductive ParseError :=
| EmptySpec
| SliceBoundsPanic
| BadLocation (name : string)
| NoDescriptors (spec : string)
| MultipleOptionals
| UnknownOptional
| FieldCount (min max count : Z) (fields : list string)
| BadInt (expr : string)
| NegativeNumber (num : Z) (expr : string)
| TooManyHyphens (expr : string)
| TooManySlashes (expr : string)
| BelowMinimum (start min : Z) (expr : string)
| AboveMaximum (end_ max : Z) (expr : string)
| BeyondEnd (start end_ : Z) (expr : string)
| ZeroStep (expr : string)
| BadDuration (descriptor : string)
| UnrecognizedDescriptor (descriptor : string).

Inductive result (A : Type) :=
| Ok (a : A)
| Err (e : ParseError).
Arguments Ok {A} a.
Arguments Err {A} e.

Definition bind {A B} (r : result A) (k : A -> result B) : result B :=
  match r with
  | Ok a => k a
  | Err e => Err e
  end.

Notation "'try' x <- r ; k" := (bind r (fun x => k))
  (at level 10, x pattern, r at level 100, k at level 200).

(** *** [ParseOption] flags *)

Definition Second : Z := 1.
Definition SecondOptional : Z := 2.
Definition Minute : Z := 4.
Definition Hour : Z := 8.
Definition Dom : Z := 16.
Definition Month : Z := 32.
Definition Dow : Z := 64.
Definition DowOptional : Z := 128.
Definition Descriptor : Z := 256.

(** [options&flag > 0] *)
Definition has (options flag : Z) : bool := 0 <? Z.land options flag.

Definition places : list Z := [Second; Minute; Hour; Dom; Month; Dow].
Definition defaults : list string := ["0"; "0"; "0"; "*"; "*"; "*"].

(** *** Field bounds *)

Record bounds := mkBounds {
  min : Z;
  max : Z;
  names : option (list (string * Z))
}.

Definition seconds : bounds := mkBounds 0 59 None.
Definition minutes : bounds := mkBounds 0 59 None.
Definition hours : bounds := mkBounds 0 23 None.
Definition dom : bounds := mkBounds 1 31 None.
Definition months : bounds :=
  mkBounds 1 12
    (Some [("jan", 1); ("feb", 2); ("mar", 3); ("apr", 4); ("may", 5);
           ("jun", 6); ("jul", 7); ("aug", 8); ("sep", 9); ("oct", 10);
           ("nov", 11); ("dec", 12)]).
Definition dow : bounds :=
  mkBounds 0 6
    (Some [("sun", 0); ("mon", 1); ("tue", 2); ("wed", 3); ("thu", 4);
           ("fri", 5); ("sat", 6)]).

(** *** 64-bit sets of admissible values *)

Definition MaxUint64 : Z := 2 ^ 64 - 1.
Definition shl64 (x n : Z) : Z := Z.land (Z.shiftl x n) MaxUint64.
Definition not64 (x : Z) : Z := Z.lxor x MaxUint64.
Definition starBit : Z := shl64 1 63.

Fixpoint getBits_loop (fuel : nat) (i max step bits : Z) : Z :=
  match fuel with
  | O => bits
  | S fuel' =>
      if i <=? max
      then getBits_loop fuel' (i + step) max step (Z.lor bits (shl64 1 i))
      else bits
  end.

Definition getBits (min max step : Z) : Z :=
  if step =? 1
  then Z.land (not64 (shl64 MaxUint64 (max + 1))) (shl64 MaxUint64 min)
  else getBits_loop (Z.to_nat (max - min + 1)) min max step 0.

Definition all (r : bounds) : Z := Z.lor (getBits (min r) (max r) 1) starBit.

(** *** Parsing one field *)

Definition mustParseInt (expr : string) : result Z :=
  match Atoi expr with
  | (_, false) => Err (BadInt expr)
  | (num, true) => if num <? 0 then Err (NegativeNumber num expr) else Ok num
  end.

Fixpoint lookupName (key : string) (l : list (string * Z)) : option Z :=
  match l with
  | [] => None
  | (k, v) :: l' => if String.eqb k key then Some v else lookupName key l'
  end.

Definition parseIntOrName (expr : string) (names : option (list (string * Z)))
  : result Z :=
  match names with
  | Some l =>
      match lookupName (ToLower expr) l with
      | Some namedInt => Ok namedInt
      | None => mustParseInt expr
      end
  | None => mustParseInt expr
  end.

Definition getRange (expr : string) (r : bounds) : result Z :=
  let rangeAndStep := Split expr "/" in
  let lowAndHigh := Split (List.hd "" rangeAndStep) "-" in
  let singleDigit := Nat.eqb (List.length lowAndHigh) 1 in
  let low := List.hd "" lowAndHigh in
  try (start, end_, extra) <-
     (if String.eqb low "*" || String.eqb low "?"
      then Ok (min r, max r, starBit)
      else
        try start <- parseIntOrName low (names r) ;
        match lowAndHigh with
        | [_] => Ok (start, start, 0)
        | [_; high] =>
            try end_ <- parseIntOrName high (names r) ;
            Ok (start, end_, 0)
        | _ => Err (TooManyHyphens expr)
        end) ;
  try (end_, step, extra) <-
     match rangeAndStep with
     | [_] => Ok (end_, 1, extra)
     | [_; stepStr] =>
         try step <- mustParseInt stepStr ;
         Ok (if singleDigit then max r else end_,
             step,
             if 1 <? step then 0 else extra)
     | _ => Err (TooManySlashes expr)
     end ;
  if start <? min r then Err (BelowMinimum start (min r) expr)
  else if max r <? end_ then Err (AboveMaximum end_ (max r) expr)
  else if end_ <? start then Err (BeyondEnd start end_ expr)
  else if step =? 0 then Err (ZeroStep expr)
  else Ok (Z.lor (getBits start end_ step) extra).

Fixpoint getField_loop (ranges : list string) (r : bounds) (bits : Z) : result Z :=
  match ranges with
  | [] => Ok bits
  | expr :: ranges' =>
      try bit <- getRange expr r ;
      getField_loop ranges' r (Z.lor bits bit)
  end.

Definition getField (field : string) (r : bounds) : result Z :=
  getField_loop (FieldsFunc field (fun c => c =? 0x2C)) r 0.

(** *** Field count *)

Fixpoint expandFields (pl : list Z) (df fields : list string) (options : Z)
  : list string :=
  match pl, df with
  | place :: pl', d :: df' =>
      if has options place
      then match fields with
           | f :: fs => f :: expandFields pl' df' fs options
           | [] => d :: expandFields pl' df' [] options
           end
      else d :: expandFields pl' df' fields options
  | _, _ => []
  end.

Definition normalizeFields (fields : list string) (options : Z)
  : result (list string) :=
  let '(options, optionals) :=
    if has options SecondOptional then (Z.lor options Second, 1)
    else (options, 0) in
  let '(options, optionals) :=
    if has options DowOptional then (Z.lor options Dow, optionals + 1)
    else (options, optionals) in
  if 1 <? optionals then Err MultipleOptionals else
  let max := Z.of_nat (List.length (List.filter (has options) places)) in
  let min := max - optionals in
  let count := Z.of_nat (List.length fields) in
  if (count <? min) || (max <? count)
  then Err (FieldCount min max count fields)
  else
    try fields <-
      (if (min <? max) && (count =? min)
       then (if has options DowOptional
             then Ok (fields ++ [List.nth 5 defaults ""])%list
             else if has options SecondOptional
             then Ok (List.nth 0 defaults "" :: fields)
             else Err UnknownOptional)
       else Ok fields) ;
    Ok (expandFields places defaults fields options).

(** *** Descriptors *)

Definition Every (duration : Z) : Schedule :=
  let second := 1000000000 in
  let duration := if duration <? second then second else duration in
  ConstantDelaySchedule (duration - Z.rem duration second).

Section Parser.
Context (lib : TimeLib).

Definition parseDescriptor (descriptor : string) (loc : Location)
  : result Schedule :=
  let bit (r : bounds) := shl64 1 (min r) in
  if String.eqb descriptor "@yearly" || String.eqb descriptor "@annually"
  then Ok (SpecSchedule (bit seconds) (bit minutes) (bit hours) (bit dom)
                        (bit months) (all dow) loc)
  else if String.eqb descriptor "@monthly"
  then Ok (SpecSchedule (bit seconds) (bit minutes) (bit hours) (bit dom)
                        (all months) (all dow) loc)
  else if String.eqb descriptor "@weekly"
  then Ok (SpecSchedule (bit seconds) (bit minutes) (bit hours) (all dom)
                        (all months) (bit dow) loc)
  else if String.eqb descriptor "@daily" || String.eqb descriptor "@midnight"
  then Ok (SpecSchedule (bit seconds) (bit minutes) (bit hours) (all dom)
                        (all months) (all dow) loc)
  else if String.eqb descriptor "@hourly"
  then Ok (SpecSchedule (bit seconds) (bit minutes) (all hours) (all dom)
                        (all months) (all dow) loc)
  else
    let every := "@every " in
    if HasPrefix descriptor every
    then match ParseDuration lib (slice descriptor (len every) (len descriptor)) with
         | Some duration => Ok (Every duration)
         | None => Err (BadDuration descriptor)
         end
    else Err (UnrecognizedDescriptor descriptor).

(** *** [Parser.Parse] *)

Definition parseFields (fields : list string) (loc : Location)
  : result Schedule :=
  let f (i : nat) := List.nth i fields "" in
  try second <- getField (f 0%nat) seconds ;
  try minute <- getField (f 1%nat) minutes ;
  try hour <- getField (f 2%nat) hours ;
  try dayofmonth <- getField (f 3%nat) dom ;
  try month <- getField (f 4%nat) months ;
  try dayofweek <- getField (f 5%nat) dow ;
  Ok (SpecSchedule second minute hour dayofmonth month dayofweek loc).

Definition Parse (options : Z) (spec : string) : result Schedule :=
  if len spec =? 0 then Err EmptySpec else
  try (loc, spec) <-
     (if HasPrefix spec "TZ=" || HasPrefix spec "CRON_TZ="
      then
        let i := IndexByte spec " " in
        let eq := IndexByte spec "=" in
        if i <? eq + 1 then Err SliceBoundsPanic else
        match LoadLocation lib (slice spec (eq + 1) i) with
        | None => Err (BadLocation (slice spec (eq + 1) i))
        | Some loc => Ok (loc, TrimSpace (slice spec i (len spec)))
        end
      else Ok ("Local", spec)) ;
  if HasPrefix spec "@"
  then (if has options Descriptor then parseDescriptor spec loc
        else Err (NoDescriptors spec))
  else
    try fields <- normalizeFields (Fields spec) options ;
    parseFields fields loc.

(** [cron.ParseStandard]: minute, hour, day of month, month, day of week,
    and descriptors. *)
Definition standardParser : Z :=
  Z.lor Minute (Z.lor Hour (Z.lor Dom (Z.lor Month (Z.lor Dow Descriptor)))).

Definition ParseStandard (standardSpec : string) : result Schedule :=
  Parse standardParser standardSpec.

(** [cron.WithSeconds()]: the parser of a [Cron] built with this option
    has a mandatory leading seconds field. *)
Definition WithSeconds : Z :=
  Z.lor Second
    (Z.lor Minute (Z.lor Hour (Z.lor Dom (Z.lor Month (Z.lor Dow Descriptor))))).

(** *** The [Cron] registry *)

Record Entry (Job : Type) := mkEntry {
  EntryID : Z;
  EntrySchedule : Schedule;
  EntryJob : Job
}.

Record Cron (Job : Type) := mkCron {
  parser : Z;
  entries : list (Entry Job);
  nextID : Z
}.

Definition New (Job : Type) (parser : Z) : Cron Job := mkCron Job parser [] 0.

(** [Cron.AddFunc]: parse with the registry's parser; on success append an
    entry under a fresh id. *)
Definition AddFunc {Job} (c : Cron Job) (spec : string) (cmd : Job)
  : result Z * Cron Job :=
  match Parse (parser Job c) spec with
  | Err e => (Err e, c)
  | Ok schedule =>
      let id := nextID Job c + 1 in
      (Ok id,
       mkCron Job (parser Job c)
              (entries Job c ++ [mkEntry Job id schedule cmd])%list id)
  end.

End Parser.

Arguments EntryID {Job} _.
Arguments EntrySchedule {Job} _.
Arguments EntryJob {Job} _.
Arguments parser {Job} _.
Arguments entries {Job} _.
Arguments nextID {Job} _.

End cron.

(* ===================================================================== *)
(** ** Package [executor] *)
(* ===================================================================== *)

Module executor.
Import models gostrings.

(** What a single HTTP attempt meets outside the process. [prepareRequest]
    only shapes the outbound request; whether [http.NewRequest] rejects it,
    whether [client.Do] fails, and whether [io.ReadAll] on the response body
    fails are decided by [net/http] and the network. *)

Inductive BodyRead :=
| ReadOk (body : string)
| ReadErr (err : string).

Record Response := mkResponse {
  RespStatusCode : Z;
  RespHeader : gmap string (list string);
  RespBody : BodyRead
}.

Inductive RoundTrip :=
| PrepareErr (err : string)
| DoErr (err : string)
| DoOk (resp : Response).

Record Attempt := mkAttempt {
  newID : UUID;          (* uuid.New() *)
  trip : RoundTrip;
  elapsedMs : Z          (* time.Since(startTime).Milliseconds() *)
}.

(** The world an executor runs in: the wall clock, what the successive HTTP
    attempts will meet, how many attempts were made, and the sleeps taken. *)
Record World := mkWorld {
  now : Time;
  net : nat -> Attempt;
  attempts : nat;
  sleeps : list Z
}.

Definition Sleep (d : Z) (w : World) : World :=
  mkWorld (now w + d) (net w) (attempts w) (sleeps w ++ [d])%list.

(** The body of [HTTPExecutor.Execute] once the attempt's outcome is known. *)
Definition Execute_attempt (task : Task) (startTime : Time) (a : Attempt)
  : TaskResult :=
  match trip a with
  | PrepareErr err =>
      mkTaskResult (newID a) (ID task) startTime None false ∅ None
        (Some ("Failed to prepare request: " ++ err)) (elapsedMs a) startTime
  | DoErr err =>
      mkTaskResult (newID a) (ID task) startTime None false ∅ None
        (Some ("HTTP request failed: " ++ err)) (elapsedMs a) startTime
  | DoOk resp =>
      let StatusCode := RespStatusCode resp in
      let Success := (200 <=? StatusCode) && (StatusCode <? 300) in
      (* first value of every header that has one *)
      let ResponseHeaders := omap (fun values => List.head values) (RespHeader resp) in
      match RespBody resp with
      | ReadErr err =>
          mkTaskResult (newID a) (ID task) startTime (Some StatusCode) Success
            ResponseHeaders None
            (Some ("Failed to read response body: " ++ err))
            (elapsedMs a) startTime
      | ReadOk body =>
          let bodyStr :=
            if 10000 <? len body
            then slice body 0 10000 ++ "... (truncated)"
            else body in
          let ErrorMessage : option string := None in
          let ErrorMessage :=
            if negb Success
            then match ErrorMessage with
                 | None =>
                     Some ("HTTP request returned status " ++ itoa StatusCode)
                 | Some m =>
                     Some (m ++ " (status: " ++ itoa StatusCode ++ ")")
                 end
            else ErrorMessage in
          mkTaskResult (newID a) (ID task) startTime (Some StatusCode) Success
            ResponseHeaders (Some bodyStr) ErrorMessage (elapsedMs a) startTime
      end
  end.

(** [HTTPExecutor.Execute]: one attempt against the world. *)
Definition HTTPExecutor_Execute (task : Task) (w : World) : TaskResult * World :=
  let a := net w (attempts w) in
  (Execute_attempt task (now w) a,
   mkWorld (now w + elapsedMs a * 1000000) (net w) (S (attempts w)) (sleeps w)).

(** *** [RetryExecutor] over any [ExecutorInterface] *)

Section Retry.
Context {W : Type}.

(** [ExecutorInterface.Execute], and [time.Sleep] as seen by the world. *)
Record RetryExecutor := mkRetryExecutor {
  executor : Task -> W -> TaskResult * W;
  sleep : Z -> W -> W;
  maxRetries : Z;
  retryDelay : Z
}.

(** The [for attempt := 0; attempt <= r.maxRetries; attempt++] loop;
    [lastResult] is [None] while it is still the nil pointer. *)
Fixpoint Execute_loop (r : RetryExecutor) (fuel : nat) (attempt : Z)
    (lastResult : option TaskResult) (task : Task) (w : W)
  : option TaskResult * W :=
  match fuel with
  | O => (lastResult, w)
  | S fuel' =>
      if attempt <=? maxRetries r then
        let w := if 0 <? attempt then sleep r (retryDelay r) w else w in
        let '(result, w) := executor r task w in
        if Success result then (Some result, w)
        else Execute_loop r fuel' (attempt + 1) (Some result) task w
      else (lastResult, w)
  end.

Definition Execute (r : RetryExecutor) (task : Task) (w : W)
  : option TaskResult * W :=
  Execute_loop r (Z.to_nat (maxRetries r + 1)) 0 None task w.

(** An executor that also records every result it hands out, the way a
    test double counts calls. *)
Definition recording (inner : Task -> W -> TaskResult * W)
  : Task -> W * list TaskResult -> TaskResult * (W * list TaskResult) :=
  fun task '(w, calls) =>
    let '(result, w') := inner task w in
    (result, (w', (calls ++ [result])%list)).

End Retry.

Arguments RetryExecutor W : clear implicits.

(** [executor.NewRetryExecutor(httpExecutor, maxRetries, retryDelay)] *)
Definition NewRetryExecutor (maxRetries retryDelay : Z) : RetryExecutor World :=
  mkRetryExecutor HTTPExecutor_Execute Sleep maxRetries retryDelay.

Definition second : Z := 1000000000.

(** Notions used in the statements: the truncation marker, and [sleep]
    lifted to a world paired with the record of calls. *)
Definition marker : string := "... (truncated)".

Definition sleepRecording {W} (sleep : Z -> W -> W)
  : Z -> W * list TaskResult -> W * list TaskResult :=
  fun d '(w, calls) => (sleep d w, calls).

(** *** [RetryExecutor.ExecuteWithTimeout]

    The same loop over [ExecutorInterface.ExecuteWithTimeout]. *)

Section RetryWithTimeout.
Context {W : Type}.
Variable executeWithTimeout : Task -> Z -> W -> TaskResult * W.

Fixpoint ExecuteWithTimeout_loop (r : RetryExecutor W) (fuel : nat)
    (attempt : Z) (lastResult : option TaskResult) (task : Task) (timeout : Z)
    (w : W) : option TaskResult * W :=
  match fuel with
  | O => (lastResult, w)
  | S fuel' =>
      if attempt <=? maxRetries r then
        let w := if 0 <? attempt then sleep r (retryDelay r) w else w in
        let '(result, w) := executeWithTimeout task timeout w in
        if Success result then (Some result, w)
        else ExecuteWithTimeout_loop r fuel' (attempt + 1) (Some result) task
                                     timeout w
      else (lastResult, w)
  end.

Definition ExecuteWithTimeout (r : RetryExecutor W) (task : Task) (timeout : Z)
    (w : W) : option TaskResult * W :=
  ExecuteWithTimeout_loop r (Z.to_nat (maxRetries r + 1)) 0 None task timeout w.

End RetryWithTimeout.

End executor.

(* ===================================================================== *)
(** ** Package [metrics] *)
(* ===================================================================== *)

Module metrics.
Import models.

(** Two's-complement wrap-around of [int64] arithmetic. *)
Definition wrap64 (z : Z) : Z := (z + 2 ^ 63) mod 2 ^ 64 - 2 ^ 63.

(** [float64(n)] for an [int64] [n]. *)
Definition float64 (n : Z) : float :=
  if n =? - 2 ^ 63 then (-9223372036854775808)%float
  else if n <? 0 then (- PrimFloat.of_uint63 (Uint63.of_Z (- n)))%float
  else PrimFloat.of_uint63 (Uint63.of_Z n).

Record Metrics := mkMetrics {
  TotalTasksExecuted : Z;
  SuccessfulTasks : Z;
  FailedTasks : Z;
  TotalExecutionTime : Z;
  AverageExecutionTime : Z;
  TasksPerMinute : float;
  lastMinuteExecutions : list Time
}.

Definition NewMetrics : Metrics := mkMetrics 0 0 0 0 0 0%float [].

(** The pruning loop: cut the window at the first entry after [cutoff]. *)
Fixpoint prune (cutoff : Time) (l : list Time) : option (list Time) :=
  match l with
  | [] => None
  | t :: l' => if cutoff <? t then Some l else prune cutoff l'
  end.

Definition minute : Z := 60 * 1000000000.

(** [RecordTaskExecution]; [None] is the integer-division panic when the
    execution counter has wrapped to zero. *)
Definition RecordTaskExecution (m : Metrics) (now : Time) (duration : Z)
    (success : bool) : option Metrics :=
  let total := wrap64 (TotalTasksExecuted m + 1) in
  let time := wrap64 (TotalExecutionTime m + duration) in
  if total =? 0 then None else
  let average := wrap64 (Z.quot time total) in
  let successful := if success then wrap64 (SuccessfulTasks m + 1) else SuccessfulTasks m in
  let failed := if success then FailedTasks m else wrap64 (FailedTasks m + 1) in
  let appended := (lastMinuteExecutions m ++ [now])%list in
  let cutoff := now - minute in
  let window := match prune cutoff appended with
                | Some l => l
                | None => appended
                end in
  Some (mkMetrics total successful failed time average
                  (float64 (Z.of_nat (List.length window))) window).

(** The snapshot mapping returned by [GetMetrics], one field per key. *)
Record Snapshot := mkSnapshot {
  total_tasks_executed : Z;
  successful_tasks : Z;
  failed_tasks : Z;
  success_rate_percent : float;
  average_execution_ms : Z;
  tasks_per_minute : float
}.

Definition GetMetrics (m : Metrics) : Snapshot :=
  let successRate := 0%float in
  let successRate :=
    if 0 <? TotalTasksExecuted m
    then (float64 (SuccessfulTasks m) / float64 (TotalTasksExecuted m) * 100)%float
    else successRate in
  mkSnapshot (TotalTasksExecuted m) (SuccessfulTasks m) (FailedTasks m)
             successRate (Z.quot (AverageExecutionTime m) 1000000)
             (TasksPerMinute m).

Definition Reset (m : Metrics) : Metrics := mkMetrics 0 0 0 0 0 0%float [].

(** The states a [Metrics] value goes through: created by [NewMetrics],
    then any sequence of [RecordTaskExecution] and [Reset]. *)
Inductive reachable : Metrics -> Prop :=
| reach_new : reachable NewMetrics
| reach_reset (m : Metrics) : reachable m -> reachable (Reset m)
| reach_record (m m' : Metrics) (now : Time) (duration : Z) (success : bool) :
    reachable m ->
    RecordTaskExecution m now duration success = Some m' ->
    reachable m'.

(** Notions used in the statements: one recorded execution (clock reading,
    duration, outcome), a run of recordings in order, and the sum of the
    durations. *)
Record Execution := mkExecution {
  readAt : Time;
  took : Z;
  succeeded : bool
}.

Fixpoint RecordAll (m : Metrics) (es : list Execution) : option Metrics :=
  match es with
  | [] => Some m
  | e :: es' =>
      match RecordTaskExecution m (readAt e) (took e) (succeeded e) with
      | None => None
      | Some m' => RecordAll m' es'
      end
  end.

Fixpoint totalTook (es : list Execution) : Z :=
  match es with
  | [] => 0
  | e :: es' => took e + totalTook es'
  end.

End metrics.

(* ===================================================================== *)
(** ** Package [repository]

    The two tables behind gorm: [tasks] keyed by primary key and the
    append-only [task_results]. An [error] is [None] when nil. The store
    is reachable: statements fail only on the schema's key constraints. *)
(* ===================================================================== *)

Module repository.
Import models.

Record DB := mkDB {
  tasks : gmap UUID Task;
  task_results : list TaskResult
}.

Definition error := option string.

(** [TaskRepository.GetByID]: [First] fails with record-not-found. *)
Definition GetByID (id : UUID) (db : DB) : option Task := tasks db !! id.

(** [TaskRepository.Update]: stamp [UpdatedAt] and [Save] the whole record.
    [Save] writes every column of the row that has the record's identity,
    and inserts the record when no row has it. This is [Save] on a record
    that carries its identity and comes from the store, as the records the
    program saves do (a task read back by [GetByID], or one armed after
    [Create]): on a record without identity [Save] runs [Create] instead,
    and an insert fills an empty status and a zero creation instant as
    [CreateTask] below does. The connection to the store is taken as up,
    so the write is not refused. *)
Definition Update (task : Task) (now : Time) (db : DB) : Task * error * DB :=
  let task := withUpdatedAt task now in
  (task, None, mkDB (<[ID task := task]> (tasks db)) (task_results db)).

(** [TaskRepository.Delete]: set the [status] column of the row, if any, to
    cancelled. *)
Definition Delete (id : UUID) (now : Time) (db : DB) : error * DB :=
  (None,
   mkDB (alter (fun t => withUpdatedAt (withStatus t TaskStatusCancelled) now)
               id (tasks db))
        (task_results db)).

(** The [WHERE] clause of [GetScheduledTasks]. *)
Definition isDue (now : Time) (t : Task) : bool :=
  String.eqb (Status t) TaskStatusScheduled &&
  match NextRun t with
  | None => true
  | Some n => n <=? now
  end.

Definition GetScheduledTasks (now : Time) (db : DB) : list Task * error :=
  (List.filter (isDue now) (map_to_list (tasks db)).*2, None).

(** [TaskRepository.UpdateNextRun]: set the [next_run] column of the row. *)
Definition UpdateNextRun (id : UUID) (nextRun : option Time) (now : Time)
    (db : DB) : error * DB :=
  (None,
   mkDB (alter (fun t => withUpdatedAt (withNextRun t nextRun) now)
               id (tasks db))
        (task_results db)).

(** [ResultRepository.Create]: insert a row; the primary key must be fresh
    and the foreign key [task_id] must reference a task. *)
Definition Create (result : TaskResult) (db : DB) : error * DB :=
  match tasks db !! TaskID result with
  | None => (Some "violates foreign key constraint", db)
  | Some _ =>
      if existsb (fun r => N.eqb (ResultID r) (ResultID result)) (task_results db)
      then (Some "duplicate key value", db)
      else (None, mkDB (tasks db) (task_results db ++ [result])%list)
  end.

(** Notions used in the statements: the rows of [task_results] linked to
    a task, and the primary key of [tasks] being the task's identity. *)
Definition resultsOf (id : UUID) (db : DB) : list TaskResult :=
  List.filter (fun r => N.eqb (TaskID r) id) (task_results db).

Definition keyed (db : DB) : Prop :=
  map_Forall (fun (k : UUID) (t : Task) => ID t = k) (tasks db).

(** [TaskRepository.Create]: insert the task. Before the insert gorm
    fills the fields left zero that have a default: the status becomes
    scheduled, and the creation and update instants become the clock
    reading [now]. A zero identity is replaced by the column default, a
    generated identity [fresh]. The insert fails on an identity already in
    the table. The task is handed back as gorm leaves it, with these
    fields filled in. *)
Definition withID (t : Task) (id : UUID) : Task :=
  mkTask id (Name t) (TriggerType_ t) (TriggerTime t) (CronExpr t)
         (Method t) (URL t) (Headers t) (Payload t) (Status t)
         (CreatedAt t) (UpdatedAt t) (NextRun t).

Definition withDefaults (t : Task) (now : Time) : Task :=
  mkTask (ID t) (Name t) (TriggerType_ t) (TriggerTime t) (CronExpr t)
         (Method t) (URL t) (Headers t) (Payload t)
         (if String.eqb (Status t) "" then TaskStatusScheduled else Status t)
         (if CreatedAt t =? zeroTime then now else CreatedAt t)
         (if UpdatedAt t =? zeroTime then now else UpdatedAt t)
         (NextRun t).

Definition CreateTask (task : Task) (fresh : UUID) (now : Time) (db : DB)
  : Task * error * DB :=
  let task := withDefaults task now in
  let task := if N.eqb (ID task) Nil then withID task fresh else task in
  match tasks db !! ID task with
  | Some _ => (task, Some "duplicate key value", db)
  | None => (task, None, mkDB (<[ID task := task]> (tasks db)) (task_results db))
  end.

(** [ORDER BY key DESC]: a stable insertion sort, largest key first. *)
Fixpoint insertDesc {A} (key : A -> Z) (x : A) (l : list A) : list A :=
  match l with
  | [] => [x]
  | y :: l' => if key y <? key x then x :: l else y :: insertDesc key x l'
  end.

Definition sortDesc {A} (key : A -> Z) (l : list A) : list A :=
  fold_right (insertDesc key) [] l.

(** Notion used in the statements: [a] comes before [b] in descending
    order of [key]. *)
Definition descending {A} (key : A -> Z) : A -> A -> Prop :=
  fun a b => key b <= key a.

(** [Limit(limit).Offset(offset)]: gorm emits [OFFSET] for a positive
    offset and [LIMIT] for a non-negative limit. *)
Definition limitOffset {A} (limit offset : Z) (rows : list A) : list A :=
  let rows := if 0 <? offset then skipn (Z.to_nat offset) rows else rows in
  if limit <? 0 then rows else firstn (Z.to_nat limit) rows.

(** [TaskRepository.List]: the page, the total count and the error. *)
Definition List_ (limit offset : Z) (status : string) (db : DB)
  : list Task * Z * error :=
  let query :=
    if negb (String.eqb status "")
    then List.filter (fun t => String.eqb (Status t) status)
                     (map_to_list (tasks db)).*2
    else (map_to_list (tasks db)).*2 in
  let total := Z.of_nat (List.length query) in
  (limitOffset limit offset (sortDesc CreatedAt query), total, None).

(** [ResultRepository.GetByTaskID] *)
Definition GetByTaskID (taskID : UUID) (limit offset : Z) (db : DB)
  : list TaskResult * Z * error :=
  let query := List.filter (fun r => N.eqb (TaskID r) taskID) (task_results db) in
  let total := Z.of_nat (List.length query) in
  (limitOffset limit offset (sortDesc RunAt query), total, None).

(** [ResultRepository.List]: optional filters on the task and on success.
    The preloaded [Task] of each row is not represented. *)
Definition ListResults (limit offset : Z) (taskID : option UUID)
    (success : option bool) (db : DB) : list TaskResult * Z * error :=
  let query := task_results db in
  let query :=
    match taskID with
    | Some id => List.filter (fun r => N.eqb (TaskID r) id) query
    | None => query
    end in
  let query :=
    match success with
    | Some b => List.filter (fun r => Bool.eqb (Success r) b) query
    | None => query
    end in
  let total := Z.of_nat (List.length query) in
  (limitOffset limit offset (sortDesc RunAt query), total, None).

End repository.

(* ===================================================================== *)
(** ** Package [scheduler] *)
(* ===================================================================== *)

Module scheduler.
Import models gostrings executor metrics repository.

(** A one-off timer created by [time.AfterFunc]: the task its callback
    captured, the instant it fires, and whether [Stop] was called. *)
Record Timer := mkTimer {
  timerTask : Task;
  fireAt : Time;
  stopped : bool
}.

Record Scheduler := mkScheduler {
  store : DB;                                  (* taskRepo, resultRepo *)
  executor : RetryExecutor World;
  taskLogger : option (list (UUID * TaskResult));  (* nil when absent *)
  metrics : Metrics;
  cron : cron.Cron Task;                       (* jobs capture their task *)
  oneOffTasks : gmap UUID Timer;
  goroutines : list Task;                      (* started [go s.executeTask] *)
  world : World
}.

Definition setStore (s : Scheduler) (db : DB) : Scheduler :=
  mkScheduler db (executor s) (taskLogger s) (metrics s) (cron s)
              (oneOffTasks s) (goroutines s) (world s).

Definition setCron (s : Scheduler) (c : cron.Cron Task) : Scheduler :=
  mkScheduler (store s) (executor s) (taskLogger s) (metrics s) c
              (oneOffTasks s) (goroutines s) (world s).

Definition setTimers (s : Scheduler) (m : gmap UUID Timer) : Scheduler :=
  mkScheduler (store s) (executor s) (taskLogger s) (metrics s) (cron s)
              m (goroutines s) (world s).

(** [go s.executeTask(task)] *)
Definition spawn (s : Scheduler) (task : Task) : Scheduler :=
  mkScheduler (store s) (executor s) (taskLogger s) (metrics s) (cron s)
              (oneOffTasks s) (goroutines s ++ [task])%list (world s).

(** The wall clock moving on by [d] while the scheduler is idle. *)
Definition elapse (d : Z) (s : Scheduler) : Scheduler :=
  mkScheduler (store s) (executor s) (taskLogger s) (metrics s) (cron s)
              (oneOffTasks s) (goroutines s)
              (mkWorld (now (world s) + d) (net (world s)) (attempts (world s))
                       (sleeps (world s))).

(** [NewScheduler]: the HTTP executor wrapped with 2 retries, 5 s apart, and
    a cron registry whose parser has a seconds field. *)
Definition NewScheduler (db : DB) (taskLogger : option (list (UUID * TaskResult)))
    (metrics : Metrics) (w : World) : Scheduler :=
  mkScheduler db (NewRetryExecutor 2 (5 * second)) taskLogger metrics
              (cron.New Task cron.WithSeconds) ∅ [] w.

(** Notion used in the statements: a dispatch on [s] does not panic, that
    is, the task logger is present, the executor makes at least one
    attempt, and the execution counter is not about to wrap to zero. *)
Definition canDispatch (s : Scheduler) : bool :=
  match taskLogger s with Some _ => true | None => false end
  && (0 <=? maxRetries (executor s))
  && negb (wrap64 (TotalTasksExecuted (metrics s) + 1) =? 0).

Section WithTimeLib.
Context (lib : cron.TimeLib).

(** [calculateNextCronRun]: a five-field parser without descriptors.
    [None] is the parser's slice-bounds panic. *)
Definition calculateNextCronRun (cronExpr : string) (now : Time)
  : option (cron.result Time) :=
  let parser :=
    Z.lor cron.Minute (Z.lor cron.Hour (Z.lor cron.Dom (Z.lor cron.Month cron.Dow))) in
  match cron.Parse lib parser cronExpr with
  | cron.Err cron.SliceBoundsPanic => None
  | cron.Err e => Some (cron.Err e)
  | cron.Ok schedule => Some (cron.Ok (cron.Next lib schedule now))
  end.

(** [executeTask]. [None] is a panic: a nil result, a nil task logger, or
    the metrics division. The task is returned as the callee left it. *)
Definition executeTask (task : Task) (s : Scheduler) : option (Task * Scheduler) :=
  let startTime := now (world s) in
  match Execute (executor s) task (world s) with
  | (None, _) => None
  | (Some result, w) =>
      let result := withRun result startTime (ID task) in
      let duration := wrap64 (DurationMs result * 1000000) in
      match RecordTaskExecution (metrics s) (now w) duration (Success result) with
      | None => None
      | Some m =>
          match taskLogger s with
          | None => None
          | Some entries =>
              let logged := Some (entries ++ [(ID task, result)])%list in
              let '(_, db) := Create result (store s) in
              if String.eqb (TriggerType_ task) TriggerTypeOneOff
              then
                let task := withStatus task TaskStatusCompleted in
                let '(task, _, db) := Update task (now w) db in
                Some (task, mkScheduler db (executor s) logged m (cron s)
                                        (oneOffTasks s) (goroutines s) w)
              else
                Some (task, mkScheduler db (executor s) logged m (cron s)
                                        (oneOffTasks s) (goroutines s) w)
          end
      end
  end.

(** [scheduleOneOffTask] *)
Definition scheduleOneOffTask (task : Task) (s : Scheduler) : error * Scheduler :=
  match TriggerTime task with
  | None => (None, s)
  | Some triggerTime =>
      let s :=
        match oneOffTasks s !! ID task with
        | Some timer =>
            setTimers s (<[ID task := mkTimer (timerTask timer) (fireAt timer) true]>
                           (oneOffTasks s))
        | None => s
        end in
      let duration := triggerTime - now (world s) in
      if duration <=? 0
      then (None, spawn s task)
      else (None, setTimers s (<[ID task := mkTimer task triggerTime false]>
                                 (oneOffTasks s)))
  end.

(** [scheduleCronTask]: the error of [AddFunc] is handed back. [None] is
    the parser's slice-bounds panic on a time-zone prefix without a space. *)
Definition scheduleCronTask (task : Task) (s : Scheduler)
  : option (option cron.ParseError * Scheduler) :=
  match CronExpr task with
  | None => Some (None, s)
  | Some cronExpr =>
      match cron.AddFunc lib (cron s) cronExpr task with
      | (cron.Err cron.SliceBoundsPanic, _) => None
      | (cron.Err err, _) => Some (Some err, s)
      | (cron.Ok _, c) => Some (None, setCron s c)
      end
  end.

(** [ScheduleTask] *)
Definition ScheduleTask (task : Task) (s : Scheduler)
  : option (option cron.ParseError * Scheduler) :=
  if String.eqb (TriggerType_ task) TriggerTypeOneOff
  then let '(_, s) := scheduleOneOffTask task s in Some (None, s)
  else if String.eqb (TriggerType_ task) TriggerTypeCron
  then scheduleCronTask task s
  else Some (None, s).

(** [UnscheduleTask] *)
Definition UnscheduleTask (taskID : UUID) (s : Scheduler) : Scheduler :=
  match oneOffTasks s !! taskID with
  | Some _ => setTimers s (delete taskID (oneOffTasks s))
  | None => s
  end.

(** The callback given to [time.AfterFunc] by [scheduleOneOffTask], run
    when the armed timer of [id] fires. *)
Definition timerFires (id : UUID) (s : Scheduler) : option Scheduler :=
  match oneOffTasks s !! id with
  | Some timer =>
      if stopped timer || (now (world s) <? fireAt timer) then Some s
      else
        match executeTask (timerTask timer) s with
        | None => None
        | Some (task, s) => Some (setTimers s (delete (ID task) (oneOffTasks s)))
        end
  | None => Some s
  end.

(** The callback given to [cron.AddFunc] by [scheduleCronTask], run on a
    tick of the entry whose job captured [task]. *)
Definition cronTick (task : Task) (s : Scheduler) : option Scheduler :=
  match GetByID (ID task) (store s) with
  | None => Some s
  | Some currentTask =>
      if negb (String.eqb (Status currentTask) TaskStatusScheduled) then Some s
      else
        match executeTask currentTask s with
        | None => None
        | Some (currentTask, s) =>
            match CronExpr currentTask with
            | None => None
            | Some cronExpr =>
                match calculateNextCronRun cronExpr (now (world s)) with
                | None => None
                | Some (cron.Ok nextRun) =>
                    let '(_, db) :=
                      UpdateNextRun (ID currentTask) (Some nextRun)
                                    (now (world s)) (store s) in
                    Some (setStore s db)
                | Some (cron.Err _) => Some s
                end
            end
        end
  end.

(** The body of the [for _, task := range tasks] loop of [checkMissedTasks]. *)
Definition checkMissedTask (now : Time) (task : Task) (s : Scheduler)
  : option Scheduler :=
  match NextRun task with
  | Some nextRun =>
      if nextRun <? now then
        if String.eqb (TriggerType_ task) TriggerTypeOneOff
        then Some (spawn s task)
        else if String.eqb (TriggerType_ task) TriggerTypeCron
        then
          match CronExpr task with
          | None => None
          | Some cronExpr =>
              match calculateNextCronRun cronExpr (executor.now (world s)) with
              | None => None
              | Some (cron.Ok nextRun) =>
                  let '(_, db) :=
                    UpdateNextRun (ID task) (Some nextRun)
                                  (executor.now (world s)) (store s) in
                  Some (setStore s db)
              | Some (cron.Err _) => Some s
              end
          end
        else Some s
      else Some s
  | None => Some s
  end.

Fixpoint checkMissedTasks_loop (now : Time) (tasks : list Task) (s : Scheduler)
  : option Scheduler :=
  match tasks with
  | [] => Some s
  | task :: tasks' =>
      match checkMissedTask now task s with
      | None => None
      | Some s => checkMissedTasks_loop now tasks' s
      end
  end.

(** [checkMissedTasks]: one recovery sweep. *)
Definition checkMissedTasks (s : Scheduler) : option Scheduler :=
  match GetScheduledTasks (now (world s)) (store s) with
  | (_, Some _) => Some s
  | (tasks, None) => checkMissedTasks_loop (now (world s)) tasks s
  end.

(** Notions used in the statements of the recovery sweep: a planned run
    strictly before [now]; the tasks the sweep hands to a worker; a task on
    which the sweep cannot panic (a cron task carries an expression that
    the parser does not panic on); and what the sweep does to the tasks
    table for one examined task. *)
Definition missed (now : Time) (t : Task) : bool :=
  match NextRun t with
  | Some nextRun => nextRun <? now
  | None => false
  end.

Definition missedOneOff (now : Time) (t : Task) : bool :=
  missed now t && String.eqb (TriggerType_ t) TriggerTypeOneOff.

Definition sweepable (now : Time) (t : Task) : bool :=
  if String.eqb (TriggerType_ t) TriggerTypeCron then
    match CronExpr t with
    | Some cronExpr =>
        match calculateNextCronRun cronExpr now with
        | Some _ => true
        | None => false
        end
    | None => false
    end
  else true.

Definition sweepRow (now : Time) (m : gmap UUID Task) (t : Task)
  : gmap UUID Task :=
  if missed now t && String.eqb (TriggerType_ t) TriggerTypeCron then
    match CronExpr t with
    | Some cronExpr =>
        match calculateNextCronRun cronExpr now with
        | Some (cron.Ok nextRun) =>
            alter (fun row => withUpdatedAt (withNextRun row (Some nextRun)) now)
                  (ID t) m
        | _ => m
        end
    | None => m
    end
  else m.

(** A run of cron ticks, one per listed captured task, in order. *)
Fixpoint cronTicks (ticks : list Task) (s : Scheduler) : option Scheduler :=
  match ticks with
  | [] => Some s
  | task :: ticks' =>
      match cronTick task s with
      | None => None
      | Some s => cronTicks ticks' s
      end
  end.

(** The loop of [loadExistingTasks]: a task that fails to schedule is
    logged and skipped. Each iteration has its own task value. *)
Fixpoint loadExistingTasks_loop (tasks : list Task) (s : Scheduler)
  : option Scheduler :=
  match tasks with
  | [] => Some s
  | task :: tasks' =>
      match ScheduleTask task s with
      | None => None
      | Some (_, s) => loadExistingTasks_loop tasks' s
      end
  end.

(** [loadExistingTasks] *)
Definition loadExistingTasks (s : Scheduler) : option (error * Scheduler) :=
  match GetScheduledTasks (now (world s)) (store s) with
  | (_, Some err) => Some (Some err, s)
  | (tasks, None) =>
      match loadExistingTasks_loop tasks s with
      | None => None
      | Some s => Some (None, s)
      end
  end.

End WithTimeLib.

(** Notion used in the statements: between [s] and [s'] one dispatch of
    the task [id] was logged. *)
Definition dispatched (id : UUID) (s s' : Scheduler) : Prop :=
  exists entries result,
    taskLogger s = Some entries /\
    taskLogger s' = Some (entries ++ [(id, result)])%list.

(** Notions used in the statements: the timer of [id] can still fire; every
    timer sits under the identity of the task it captured; a task that
    appears in no timer, registry entry or started worker. *)
Definition liveTimer (id : UUID) (s : Scheduler) : bool :=
  match oneOffTasks s !! id with
  | Some timer => negb (stopped timer)
  | None => false
  end.

Definition timersKeyed (s : Scheduler) : Prop :=
  map_Forall (fun (k : UUID) (timer : Timer) => ID (timerTask timer) = k)
             (oneOffTasks s).

(** The parser options of [calculateNextCronRun]. *)
Definition fiveFieldParser : Z :=
  Z.lor cron.Minute (Z.lor cron.Hour (Z.lor cron.Dom (Z.lor cron.Month cron.Dow))).

Definition unarmed (id : UUID) (s : Scheduler) : Prop :=
  oneOffTasks s !! id = None /\
  Forall (fun e => ID (cron.EntryJob e) <> id) (cron.entries (cron s)) /\
  Forall (fun t => ID t <> id) (goroutines s).

End scheduler.

(* ===================================================================== *)
(** ** Package [handlers] *)
(* ===================================================================== *)

Module handlers.
Import models gostrings repository.

Record CreateTaskTrigger := mkTrigger {
  Type_ : TriggerType;
  DateTime : option Time;
  Cron : option string
}.

Section WithTimeLib.
Context (lib : cron.TimeLib).

(** [validateTrigger]: [Some (Some meta)] is the error with that message,
    [Some None] is nil, [None] is the cron parser's panic. *)
Definition validateTrigger (trigger : CreateTaskTrigger) (now : Time)
  : option (option string) :=
  if String.eqb (Type_ trigger) TriggerTypeOneOff then
    match DateTime trigger with
    | None => Some (Some "datetime is required for one-off triggers")
    | Some dateTime =>
        if dateTime <? now then Some (Some "datetime must be in the future")
        else Some None
    end
  else if String.eqb (Type_ trigger) TriggerTypeCron then
    match Cron trigger with
    | None => Some (Some "cron expression is required for cron triggers")
    | Some c =>
        if String.eqb c ""
        then Some (Some "cron expression is required for cron triggers")
        else match cron.ParseStandard lib c with
             | cron.Err cron.SliceBoundsPanic => None
             | cron.Err _ => Some (Some "invalid cron expression")
             | cron.Ok _ => Some None
             end
    end
  else Some None.

End WithTimeLib.

(** [c.DefaultQuery(key, defaultValue)] *)
Definition DefaultQuery (query : option string) (defaultValue : string) : string :=
  match query with
  | Some v => v
  | None => defaultValue
  end.

(** The page and limit of [GetTasks], from the raw query parameters:
    (page, limit, offset). *)
Definition GetTasks_paging (pageQuery limitQuery : option string) : Z * Z * Z :=
  let page := fst (Atoi (DefaultQuery pageQuery "1")) in
  let limit := fst (Atoi (DefaultQuery limitQuery "10")) in
  let page := if page <? 1 then 1 else page in
  let limit := if (limit <? 1) || (100 <? limit) then 10 else limit in
  let offset := metrics.wrap64 ((page - 1) * limit) in
  (page, limit, offset).

(** The page and limit of [GetTaskResults]. *)
Definition GetTaskResults_paging (pageQuery limitQuery : option string)
  : Z * Z * Z :=
  let page := fst (Atoi (DefaultQuery pageQuery "1")) in
  let limit := fst (Atoi (DefaultQuery limitQuery "10")) in
  let page := if page <? 1 then 1 else page in
  let limit := if (limit <? 1) || (100 <? limit) then 10 else limit in
  let offset := metrics.wrap64 ((page - 1) * limit) in
  (page, limit, offset).

(** The page and limit of [ResultHandler.GetResults]. *)
Definition GetResults_paging (pageQuery limitQuery : option string) : Z * Z * Z :=
  let page := fst (Atoi (DefaultQuery pageQuery "1")) in
  let limit := fst (Atoi (DefaultQuery limitQuery "10")) in
  let page := if page <? 1 then 1 else page in
  let limit := if (limit <? 1) || (100 <? limit) then 10 else limit in
  let offset := metrics.wrap64 ((page - 1) * limit) in
  (page, limit, offset).

(** [DeleteTask]: the HTTP status answered and the store afterwards. The
    handler marks the row; it holds no scheduler. *)
Definition DeleteTask (id : UUID) (now : Time) (db : DB) : Z * DB :=
  match GetByID id db with
  | None => (404, db)
  | Some _ =>
      match Delete id now db with
      | (Some _, db) => (500, db)
      | (None, db) => (200, db)
      end
  end.

End handlers.

(* ===================================================================== *)
(** ** Package [handlers]: the task endpoints of [task_handler.go] *)
(* ===================================================================== *)

Module task_handler.
Import models gostrings repository handlers.

(** *** Requests, as gin binds them

    The payload of an action is held as the JSON text that [json.Marshal]
    gives for it. *)

Record CreateTaskAction := mkAction {
  ActionMethod : string;
  ActionURL : string;
  ActionHeaders : gmap string string;
  ActionPayload : option string
}.

Record CreateTaskRequest := mkCreateTaskRequest {
  ReqName : string;
  ReqTrigger : CreateTaskTrigger;
  ReqAction : CreateTaskAction
}.

Record UpdateTaskRequest := mkUpdateTaskRequest {
  UpdName : option string;
  UpdTrigger : option CreateTaskTrigger;
  UpdAction : option CreateTaskAction
}.

(** The [pagination] object of a list response. *)
Record Pagination := mkPagination {
  page : Z;
  limit : Z;
  total : Z;
  total_pages : Z
}.

Section Handlers.
Context (lib : cron.TimeLib).

(** [TaskHandler.calculateNextCronRun]: a five-field parser without
    descriptors. [None] is the parser's slice-bounds panic. *)
Definition calculateNextCronRun (cronExpr : string) (now : Time)
  : option (cron.result Time) :=
  let parser :=
    Z.lor cron.Minute (Z.lor cron.Hour (Z.lor cron.Dom (Z.lor cron.Month cron.Dow))) in
  match cron.Parse lib parser cronExpr with
  | cron.Err cron.SliceBoundsPanic => None
  | cron.Err e => Some (cron.Err e)
  | cron.Ok schedule => Some (cron.Ok (cron.Next lib schedule now))
  end.

(** The trigger fields a handler gives a task: trigger time, cron
    expression and next run; [previous] is the next run the task had.
    [None] is a panic: a nil cron expression dereferenced, or the parser's. *)
Definition triggerFields (trigger : CreateTaskTrigger) (now : Time)
    (previous : option Time)
  : option (option Time * option string * option Time) :=
  if String.eqb (Type_ trigger) TriggerTypeOneOff
  then Some (DateTime trigger, None, DateTime trigger)
  else
    match Cron trigger with
    | None => None
    | Some c =>
        match calculateNextCronRun c now with
        | None => None
        | Some (cron.Ok nextRun) => Some (None, Some c, Some nextRun)
        | Some (cron.Err _) => Some (None, Some c, previous)
        end
    end.

(** [CreateTask], from the bound request on: the HTTP status, the task
    answered and the store afterwards. [None] is a panic of the handler.
    One is the answer to a refused trigger: the error [validateTrigger]
    returns wraps a [gin.Error] whose own [Err] is nil, and building the
    400 answer calls [err.Error()], which calls [Error] on that nil. (The
    router of [main] recovers a handler's panic into an empty 500
    answer.) *)
Definition CreateTask (req : CreateTaskRequest) (now : Time) (fresh : UUID)
    (db : DB) : option (Z * option Task * DB) :=
  match validateTrigger lib (ReqTrigger req) now with
  | None => None
  | Some (Some _) => None
  | Some None =>
      match triggerFields (ReqTrigger req) now None with
      | None => None
      | Some (triggerTime, cronExpr, nextRun) =>
          let task :=
            mkTask Nil (ReqName req) (Type_ (ReqTrigger req)) triggerTime cronExpr
                   (ActionMethod (ReqAction req)) (ActionURL (ReqAction req))
                   (ActionHeaders (ReqAction req)) (ActionPayload (ReqAction req))
                   TaskStatusScheduled now now nextRun in
          match repository.CreateTask task fresh now db with
          | (_, Some _, db) => Some (500, None, db)
          | (task, None, db) => Some (201, Some task, db)
          end
      end
  end.

(** [GetTask] *)
Definition GetTask (id : UUID) (db : DB) : Z * option Task :=
  match GetByID id db with
  | None => (404, None)
  | Some task => (200, Some task)
  end.

(** [UpdateTask], from the parsed identity and the bound request on. A
    refused trigger makes the handler panic as in [CreateTask]. *)
Definition UpdateTask (id : UUID) (req : UpdateTaskRequest) (now : Time)
    (db : DB) : option (Z * option Task * DB) :=
  match GetByID id db with
  | None => Some (404, None, db)
  | Some task =>
      let name := match UpdName req with Some n => n | None => Name task end in
      match
        match UpdTrigger req with
        | None =>
            Some (TriggerType_ task, TriggerTime task, CronExpr task, NextRun task)
        | Some trigger =>
            match validateTrigger lib trigger now with
            | None => None
            | Some (Some _) => None
            | Some None =>
                match triggerFields trigger now (NextRun task) with
                | None => None
                | Some (triggerTime, cronExpr, nextRun) =>
                    Some (Type_ trigger, triggerTime, cronExpr, nextRun)
                end
            end
        end
      with
      | None => None
      | Some (triggerType, triggerTime, cronExpr, nextRun) =>
          let '(method, url, headers, payload) :=
            match UpdAction req with
            | Some action =>
                (ActionMethod action, ActionURL action, ActionHeaders action,
                 ActionPayload action)
            | None => (Method task, URL task, Headers task, Payload task)
            end in
          let task :=
            mkTask (ID task) name triggerType triggerTime cronExpr method url
                   headers payload (Status task) (CreatedAt task)
                   (UpdatedAt task) nextRun in
          match Update task now db with
          | (_, Some _, db) => Some (500, None, db)
          | (task, None, db) => Some (200, Some task, db)
          end
      end
  end.

End Handlers.

(** [total_pages]: [(total + int64(limit) - 1) / int64(limit)] *)
Definition totalPages (total limit : Z) : Z :=
  metrics.wrap64 (Z.quot (metrics.wrap64 (total + limit - 1)) limit).


(** [GetTaskResults] *)
Definition GetTaskResults (id : UUID) (pageQuery limitQuery : option string)
    (db : DB) : Z * list TaskResult * option Pagination :=
  match GetByID id db with
  | None => (404, [], None)
  | Some _ =>
      let '(page, limit, offset) := GetTaskResults_paging pageQuery limitQuery in
      match GetByTaskID id limit offset db with
      | (_, _, Some _) => (500, [], None)
      | (results, total, None) =>
          (200, results,
           Some (mkPagination page limit total (totalPages total limit)))
      end
  end.

End task_handler.

(* ===================================================================== *)
(** ** Package [service] *)
(* ===================================================================== *)

Module service.
Import models executor repository scheduler.

(** The error a service method hands back: the store's or the scheduler's. *)
Inductive serviceError :=
| StoreError (err : string)
| ScheduleError (err : cron.ParseError).

Section WithTimeLib.
Context (lib : cron.TimeLib).

(** [TaskService.CreateTask]: save, then schedule. *)
Definition CreateTask (task : Task) (fresh : UUID) (s : Scheduler)
  : option (Task * option serviceError * Scheduler) :=
  match repository.CreateTask task fresh (now (world s)) (store s) with
  | (task, Some err, _) => Some (task, Some (StoreError err), s)
  | (task, None, db) =>
      match ScheduleTask lib task (setStore s db) with
      | None => None
      | Some (err, s) => Some (task, option_map ScheduleError err, s)
      end
  end.

(** [TaskService.UpdateTask]: unschedule, save, reschedule if scheduled. *)
Definition UpdateTask (task : Task) (s : Scheduler)
  : option (Task * option serviceError * Scheduler) :=
  let s := UnscheduleTask (ID task) s in
  match Update task (now (world s)) (store s) with
  | (task, Some err, db) => Some (task, Some (StoreError err), setStore s db)
  | (task, None, db) =>
      let s := setStore s db in
      if String.eqb (Status task) TaskStatusScheduled
      then match ScheduleTask lib task s with
           | None => None
           | Some (err, s) => Some (task, option_map ScheduleError err, s)
           end
      else Some (task, None, s)
  end.

End WithTimeLib.

(** [TaskService.DeleteTask]: unschedule, then mark cancelled. *)
Definition DeleteTask (id : UUID) (s : Scheduler) : option serviceError * Scheduler :=
  let s := UnscheduleTask id s in
  let '(err, db) := Delete id (now (world s)) (store s) in
  (option_map StoreError err, setStore s db).

(** [TaskService.GetTask] *)
Definition GetTask (id : UUID) (s : Scheduler) : option Task :=
  GetByID id (store s).

(** [TaskService.ListTasks] *)
Definition ListTasks (limit offset : Z) (status : string) (s : Scheduler)
  : list Task * Z * error :=
  List_ limit offset status (store s).

End service.

(* ===================================================================== *)
(** ** Sample data used to exercise the statements *)
(* ===================================================================== *)

Module samples.
Import models executor metrics repository scheduler.

(** A time library that knows UTC only, parses no duration, and whose
    schedules fire one minute after the reference instant. *)
Definition lib : cron.TimeLib :=
  cron.mkTimeLib (fun name => if String.eqb name "UTC" then Some "UTC" else None)
                 (fun _ => None)
                 (fun _ t => t + 60 * second).

Definition ping : Task :=
  mkTask 1%N "ping" TriggerTypeOneOff (Some 100) None "GET" "http://mock/ok" ∅
         None TaskStatusScheduled 0 0 (Some 100).

Definition everyMinute : Task :=
  mkTask 2%N "tick" TriggerTypeCron None (Some "* * * * *") "GET"
         "http://mock/ok" ∅ None TaskStatusScheduled 0 0 (Some 60).

Definition noTime : Task :=
  mkTask 3%N "no time" TriggerTypeOneOff None None "GET" "http://mock/ok" ∅
         None TaskStatusScheduled 0 0 None.

Definition weekly : Task :=
  mkTask 4%N "odd" "weekly" None None "GET" "http://mock/ok" ∅
         None TaskStatusScheduled 0 0 None.

Fixpoint bytes (n : nat) : string :=
  match n with
  | O => EmptyString
  | S n' => String "a" (bytes n')
  end.

Definition ok200 (id : UUID) : Attempt :=
  mkAttempt id (DoOk (mkResponse 200 ∅ (ReadOk "{}"))) 3.

Definition fail500 (id : UUID) : Attempt :=
  mkAttempt id (DoOk (mkResponse 500 ∅ (ReadOk "oops"))) 3.

Definition allOk : World := mkWorld 1000 (fun n => ok200 (N.of_nat n + 100)%N) 0 [].
Definition allFail : World := mkWorld 1000 (fun n => fail500 (N.of_nat n + 100)%N) 0 [].

Definition db0 : DB :=
  mkDB (<[ID ping := ping]> (<[ID everyMinute := everyMinute]> ∅)) [].

Definition sched (w : World) : Scheduler :=
  NewScheduler db0 (Some []) NewMetrics w.

(** A store where the cron task was cancelled and another one, firing at
    minute 0 of every hour, is scheduled. *)
Definition cancelled : Task := withStatus everyMinute TaskStatusCancelled.

Definition hourly : Task :=
  mkTask 6%N "hourly" TriggerTypeCron None (Some "0 * * * *") "GET"
         "http://mock/ok" ∅ None TaskStatusScheduled 0 0 (Some 60).

Definition schedCancelled : Scheduler :=
  NewScheduler (mkDB (<[ID cancelled := cancelled]> (<[ID hourly := hourly]> ∅)) [])
               (Some []) NewMetrics allOk.

(** A scheduled cron task whose next run was never computed. *)
Definition unplanned : Task := withNextRun everyMinute None.

Definition schedUnplanned : Scheduler :=
  NewScheduler (mkDB (<[ID unplanned := unplanned]> ∅) []) (Some []) NewMetrics allOk.

(** Two recordings, the second a failure taken ten instants later. *)
Definition run : list Execution :=
  [mkExecution 10 5 true; mkExecution 20 7 false].

(** A scheduler whose timer for [ping] is still armed when its instant
    has passed. *)
Definition armed : Scheduler :=
  setTimers (sched allOk) (<[ID ping := mkTimer ping 100 false]> ∅).

(** The schedule of [everyMinute], as the five-field parser reads it. *)
Definition everyMinuteSchedule : cron.Schedule :=
  Eval vm_compute in
    match cron.Parse lib fiveFieldParser "* * * * *" with
    | cron.Ok schedule => schedule
    | cron.Err _ => cron.ConstantDelaySchedule 0
    end.

(** A store where the row of [everyMinute] was since turned into a
    one-off task, which clears its cron expression. *)
Definition retyped : Task :=
  mkTask 2%N "tick" TriggerTypeOneOff (Some 5000) None "GET" "http://mock/ok" ∅
         None TaskStatusScheduled 0 0 (Some 5000).

Definition schedRetyped : Scheduler :=
  NewScheduler (mkDB (<[ID retyped := retyped]> ∅) []) (Some []) NewMetrics allOk.

(** A store with a due task and one planned for later. *)
Definition later : Task :=
  mkTask 7%N "later" TriggerTypeOneOff (Some 5000) None "GET" "http://mock/ok" ∅
         None TaskStatusScheduled 0 0 (Some 5000).

Definition schedLater : Scheduler :=
  NewScheduler (mkDB (<[ID ping := ping]> (<[ID later := later]> ∅)) [])
               (Some []) NewMetrics allOk.




(** A cron task still without identity. *)
Definition unsaved : Task := withID everyMinute 0%N.

End samples.

(* ===================================================================== *)
(** ** Properties of the byte-string helpers *)
(* ===================================================================== *)

Module gostrings_facts.
Import gostrings.

Lemma length_append (s1 s2 : string) :
  String.length (s1 ++ s2) = (String.length s1 + String.length s2)%nat.
Proof. induction s1 as [|c s1 IH]; simpl; [reflexivity | now rewrite IH]. Qed.

Lemma length_substring_0 (m : nat) : forall s : string,
  (m <= String.length s)%nat -> String.length (String.substring 0 m s) = m.
Proof.
  induction m as [|m IH]; intros [|c s] H; simpl in *; try reflexivity; try lia.
  rewrite IH; [reflexivity | lia].
Qed.

Lemma substring_0_all (s : string) : String.substring 0 (String.length s) s = s.
Proof. induction s as [|c s IH]; simpl; [reflexivity | now rewrite IH]. Qed.

Lemma substring_skip (s1 s2 : string) (m : nat) :
  String.substring (String.length s1) m (s1 ++ s2) = String.substring 0 m s2.
Proof. induction s1 as [|c s1 IH]; simpl; [reflexivity | exact IH]. Qed.

Lemma len_append (s1 s2 : string) : len (s1 ++ s2) = len s1 + len s2.
Proof. unfold len. rewrite length_append. lia. Qed.

Lemma len_nonneg (s : string) : 0 <= len s.
Proof. unfold len. lia. Qed.

Lemma len_slice_0 (s : string) (n : Z) :
  0 <= n <= len s -> len (slice s 0 n) = n.
Proof.
  unfold len, slice. intros H.
  replace (Z.to_nat 0) with 0%nat by reflexivity.
  rewrite length_substring_0; lia.
Qed.

Lemma HasSuffix_append (s suffix : string) : HasSuffix (s ++ suffix) suffix = true.
Proof.
  unfold HasSuffix. rewrite len_append.
  apply andb_true_intro. split.
  - apply Z.leb_le. pose proof (len_nonneg s). lia.
  - apply String.eqb_eq. unfold slice, len.
    replace (Z.to_nat (Z.of_nat (String.length s) + Z.of_nat (String.length suffix)
                       - Z.of_nat (String.length suffix)))
      with (String.length s) by lia.
    replace (Z.to_nat (Z.of_nat (String.length s) + Z.of_nat (String.length suffix)
                       - (Z.of_nat (String.length s) + Z.of_nat (String.length suffix)
                          - Z.of_nat (String.length suffix))))
      with (String.length suffix) by lia.
    rewrite substring_skip. apply substring_0_all.
Qed.

(** A no-break space (U+00A0, the bytes C2 A0) separates fields and is
    trimmed, as every white space of Unicode is. *)
Example Fields_no_break_space :
  let nbsp := String (ascii_of_nat 194) (String (ascii_of_nat 160) "") in
  Fields ("0" ++ nbsp ++ "9 * *" ++ nbsp ++ "*") = ["0"; "9"; "*"; "*"; "*"] /\
  TrimSpace (nbsp ++ " a b " ++ nbsp) = "a b".
Proof. vm_compute. split; reflexivity. Qed.

End gostrings_facts.

(* ===================================================================== *)
(** ** Properties of package [executor] *)
(* ===================================================================== *)

Module executor_facts.
Import models gostrings executor gostrings_facts.

(** When the body was read, or the request never got a response, success
    is exactly a 2xx status without transport error, and the error message
    is present exactly on failure. *)
Lemma Execute_attempt_success_when_read (task : Task) (startTime : Time)
    (a : Attempt) :
  (forall resp err, trip a = DoOk resp -> RespBody resp <> ReadErr err) ->
  let r := Execute_attempt task startTime a in
  (Success r = true <->
     exists resp, trip a = DoOk resp /\ 200 <= RespStatusCode resp < 300) /\
  (ErrorMessage r <> None <-> Success r = false).
Proof.
  intros Hread r. subst r. unfold Execute_attempt.
  destruct (trip a) as [err|err|resp] eqn:Htrip; simpl.
  - split; [split; [discriminate | intros (resp & H & _); discriminate] | ].
    split; [reflexivity | discriminate].
  - split; [split; [discriminate | intros (resp & H & _); discriminate] | ].
    split; [reflexivity | discriminate].
  - destruct (RespBody resp) as [body|err] eqn:Hbody.
    + simpl. split.
      * rewrite andb_true_iff, Z.leb_le, Z.ltb_lt. split.
        -- intros H. exists resp. split; [reflexivity | exact H].
        -- intros (resp' & Heq & H). injection Heq as <-. exact H.
      * destruct ((200 <=? RespStatusCode resp) && (RespStatusCode resp <? 300));
          simpl; split; congruence.
    + exfalso. exact (Hread resp err eq_refl Hbody).
Qed.

(** C3 (the code at the failing inputs). A response with a 2xx status
    whose body cannot be read yields a result that is marked successful and
    carries an error message at once, with no body stored. *)
Theorem Execute_attempt_read_failure (task : Task) (startTime : Time)
    (a : Attempt) (resp : Response) (err : string) :
  trip a = DoOk resp ->
  RespBody resp = ReadErr err ->
  200 <= RespStatusCode resp < 300 ->
  let r := Execute_attempt task startTime a in
  Success r = true /\
  ErrorMessage r = Some ("Failed to read response body: " ++ err) /\
  StatusCode r = Some (RespStatusCode resp) /\
  ResponseBody r = None.
Proof.
  intros Htrip Hbody [Hlo Hhi] r. subst r.
  unfold Execute_attempt. rewrite Htrip, Hbody. simpl.
  split; [ | repeat split].
  apply andb_true_intro. split; [now apply Z.leb_le | now apply Z.ltb_lt].
Qed.

Lemma Execute_attempt_read_failure_witness :
  let r := Execute_attempt samples.ping 0
             (mkAttempt 9%N (DoOk (mkResponse 200 ∅ (ReadErr "unexpected EOF"))) 5) in
  Success r = true /\
  ErrorMessage r = Some "Failed to read response body: unexpected EOF" /\
  StatusCode r = Some 200 /\
  ResponseBody r = None.
Proof.
  apply (Execute_attempt_read_failure samples.ping 0
           (mkAttempt 9%N (DoOk (mkResponse 200 ∅ (ReadErr "unexpected EOF"))) 5)
           (mkResponse 200 ∅ (ReadErr "unexpected EOF")) "unexpected EOF");
    [reflexivity | reflexivity | simpl; lia].
Defined.

(** C4 (as stated, refuted). A body of 10,001 bytes is stored as 10,015
    bytes: the first 10,000 followed by the marker, so the stored body is
    longer than 10,000 bytes. *)
Lemma response_body_exceeds_cap :
  let body := samples.bytes (Z.to_nat 10001) in
  let r := Execute_attempt samples.ping 0
             (mkAttempt 9%N (DoOk (mkResponse 200 ∅ (ReadOk body))) 0) in
  option_map len (ResponseBody r) = Some 10015 /\
  ~ (forall stored, ResponseBody r = Some stored -> len stored <= 10000).
Proof.
  assert (H : option_map len
            (ResponseBody
               (Execute_attempt samples.ping 0
                  (mkAttempt 9%N
                     (DoOk (mkResponse 200 ∅
                              (ReadOk (samples.bytes (Z.to_nat 10001))))) 0)))
            = Some 10015) by (vm_compute; reflexivity).
  split; [exact H | ].
  intros Hall.
  destruct (ResponseBody _) as [stored|] eqn:E; [ | discriminate H].
  specialize (Hall stored eq_refl). simpl in H. injection H as H. lia.
Qed.

(** C4 (amended). The stored body is the body itself up to 10,000 bytes and
    otherwise its first 10,000 bytes followed by the marker; it is at most
    10,000 bytes plus the marker long, ends with the marker whenever the
    body exceeded the cap, and when it ends with the marker the body
    exceeded the cap or already ended with the marker. *)
Theorem Execute_attempt_response_body (task : Task) (startTime : Time)
    (a : Attempt) (resp : Response) (body : string) :
  trip a = DoOk resp ->
  RespBody resp = ReadOk body ->
  exists stored,
    ResponseBody (Execute_attempt task startTime a) = Some stored /\
    (len body <= 10000 -> stored = body) /\
    (10000 < len body -> stored = slice body 0 10000 ++ marker) /\
    len stored <= 10000 + len marker /\
    (10000 < len body -> HasSuffix stored marker = true) /\
    (HasSuffix stored marker = true ->
       10000 < len body \/ HasSuffix body marker = true).
Proof.
  intros Htrip Hbody. unfold Execute_attempt. rewrite Htrip, Hbody.
  cbv beta iota zeta. unfold ResponseBody.
  destruct (10000 <? len body) eqn:Hlen.
  - apply Z.ltb_lt in Hlen.
    exists (slice body 0 10000 ++ marker). repeat split.
    + intros H. lia.
    + rewrite len_append, len_slice_0 by lia. lia.
    + intros _. apply HasSuffix_append.
    + intros _. left. exact Hlen.
  - apply Z.ltb_ge in Hlen.
    exists body. repeat split.
    + intros H. lia.
    + pose proof (len_nonneg marker). lia.
    + intros H. lia.
    + intros H. right. exact H.
Qed.

Lemma Execute_attempt_response_body_witness :
  exists stored,
    ResponseBody (Execute_attempt samples.ping 0 (samples.ok200 5%N)) = Some stored /\
    (len "{}" <= 10000 -> stored = "{}") /\
    (10000 < len "{}" -> stored = slice "{}" 0 10000 ++ marker) /\
    len stored <= 10000 + len marker /\
    (10000 < len "{}" -> HasSuffix stored marker = true) /\
    (HasSuffix stored marker = true ->
       10000 < len "{}" \/ HasSuffix "{}" marker = true).
Proof.
  apply (Execute_attempt_response_body samples.ping 0 (samples.ok200 5%N)
           (mkResponse 200 ∅ (ReadOk "{}")) "{}"); reflexivity.
Defined.

End executor_facts.

(* ===================================================================== *)
(** ** Properties of [RetryExecutor] *)
(* ===================================================================== *)

Module retry_facts.
Import models executor.

Section Generic.
Context {W : Type}.
Variable inner : Task -> W -> TaskResult * W.
Variable sleep : Z -> W -> W.

(** Recording the calls does not change what the decorator does. *)
Lemma recording_transparent (maxRetries retryDelay : Z) (task : Task)
    (fuel : nat) : forall (attempt : Z) (last : option TaskResult) (w : W)
                          (calls : list TaskResult),
  let plain := mkRetryExecutor inner sleep maxRetries retryDelay in
  let spied := mkRetryExecutor (recording inner) (sleepRecording sleep)
                               maxRetries retryDelay in
  Execute_loop plain fuel attempt last task w =
  (fst (Execute_loop spied fuel attempt last task (w, calls)),
   fst (snd (Execute_loop spied fuel attempt last task (w, calls)))).
Proof.
  induction fuel as [|fuel IH]; intros attempt last w calls; simpl.
  - reflexivity.
  - destruct (attempt <=? maxRetries); [ | reflexivity].
    destruct (0 <? attempt); simpl.
    + destruct (inner task (sleep retryDelay w)) as [result w1]; simpl.
      destruct (Success result); [reflexivity | apply IH].
    + destruct (inner task w) as [result w1]; simpl.
      destruct (Success result); [reflexivity | apply IH].
Qed.

(** C2. With 2 retries and a 5 s delay, the attempts made are some failed
    attempts, at most two, followed by a final one whose result is
    returned; the final attempt is the first successful one, or the third
    attempt when none succeeds. *)
Theorem Execute_at_most_three_attempts (task : Task) (w : W) :
  let r := mkRetryExecutor (recording inner) (sleepRecording sleep)
                           2 (5 * second) in
  exists (failed : list TaskResult) (final : TaskResult) (w' : W),
    Execute r task (w, []) = (Some final, (w', (failed ++ [final])%list)) /\
    forallb (fun x => negb (Success x)) failed = true /\
    (length failed <= 2)%nat /\
    (Success final = true \/ length failed = 2%nat).
Proof.
  intros r. subst r. unfold Execute. simpl maxRetries.
  change (Z.to_nat (2 + 1)) with 3%nat. simpl.
  destruct (inner task w) as [r1 w1] eqn:E1; simpl.
  destruct (Success r1) eqn:S1.
  { exists [], r1, w1. simpl. repeat split; auto. }
  destruct (inner task (sleep (5 * second) w1)) as [r2 w2] eqn:E2; simpl.
  destruct (Success r2) eqn:S2.
  { exists [r1], r2, w2. simpl. rewrite S1. repeat split; auto. }
  destruct (inner task (sleep (5 * second) w2)) as [r3 w3] eqn:E3; simpl.
  exists [r1; r2], r3, w3. simpl. rewrite S1, S2.
  destruct (Success r3); repeat split; auto.
Qed.

End Generic.

(** The scheduler's executor sleeps 5 s before every attempt but the first. *)
Lemma NewRetryExecutor_sleeps (task : Task) (w : World) :
  let '(_, w') := Execute (NewRetryExecutor 2 (5 * second)) task w in
  sleeps w' = (sleeps w ++ repeat (5 * second) (attempts w' - attempts w - 1))%list.
Proof.
  assert (E0 : (S (attempts w) - attempts w - 1 = 0)%nat) by lia.
  assert (E1 : (S (S (attempts w)) - attempts w - 1 = 1)%nat) by lia.
  assert (E2 : (S (S (S (attempts w))) - attempts w - 1 = 2)%nat) by lia.
  unfold Execute, NewRetryExecutor. simpl maxRetries.
  change (Z.to_nat (2 + 1)) with 3%nat. simpl.
  destruct (Success _); simpl.
  { rewrite E0. simpl. now rewrite app_nil_r. }
  destruct (Success _); simpl.
  { rewrite E1. reflexivity. }
  destruct (Success _); simpl; rewrite E2; simpl; now rewrite <- app_assoc.
Qed.

End retry_facts.

(* ===================================================================== *)
(** ** Properties of package [metrics] *)
(* ===================================================================== *)

Module metrics_facts.
Import models metrics.

Lemma RecordTaskExecution_counts (m m' : Metrics) (now : Time) (duration : Z)
    (success : bool) :
  RecordTaskExecution m now duration success = Some m' ->
  TotalTasksExecuted m' <> 0.
Proof.
  unfold RecordTaskExecution.
  destruct (wrap64 (TotalTasksExecuted m + 1) =? 0) eqn:E; [discriminate | ].
  intros H. injection H as <-. simpl. now apply Z.eqb_neq.
Qed.

(** With no execution counted, the average is zero. *)
Lemma reachable_average (m : Metrics) :
  reachable m -> TotalTasksExecuted m = 0 -> AverageExecutionTime m = 0.
Proof.
  intros H. induction H as [ | m _ _ | m m' now d ok _ _ Hrec]; intros H0.
  - reflexivity.
  - reflexivity.
  - exfalso. exact (RecordTaskExecution_counts _ _ _ _ _ Hrec H0).
Qed.

(** C10. [GetMetrics] is a total function; with no execution counted it
    reports a success rate of 0 and an average of 0 ms, and otherwise the
    success rate is successes over executions times 100. *)
Theorem GetMetrics_success_rate (m : Metrics) (H : reachable m) :
  (TotalTasksExecuted m = 0 ->
     success_rate_percent (GetMetrics m) = 0%float /\
     average_execution_ms (GetMetrics m) = 0) /\
  (0 < TotalTasksExecuted m ->
     success_rate_percent (GetMetrics m) =
       (float64 (SuccessfulTasks m) / float64 (TotalTasksExecuted m) * 100)%float).
Proof.
  split.
  - intros H0. unfold GetMetrics; simpl. rewrite H0. simpl.
    rewrite (reachable_average m H H0). split; reflexivity.
  - intros Hpos. unfold GetMetrics; simpl.
    apply Z.ltb_lt in Hpos. now rewrite Hpos.
Qed.

Lemma GetMetrics_success_rate_witness :
  (TotalTasksExecuted NewMetrics = 0 ->
     success_rate_percent (GetMetrics NewMetrics) = 0%float /\
     average_execution_ms (GetMetrics NewMetrics) = 0) /\
  (0 < TotalTasksExecuted NewMetrics ->
     success_rate_percent (GetMetrics NewMetrics) =
       (float64 (SuccessfulTasks NewMetrics)
        / float64 (TotalTasksExecuted NewMetrics) * 100)%float).
Proof. apply (GetMetrics_success_rate NewMetrics). apply reach_new. Defined.

(** One success out of two executions is reported as 50 percent. *)
Example GetMetrics_half :
  success_rate_percent
    (GetMetrics (mkMetrics 2 1 1 6000000 3000000 2%float [5; 6])) = 50%float.
Proof. vm_compute. reflexivity. Qed.

End metrics_facts.

(* ===================================================================== *)
(** ** Properties of package [handlers]: paging *)
(* ===================================================================== *)

Module paging_facts.
Import gostrings handlers.

(** The limit a request asks for: the integer read from the [limit] query
    parameter, 10 when the parameter is absent. *)
Lemma requested_default : fst (Atoi (DefaultQuery None "10")) = 10.
Proof. reflexivity. Qed.

(** C8 (as stated, refuted). A requested limit of 101 is answered with a
    page size of 10, not 100. *)
Lemma limit_above_100_not_clamped :
  GetTasks_paging None (Some "101") = (1, 10, 0) /\
  GetTaskResults_paging None (Some "101") = (1, 10, 0) /\
  GetResults_paging None (Some "101") = (1, 10, 0) /\
  snd (fst (GetTasks_paging None (Some "101"))) <> 100.
Proof. repeat split. discriminate. Qed.

(** C8 (amended). On the three list endpoints the page size is the
    requested limit when it lies in [1, 100], and the default 10 when it is
    below 1 or above 100. *)
Theorem effective_limit (pageQuery limitQuery : option string) :
  let requested := fst (Atoi (DefaultQuery limitQuery "10")) in
  let effective := if (1 <=? requested) && (requested <=? 100)
                   then requested else 10 in
  snd (fst (GetTasks_paging pageQuery limitQuery)) = effective /\
  snd (fst (GetTaskResults_paging pageQuery limitQuery)) = effective /\
  snd (fst (GetResults_paging pageQuery limitQuery)) = effective.
Proof.
  intros requested effective. subst effective.
  unfold GetTasks_paging, GetTaskResults_paging, GetResults_paging. simpl.
  fold requested.
  destruct (requested <? 1) eqn:E1, (100 <? requested) eqn:E2,
           (1 <=? requested) eqn:E3, (requested <=? 100) eqn:E4;
    simpl; repeat split; lia.
Qed.

End paging_facts.

(* ===================================================================== *)
(** ** Properties of the cron parsers *)
(* ===================================================================== *)

Module cron_facts.
Import gostrings cron.

(** The standard parser wants exactly five fields. *)
Lemma normalizeFields_standard (fields : list string) (out : list string) :
  normalizeFields fields standardParser = Ok out ->
  Z.of_nat (List.length fields) = 5.
Proof.
  unfold normalizeFields.
  change (has standardParser SecondOptional) with false. cbv beta iota zeta.
  change (has standardParser DowOptional) with false. cbv beta iota zeta.
  change (Z.of_nat (List.length (List.filter (has standardParser) places))) with 5.
  change (1 <? 0) with false. cbv beta iota.
  destruct ((Z.of_nat (List.length fields) <? 5 - 0)
            || (5 <? Z.of_nat (List.length fields))) eqn:E; [discriminate | ].
  intros _. apply orb_false_elim in E as [E1 E2].
  apply Z.ltb_ge in E1. apply Z.ltb_ge in E2. lia.
Qed.

(** The parser with a seconds field wants exactly six. *)
Lemma normalizeFields_seconds (fields : list string) :
  Z.of_nat (List.length fields) <> 6 ->
  normalizeFields fields WithSeconds =
  Err (FieldCount 6 6 (Z.of_nat (List.length fields)) fields).
Proof.
  intros H. unfold normalizeFields.
  change (has WithSeconds SecondOptional) with false. cbv beta iota zeta.
  change (has WithSeconds DowOptional) with false. cbv beta iota zeta.
  change (Z.of_nat (List.length (List.filter (has WithSeconds) places))) with 6.
  change (1 <? 0) with false. cbv beta iota.
  change (6 - 0) with 6.
  destruct ((Z.of_nat (List.length fields) <? 6)
            || (6 <? Z.of_nat (List.length fields))) eqn:E; [reflexivity | ].
  apply orb_false_elim in E as [E1 E2].
  apply Z.ltb_ge in E1. apply Z.ltb_ge in E2. lia.
Qed.

(** An expression of plain fields that the standard parser accepts is
    refused by the parser with a seconds field, whatever the fields say. *)
Lemma Parse_standard_not_seconds (lib : TimeLib) (spec : string) (sch : Schedule) :
  HasPrefix spec "TZ=" || HasPrefix spec "CRON_TZ=" || HasPrefix spec "@" = false ->
  ParseStandard lib spec = Ok sch ->
  Parse lib WithSeconds spec = Err (FieldCount 6 6 5 (Fields spec)).
Proof.
  intros Hplain. apply orb_false_elim in Hplain as [Htz Hat].
  unfold ParseStandard, Parse.
  destruct (len spec =? 0); [discriminate | ].
  rewrite Htz. simpl bind. rewrite Hat.
  destruct (normalizeFields (Fields spec) standardParser) as [out|e] eqn:E;
    [ | unfold bind; discriminate].
  intros _. apply normalizeFields_standard in E.
  rewrite normalizeFields_seconds by lia. rewrite E. reflexivity.
Qed.

Example every_minute_is_standard (lib : TimeLib) :
  exists sch, ParseStandard lib "* * * * *" = Ok sch.
Proof. eexists. vm_compute. reflexivity. Qed.

Example every_six_hours_is_standard (lib : TimeLib) :
  exists sch, ParseStandard lib "0 */6 * * *" = Ok sch.
Proof. eexists. vm_compute. reflexivity. Qed.

Example not_a_cron_is_refused (lib : TimeLib) :
  ParseStandard lib "not a cron" = Err (FieldCount 5 5 3 ["not"; "a"; "cron"]).
Proof. vm_compute. reflexivity. Qed.

End cron_facts.

(* ===================================================================== *)
(** ** Properties of package [scheduler]: arming *)
(* ===================================================================== *)

Module arming_facts.
Import models gostrings executor metrics repository scheduler handlers.

(** C9. A task whose trigger type is neither one-off nor cron, and a
    one-off task without trigger time, make [ScheduleTask] return nil and
    leave the scheduler as it was: nothing is armed. *)
Theorem ScheduleTask_ignores_malformed (lib : cron.TimeLib) (task : Task)
    (s : Scheduler) :
  (String.eqb (TriggerType_ task) TriggerTypeOneOff = false /\
   String.eqb (TriggerType_ task) TriggerTypeCron = false) \/
  (String.eqb (TriggerType_ task) TriggerTypeOneOff = true /\
   TriggerTime task = None) ->
  ScheduleTask lib task s = Some (None, s).
Proof.
  intros [[H1 H2] | [H1 H2]]; unfold ScheduleTask; rewrite H1.
  - rewrite H2. reflexivity.
  - unfold scheduleOneOffTask. rewrite H2. reflexivity.
Qed.

Lemma ScheduleTask_ignores_malformed_witness :
  ScheduleTask samples.lib samples.weekly (samples.sched samples.allOk)
    = Some (None, samples.sched samples.allOk) /\
  ScheduleTask samples.lib samples.noTime (samples.sched samples.allOk)
    = Some (None, samples.sched samples.allOk).
Proof.
  split.
  - apply ScheduleTask_ignores_malformed. left. split; reflexivity.
  - apply ScheduleTask_ignores_malformed. right. split; reflexivity.
Defined.

(** C1 (the code at the failing inputs). A cron task whose expression has
    plain fields and passes create-time validation is refused by
    [ScheduleTask] on a scheduler built by [NewScheduler]: the registry's
    parser asks for six fields, the error is returned and no entry is
    registered. *)
Theorem ScheduleTask_refuses_validated_expression (lib : cron.TimeLib)
    (task : Task) (spec : string) (s : Scheduler) (now : Time) :
  String.eqb (TriggerType_ task) TriggerTypeCron = true ->
  CronExpr task = Some spec ->
  cron.parser (cron s) = cron.WithSeconds ->
  HasPrefix spec "TZ=" || HasPrefix spec "CRON_TZ=" || HasPrefix spec "@" = false ->
  validateTrigger lib (mkTrigger TriggerTypeCron None (Some spec)) now = Some None ->
  ScheduleTask lib task s
    = Some (Some (cron.FieldCount 6 6 5 (Fields spec)), s).
Proof.
  intros Hcron Hexpr Hparser Hplain Hvalid.
  unfold validateTrigger in Hvalid. simpl in Hvalid.
  destruct (String.eqb spec ""); [discriminate | ].
  destruct (cron.ParseStandard lib spec) as [sch|e] eqn:Hstd;
    [ | destruct e; discriminate].
  pose proof (cron_facts.Parse_standard_not_seconds lib spec sch Hplain Hstd) as Hsec.
  unfold ScheduleTask. rewrite Hcron.
  apply String.eqb_eq in Hcron. rewrite Hcron. simpl.
  unfold scheduleCronTask. rewrite Hexpr.
  unfold cron.AddFunc. rewrite Hparser, Hsec. reflexivity.
Qed.

Lemma ScheduleTask_refuses_validated_expression_witness :
  ScheduleTask samples.lib samples.everyMinute (samples.sched samples.allOk)
    = Some (Some (cron.FieldCount 6 6 5 (Fields "* * * * *")),
            samples.sched samples.allOk).
Proof.
  apply (ScheduleTask_refuses_validated_expression samples.lib
           samples.everyMinute "* * * * *" (samples.sched samples.allOk) 0);
    reflexivity.
Defined.

(** Descriptors are the expressions that both parsers accept. *)
Example ScheduleTask_hourly_descriptor :
  let task := withNextRun (mkTask 5%N "hourly" TriggerTypeCron None (Some "@hourly")
                                  "GET" "http://mock/ok" ∅ None
                                  TaskStatusScheduled 0 0 None) None in
  exists s', ScheduleTask samples.lib task (samples.sched samples.allOk)
               = Some (None, s') /\
             List.length (cron.entries (cron s')) = 1%nat.
Proof. eexists. split; vm_compute; reflexivity. Qed.

End arming_facts.

(* ===================================================================== *)
(** ** Properties of package [scheduler]: the dispatch body *)
(* ===================================================================== *)

Module dispatch_facts.
Import models gostrings executor metrics repository scheduler handlers.

Lemma Execute_loop_keeps_last {W} (r : RetryExecutor W) (task : Task)
    (fuel : nat) : forall (attempt : Z) (last : TaskResult) (w : W),
  exists result w', Execute_loop r fuel attempt (Some last) task w = (Some result, w').
Proof.
  induction fuel as [|fuel IH]; intros attempt last w; simpl.
  - eauto.
  - destruct (attempt <=? maxRetries r); [ | eauto].
    destruct (executor.executor r task _) as [result w1].
    destruct (Success result); [eauto | apply IH].
Qed.

(** With a non-negative retry budget the decorator always hands back a
    result. *)
Lemma Execute_returns {W} (r : RetryExecutor W) (task : Task) (w : W) :
  0 <= maxRetries r ->
  exists result w', Execute r task w = (Some result, w').
Proof.
  intros H. unfold Execute.
  destruct (Z.to_nat (maxRetries r + 1)) as [|fuel] eqn:E; [lia | ].
  simpl. apply Z.leb_le in H. rewrite H.
  change (0 <? 0) with false. cbv iota.
  destruct (executor.executor r task w) as [result w1].
  destruct (Success result); [eauto | apply Execute_loop_keeps_last].
Qed.

(** C5. The dispatch body completes on every scheduler that can dispatch,
    whatever the attempts meet. For a one-off task the stored task is then
    the dispatched one with status completed; for any other task the tasks
    table is left as it was. *)
Theorem executeTask_status (task : Task) (s : Scheduler) :
  canDispatch s = true ->
  exists task' s',
    executeTask task s = Some (task', s') /\
    (String.eqb (TriggerType_ task) TriggerTypeOneOff = true ->
       tasks (store s') !! ID task = Some task' /\
       Status task' = TaskStatusCompleted) /\
    (String.eqb (TriggerType_ task) TriggerTypeOneOff = false ->
       tasks (store s') = tasks (store s)).
Proof.
  unfold canDispatch. intros H.
  apply andb_prop in H as [H Hwrap]. apply andb_prop in H as [Hlog Hretry].
  apply Z.leb_le in Hretry. apply negb_true_iff in Hwrap.
  destruct (Execute_returns (executor s) task (world s) Hretry)
    as (result & w & Hexec).
  unfold executeTask. rewrite Hexec.
  unfold RecordTaskExecution. rewrite Hwrap.
  destruct (taskLogger s) as [entries|]; [ | discriminate].
  destruct (Create _ (store s)) as [err db] eqn:Hcreate.
  assert (Htasks : tasks db = tasks (store s)).
  { unfold Create in Hcreate.
    destruct (tasks (store s) !! _); [ | now injection Hcreate as _ <-].
    destruct (existsb _ _); now injection Hcreate as _ <-. }
  destruct (String.eqb (TriggerType_ task) TriggerTypeOneOff) eqn:Hone.
  - unfold Update. eexists _, _. split; [reflexivity | ].
    split; [ | discriminate]. intros _. simpl. split; [ | reflexivity].
    apply lookup_insert_eq.
  - eexists _, _. split; [reflexivity | ].
    split; [discriminate | ]. intros _. simpl. exact Htasks.
Qed.

Lemma executeTask_status_witness :
  exists task' s',
    executeTask samples.ping (samples.sched samples.allFail) = Some (task', s') /\
    (String.eqb (TriggerType_ samples.ping) TriggerTypeOneOff = true ->
       tasks (store s') !! ID samples.ping = Some task' /\
       Status task' = TaskStatusCompleted) /\
    (String.eqb (TriggerType_ samples.ping) TriggerTypeOneOff = false ->
       tasks (store s') = tasks (store (samples.sched samples.allFail))).
Proof.
  apply (executeTask_status samples.ping (samples.sched samples.allFail)).
  reflexivity.
Defined.

(** A one-off task whose three attempts all answer 500 ends up completed,
    with its failed result stored. *)
Example executeTask_failed_one_off :
  match executeTask samples.ping (samples.sched samples.allFail) with
  | Some (_, s') =>
      option_map Status (tasks (store s') !! ID samples.ping)
        = Some TaskStatusCompleted /\
      List.map (fun r => (TaskID r, Success r, StatusCode r))
               (task_results (store s'))
        = [(ID samples.ping, false, Some 500)] /\
      attempts (world s') = 3%nat
  | None => False
  end.
Proof. vm_compute. repeat split. Qed.

End dispatch_facts.

(* ===================================================================== *)
(** ** Properties of package [scheduler]: cron ticks and cancellation *)
(* ===================================================================== *)

Module tick_facts.
Import models gostrings executor metrics repository scheduler handlers.

Lemma Create_other (result : TaskResult) (db db' : DB) (err : error) (id : UUID) :
  Create result db = (err, db') ->
  TaskID result <> id ->
  tasks db' = tasks db /\ resultsOf id db' = resultsOf id db.
Proof.
  unfold Create. intros H Hne.
  destruct (tasks db !! TaskID result); [ | now injection H as _ <-].
  destruct (existsb _ _); [now injection H as _ <- | ].
  injection H as _ <-. split; [reflexivity | ].
  unfold resultsOf. simpl. rewrite List.filter_app. simpl.
  apply N.eqb_neq in Hne. rewrite Hne. apply app_nil_r.
Qed.

Lemma keyed_insert (db : DB) (t : Task) (rs : list TaskResult) :
  keyed db -> keyed (mkDB (<[ID t := t]> (tasks db)) rs).
Proof.
  unfold keyed. simpl. intros H. apply map_Forall_insert_2; [reflexivity | exact H].
Qed.

Lemma keyed_alter (db : DB) (f : Task -> Task) (k : UUID) (rs : list TaskResult) :
  (forall t, ID (f t) = ID t) ->
  keyed db -> keyed (mkDB (alter f k (tasks db)) rs).
Proof.
  unfold keyed. simpl. intros Hf H i t Hlook.
  destruct (decide (k = i)) as [->|Hne].
  - rewrite lookup_alter_eq in Hlook.
    destruct (tasks db !! i) as [t0|] eqn:E; simpl in Hlook; [ | discriminate].
    injection Hlook as <-. rewrite Hf. exact (H i t0 E).
  - rewrite lookup_alter_ne in Hlook by exact Hne. exact (H i t Hlook).
Qed.

(** A dispatch of one task leaves the row and the results of every other
    task alone, and logs the dispatch. *)
Lemma executeTask_other (task task' : Task) (s s' : Scheduler) (id : UUID) :
  executeTask task s = Some (task', s') ->
  ID task' = ID task /\
  CronExpr task' = CronExpr task /\
  dispatched (ID task) s s' /\
  (keyed (store s) -> keyed (store s')) /\
  (ID task <> id ->
     tasks (store s') !! id = tasks (store s) !! id /\
     resultsOf id (store s') = resultsOf id (store s)).
Proof.
  unfold executeTask.
  destruct (Execute _ task (world s)) as [[result|] w]; [ | discriminate].
  destruct (RecordTaskExecution _ _ _ _) as [m|]; [ | discriminate].
  destruct (taskLogger s) as [entries|] eqn:Hlog; [ | discriminate].
  destruct (Create _ (store s)) as [err db] eqn:Hcreate.
  assert (Hkeep : forall i, ID task <> i ->
            tasks db = tasks (store s) /\ resultsOf i db = resultsOf i (store s)).
  { intros i Hi. eapply Create_other; [exact Hcreate | exact Hi]. }
  assert (Htasks : tasks db = tasks (store s)).
  { unfold Create in Hcreate.
    destruct (tasks (store s) !! _); [ | now injection Hcreate as _ <-].
    destruct (existsb _ _); now injection Hcreate as _ <-. }
  destruct (String.eqb (TriggerType_ task) TriggerTypeOneOff).
  - unfold Update. intros H. injection H as <- <-. simpl.
    split; [reflexivity | ]. split; [reflexivity | ].
    split; [exists entries; eexists; split; [exact Hlog | reflexivity] | ].
    split.
    + intros Hk.
      apply (keyed_insert db (withUpdatedAt (withStatus task TaskStatusCompleted) _)).
      unfold keyed. rewrite Htasks. exact Hk.
    + intros Hne. destruct (Hkeep id Hne) as [_ Hres].
      rewrite lookup_insert_ne by exact Hne. rewrite Htasks. split; [reflexivity | ].
      exact Hres.
  - intros H. injection H as <- <-. simpl.
    split; [reflexivity | ]. split; [reflexivity | ].
    split; [exists entries; eexists; split; [exact Hlog | reflexivity] | ].
    split.
    + unfold keyed. rewrite Htasks. trivial.
    + intros Hne. destruct (Hkeep id Hne) as [_ Hres]. rewrite Htasks. split; [reflexivity | ].
      exact Hres.
Qed.

Section Ticks.
Context (lib : cron.TimeLib).

(** A tick whose re-read finds no task, or a task that is not scheduled,
    changes nothing. *)
Lemma cronTick_skips (task : Task) (s : Scheduler) :
  (forall cur, GetByID (ID task) (store s) = Some cur ->
               Status cur <> TaskStatusScheduled) ->
  cronTick lib task s = Some s.
Proof.
  intros H. unfold cronTick.
  destruct (GetByID (ID task) (store s)) as [cur|]; [ | reflexivity].
  specialize (H cur eq_refl). apply String.eqb_neq in H. now rewrite H.
Qed.

(** A tick whose re-read finds the task scheduled dispatches it. *)
Lemma cronTick_dispatches (task cur : Task) (s s' : Scheduler) :
  keyed (store s) ->
  GetByID (ID task) (store s) = Some cur ->
  Status cur = TaskStatusScheduled ->
  cronTick lib task s = Some s' ->
  dispatched (ID task) s s'.
Proof.
  intros Hk Hget Hst. unfold cronTick. rewrite Hget, Hst. simpl.
  assert (Hid : ID cur = ID task) by exact (Hk _ _ Hget).
  destruct (executeTask cur s) as [[cur' s1]|] eqn:Hexec; [ | discriminate].
  destruct (executeTask_other cur cur' s s1 (ID task) Hexec)
    as (_ & _ & Hd & _). rewrite Hid in Hd.
  destruct (CronExpr cur'); [ | discriminate].
  destruct (calculateNextCronRun lib _ _) as [[next|err]|]; [ | | discriminate].
  - unfold UpdateNextRun. intros H. injection H as <-. exact Hd.
  - intros H. injection H as <-. exact Hd.
Qed.

Lemma not_dispatched_refl (id : UUID) (s : Scheduler) : ~ dispatched id s s.
Proof.
  intros (entries & result & H1 & H2). rewrite H1 in H2. injection H2 as H2.
  apply (f_equal (@List.length _)) in H2. rewrite List.length_app in H2.
  simpl in H2. lia.
Qed.

(** A tick leaves the row and the results of a cancelled task alone. *)
Lemma cronTick_cancelled (id : UUID) (c task : Task) (s s' : Scheduler) :
  keyed (store s) ->
  tasks (store s) !! id = Some c ->
  Status c = TaskStatusCancelled ->
  cronTick lib task s = Some s' ->
  keyed (store s') /\
  tasks (store s') !! id = Some c /\
  resultsOf id (store s') = resultsOf id (store s).
Proof.
  intros Hk Hc Hst. unfold cronTick, GetByID.
  destruct (tasks (store s) !! ID task) as [cur|] eqn:Hget;
    [ | intros H; injection H as <-; auto].
  destruct (String.eqb (Status cur) TaskStatusScheduled) eqn:Hsched; simpl;
    [ | intros H; injection H as <-; auto].
  assert (Hne : ID cur <> id).
  { intros Heq. pose proof (Hk _ _ Hget) as Hid. simpl in Hid.
    rewrite <- Heq, Hid, Hget in Hc. injection Hc as <-.
    rewrite Hst in Hsched. discriminate. }
  destruct (executeTask cur s) as [[cur' s1]|] eqn:Hexec; [ | discriminate].
  destruct (executeTask_other cur cur' s s1 id Hexec)
    as (Hid & _ & _ & Hk1 & Hother).
  destruct (Hother Hne) as [Htask Hres].
  destruct (CronExpr cur'); [ | discriminate].
  destruct (calculateNextCronRun lib _ _) as [[next|err]|]; [ | | discriminate].
  - unfold UpdateNextRun. intros H. injection H as <-. simpl.
    split; [ | split].
    + apply keyed_alter; [reflexivity | auto].
    + rewrite lookup_alter_ne by (rewrite Hid; exact Hne). now rewrite Htask.
    + exact Hres.
  - intros H. injection H as <-. split; [auto | ]. split; [ | exact Hres].
    now rewrite Htask.
Qed.

Lemma cronTicks_cancelled (id : UUID) (c : Task) (ticks : list Task) :
  forall s s' : Scheduler,
  keyed (store s) ->
  tasks (store s) !! id = Some c ->
  Status c = TaskStatusCancelled ->
  cronTicks lib ticks s = Some s' ->
  tasks (store s') !! id = Some c /\
  resultsOf id (store s') = resultsOf id (store s).
Proof.
  induction ticks as [|task ticks IH]; intros s s' Hk Hc Hst; simpl.
  - intros H. injection H as <-. auto.
  - destruct (cronTick lib task s) as [s1|] eqn:Htick; [ | discriminate].
    destruct (cronTick_cancelled id c task s s1 Hk Hc Hst Htick) as (Hk1 & Hc1 & Hr1).
    intros Hrun. destruct (IH s1 s' Hk1 Hc1 Hst Hrun) as [Hc' Hr'].
    split; [exact Hc' | ]. now rewrite Hr'.
Qed.

End Ticks.

(** A run from arming to firing. A one-off task is armed with a timer,
    then cancelled in the store; when the timer fires, its callback runs
    the dispatch without re-reading the store: a result is written for the
    cancelled task, and its status is overwritten with completed. *)
Lemma cancelled_one_off_still_gets_result :
  let later := withNextRun
                 (mkTask 1%N "ping" TriggerTypeOneOff (Some 5000) None "GET"
                         "http://mock/ok" ∅ None TaskStatusScheduled 0 0 None)
                 (Some 5000) in
  let s0 := NewScheduler (mkDB (<[1%N := later]> ∅) []) (Some []) NewMetrics
                         samples.allOk in
  match ScheduleTask samples.lib later s0 with
  | Some (None, s1) =>
      let '(code, db) := DeleteTask 1%N (now (world s1)) (store s1) in
      let s2 := elapse 4000 (setStore s1 db) in
      code = 200 /\
      option_map Status (tasks (store s2) !! 1%N) = Some TaskStatusCancelled /\
      resultsOf 1%N (store s2) = [] /\
      match timerFires 1%N s2 with
      | Some s3 =>
          List.map TaskID (resultsOf 1%N (store s3)) = [1%N] /\
          option_map Status (tasks (store s3) !! 1%N) = Some TaskStatusCompleted
      | None => False
      end
  | _ => False
  end.
Proof. vm_compute. repeat split. Qed.

(** The cron path keeps cancellation terminal. A cron tick dispatches
    its task exactly when the re-read finds it with status scheduled, and
    otherwise changes nothing; hence once a task is cancelled, no run of
    cron ticks writes a result for it or changes its row. *)
Theorem cronTick_respects_cancellation (lib : cron.TimeLib) :
  (forall (task : Task) (s s' : Scheduler),
     keyed (store s) ->
     cronTick lib task s = Some s' ->
     (dispatched (ID task) s s' <->
        exists cur, GetByID (ID task) (store s) = Some cur /\
                    Status cur = TaskStatusScheduled) /\
     ((forall cur, GetByID (ID task) (store s) = Some cur ->
                   Status cur <> TaskStatusScheduled) -> s' = s)) /\
  (forall (id : UUID) (c : Task) (ticks : list Task) (s s' : Scheduler),
     keyed (store s) ->
     tasks (store s) !! id = Some c ->
     Status c = TaskStatusCancelled ->
     cronTicks lib ticks s = Some s' ->
     tasks (store s') !! id = Some c /\
     resultsOf id (store s') = resultsOf id (store s)).
Proof.
  split.
  - intros task s s' Hk Htick. split; [split | ].
    + intros Hd.
      destruct (GetByID (ID task) (store s)) as [cur|] eqn:Hget.
      * destruct (String.eqb_spec (Status cur) TaskStatusScheduled) as [Hst|Hst].
        -- exists cur. auto.
        -- exfalso. rewrite cronTick_skips in Htick.
           ++ injection Htick as <-. exact (not_dispatched_refl _ _ Hd).
           ++ intros cur' Hcur'. rewrite Hget in Hcur'. now injection Hcur' as <-.
      * exfalso. rewrite cronTick_skips in Htick.
        -- injection Htick as <-. exact (not_dispatched_refl _ _ Hd).
        -- intros cur' Hcur'. rewrite Hget in Hcur'. discriminate.
    + intros (cur & Hget & Hst).
      exact (cronTick_dispatches lib task cur s s' Hk Hget Hst Htick).
    + intros Hskip. rewrite (cronTick_skips lib task s Hskip) in Htick.
      now injection Htick as <-.
  - intros id c ticks s s'. apply cronTicks_cancelled.
Qed.




Lemma cronTick_respects_cancellation_witness :
  let s := samples.schedCancelled in
  let s' := default s (cronTicks samples.lib
                         [samples.cancelled; samples.hourly; samples.cancelled] s) in
  keyed (store s) /\
  dispatched (ID samples.hourly) s
             (default s (cronTick samples.lib samples.hourly s)) /\
  tasks (store s') !! ID samples.cancelled = Some samples.cancelled /\
  resultsOf (ID samples.cancelled) (store s') = [] /\
  List.map TaskID (task_results (store s')) = [ID samples.hourly].
Proof.
  intros s s'.
  assert (Hk : keyed (store s)).
  { unfold keyed. compute_done. }
  destruct (cronTick_respects_cancellation samples.lib) as [Htick Hrun].
  split; [exact Hk | ]. split; [ | split; [ | split]].
  - apply (Htick samples.hourly s _ Hk).
    + vm_compute. reflexivity.
    + exists samples.hourly. split; reflexivity.
  - apply (Hrun (ID samples.cancelled) samples.cancelled
                [samples.cancelled; samples.hourly; samples.cancelled] s s' Hk);
      [reflexivity | reflexivity | vm_compute; reflexivity].
  - rewrite (proj2 (Hrun (ID samples.cancelled) samples.cancelled
                [samples.cancelled; samples.hourly; samples.cancelled] s s' Hk
                eq_refl eq_refl ltac:(vm_compute; reflexivity))).
    reflexivity.
  - vm_compute. reflexivity.
Defined.

End tick_facts.

(* ===================================================================== *)
(** ** Properties of package [scheduler]: the recovery sweep *)
(* ===================================================================== *)

Module sweep_facts.
Import models gostrings executor metrics repository scheduler handlers.

(** What [GetScheduledTasks] returns: the stored tasks that are scheduled
    and whose next run is null or not after [now]. *)
Lemma GetScheduledTasks_exactly (now : Time) (db : DB) (t : Task) :
  keyed db ->
  In t (fst (GetScheduledTasks now db)) <->
  tasks db !! ID t = Some t /\
  Status t = TaskStatusScheduled /\
  (NextRun t = None \/ exists n, NextRun t = Some n /\ n <= now).
Proof.
  intros Hk. unfold GetScheduledTasks. simpl.
  rewrite List.filter_In, <- list_elem_of_In, list_elem_of_fmap.
  unfold isDue. rewrite andb_true_iff, String.eqb_eq. split.
  - intros [([k t'] & -> & Hin) [Hst Hnext]]. simpl in *.
    apply elem_of_map_to_list in Hin.
    rewrite (Hk _ _ Hin). split; [exact Hin | ]. split; [exact Hst | ].
    destruct (NextRun t') as [n|]; [right | now left].
    exists n. split; [reflexivity | now apply Z.leb_le].
  - intros (Hlook & Hst & Hnext). split.
    + exists (ID t, t). split; [reflexivity | now apply elem_of_map_to_list].
    + split; [exact Hst | ].
      destruct Hnext as [-> | (n & -> & Hn)]; [reflexivity | now apply Z.leb_le].
Qed.

(** The examined tasks have pairwise distinct identities. *)
Lemma GetScheduledTasks_NoDup (now : Time) (db : DB) :
  keyed db -> List.NoDup (List.map ID (fst (GetScheduledTasks now db))).
Proof.
  intros Hk. unfold GetScheduledTasks. simpl.
  pose proof (NoDup_fst_map_to_list (tasks db)) as Hnd.
  apply NoDup_ListNoDup in Hnd.
  assert (Hall : forall kt, In kt (map_to_list (tasks db)) -> ID (snd kt) = fst kt).
  { intros [k t] Hin. apply list_elem_of_In, elem_of_map_to_list in Hin.
    exact (Hk _ _ Hin). }
  revert Hnd Hall. generalize (map_to_list (tasks db)) as l.
  induction l as [|[k t] l IH]; simpl; intros Hnd Hall; [constructor | ].
  inversion Hnd as [|? ? Hnotin Hnd']; subst.
  assert (Htail : List.NoDup (List.map ID (List.filter (isDue now) (l.*2)))).
  { apply IH; [exact Hnd' | intros kt Hin; apply Hall; now right]. }
  destruct (isDue now t); [ | exact Htail].
  simpl. constructor; [ | exact Htail].
  intros Hin. apply Hnotin.
  apply List.in_map_iff in Hin as (t' & Hid & Hin').
  apply List.filter_In in Hin' as [Hin' _].
  apply list_elem_of_In, list_elem_of_fmap in Hin' as ([k' t''] & -> & Hin').
  simpl in Hid. apply list_elem_of_In in Hin'.
  pose proof (Hall (k', t'') (or_intror Hin')) as Hk'. simpl in Hk'.
  pose proof (Hall (k, t) (or_introl eq_refl)) as Hkt. simpl in Hkt.
  apply list_elem_of_In, list_elem_of_fmap. exists (k', t''). split.
  - simpl. congruence.
  - now apply list_elem_of_In.
Qed.

Section Sweep.
Context (lib : cron.TimeLib).

(** The loop of the sweep, in closed form: missed one-off tasks are handed
    to workers in order, the tasks table is folded through [sweepRow], and
    nothing else moves. The sweep panics only on a missed cron task without
    expression. *)
Lemma checkMissedTasks_loop_spec (l : list Task) :
  forall (s : Scheduler) (now0 : Time),
  now0 = now (world s) ->
  (forall t, In t l -> sweepable lib now0 t = true) ->
  checkMissedTasks_loop lib now0 l s =
  Some (mkScheduler
          (mkDB (fold_left (sweepRow lib now0) l (tasks (store s)))
                (task_results (store s)))
          (scheduler.executor s) (taskLogger s) (scheduler.metrics s) (cron s)
          (oneOffTasks s)
          (goroutines s ++ List.filter (missedOneOff now0) l)%list
          (world s)).
Proof.
  induction l as [|t l IH]; intros s now0 Hnow Hsafe.
  - simpl. rewrite app_nil_r. destruct s as [[] ? ? ? ? ? ? ?]. reflexivity.
  - assert (Htail : forall t', In t' l -> sweepable lib now0 t' = true)
      by (intros t' Hin; apply Hsafe; now right).
    pose proof (Hsafe t (or_introl eq_refl)) as Ht. unfold sweepable in Ht.
    simpl. unfold checkMissedTask, sweepRow, missedOneOff, missed.
    destruct (NextRun t) as [n|]; simpl.
    2:{ rewrite (IH s now0 Hnow Htail). reflexivity. }
    destruct (n <? now0); simpl.
    2:{ rewrite (IH s now0 Hnow Htail). reflexivity. }
    destruct (String.eqb (TriggerType_ t) TriggerTypeOneOff) eqn:Hone.
    { apply String.eqb_eq in Hone. rewrite Hone. simpl.
      rewrite (IH (spawn s t) now0 Hnow Htail). simpl. now rewrite <- app_assoc. }
    destruct (String.eqb (TriggerType_ t) TriggerTypeCron) eqn:Hcron.
    2:{ rewrite (IH s now0 Hnow Htail). reflexivity. }
    destruct (CronExpr t) as [e|]; [ | discriminate].
    rewrite <- Hnow.
    destruct (calculateNextCronRun lib e now0) as [[next|err]|]; [ | | discriminate].
    + unfold UpdateNextRun.
      rewrite IH; [reflexivity | exact Hnow | exact Htail].
    + rewrite (IH s now0 Hnow Htail). reflexivity.
Qed.

Lemma sweepRow_other (now : Time) (m : gmap UUID Task) (t : Task) (k : UUID) :
  ID t <> k -> sweepRow lib now m t !! k = m !! k.
Proof.
  intros Hne. unfold sweepRow.
  destruct (missed now t && _); [ | reflexivity].
  destruct (CronExpr t); [ | reflexivity].
  destruct (calculateNextCronRun lib _ _) as [[next|err]|]; try reflexivity.
  now apply lookup_alter_ne.
Qed.

Lemma sweep_fold_other (now : Time) (l : list Task) (k : UUID) :
  forall m : gmap UUID Task,
  ~ In k (List.map ID l) ->
  fold_left (sweepRow lib now) l m !! k = m !! k.
Proof.
  induction l as [|t l IH]; intros m Hnotin; simpl; [reflexivity | ].
  rewrite IH by (intros H; apply Hnotin; now right).
  apply sweepRow_other. intros H. apply Hnotin. now left.
Qed.

(** A row that is not a cron task is never touched by the fold. *)
Lemma sweep_fold_not_cron (now : Time) (l : list Task) (k : UUID) :
  forall m : gmap UUID Task,
  (forall t, In t l -> ID t = k ->
             String.eqb (TriggerType_ t) TriggerTypeCron = false) ->
  fold_left (sweepRow lib now) l m !! k = m !! k.
Proof.
  induction l as [|t l IH]; intros m H; simpl; [reflexivity | ].
  rewrite IH by (intros t' Hin; apply H; now right).
  destruct (decide (ID t = k)) as [Heq|Hne]; [ | now apply sweepRow_other].
  unfold sweepRow. rewrite (H t (or_introl eq_refl) Heq).
  now rewrite andb_false_r.
Qed.

Lemma sweep_fold_recomputed (now next : Time) (e : string) (l : list Task)
    (t : Task) : forall m : gmap UUID Task,
  List.NoDup (List.map ID l) ->
  In t l ->
  missed now t = true ->
  String.eqb (TriggerType_ t) TriggerTypeCron = true ->
  CronExpr t = Some e ->
  calculateNextCronRun lib e now = Some (cron.Ok next) ->
  fold_left (sweepRow lib now) l m !! ID t =
  (fun row => withUpdatedAt (withNextRun row (Some next)) now) <$> m !! ID t.
Proof.
  induction l as [|t0 l IH]; intros m Hnd Hin Hmissed Hcron He Hcalc;
    [destruct Hin | ].
  simpl in Hnd. inversion Hnd as [|? ? Hnotin Hnd']; subst.
  simpl. destruct Hin as [-> | Hin].
  - rewrite sweep_fold_other by exact Hnotin.
    unfold sweepRow. rewrite Hmissed, Hcron, He, Hcalc. simpl.
    apply lookup_alter_eq.
  - rewrite (IH _ Hnd' Hin Hmissed Hcron He Hcalc).
    rewrite sweepRow_other; [reflexivity | ].
    intros Heq. apply Hnotin. rewrite Heq. now apply List.in_map.
Qed.

(** The fold leaves alone the row of every examined task on which
    [sweepRow] does nothing. *)
Lemma sweep_fold_kept (now : Time) (l : list Task) (k : UUID) :
  forall m : gmap UUID Task,
  (forall t, In t l -> ID t = k -> forall m', sweepRow lib now m' t = m') ->
  fold_left (sweepRow lib now) l m !! k = m !! k.
Proof.
  induction l as [|t l IH]; intros m H; simpl; [reflexivity | ].
  rewrite IH by (intros t' Hin; apply H; now right).
  destruct (decide (ID t = k)) as [Heq|Hne]; [ | now apply sweepRow_other].
  now rewrite (H t (or_introl eq_refl) Heq).
Qed.

(** The fold adds no row. *)
Lemma sweep_fold_None (now : Time) (l : list Task) (k : UUID) :
  forall m : gmap UUID Task,
  m !! k = None -> fold_left (sweepRow lib now) l m !! k = None.
Proof.
  induction l as [|t l IH]; intros m H; simpl; [exact H | ].
  apply IH. unfold sweepRow.
  destruct (missed now t && _); [ | exact H].
  destruct (CronExpr t); [ | exact H].
  destruct (calculateNextCronRun lib _ _) as [[next|err]|]; try exact H.
  now apply lookup_alter_None.
Qed.

End Sweep.

(** C6 (amended). A sweep examines exactly the scheduled tasks whose next
    run is null or not after now. It hands each examined one-off task
    whose next run is in the past to a worker; for each examined cron task
    whose next run is in the past and whose expression parses as five
    fields it stores the next run computed from the expression in that
    task's row and hands nothing to a worker; it writes no result, makes
    no HTTP attempt and leaves every row that is not a cron task alone.
    Every other row is left as it was, whatever its trigger type: the row
    of a task whose next run is null or not in the past, of a task that
    is not examined, and of a cron task whose expression is refused; and
    no row is added. *)
Theorem checkMissedTasks_sweep (lib : cron.TimeLib) (s : Scheduler) :
  keyed (store s) ->
  map_Forall (fun (_ : UUID) (t : Task) => sweepable lib (now (world s)) t = true)
             (tasks (store s)) ->
  let now := now (world s) in
  let due := fst (GetScheduledTasks now (store s)) in
  (forall t, In t due <->
     tasks (store s) !! ID t = Some t /\
     Status t = TaskStatusScheduled /\
     (NextRun t = None \/ exists n, NextRun t = Some n /\ n <= now)) /\
  exists s',
    checkMissedTasks lib s = Some s' /\
    goroutines s' = (goroutines s ++ List.filter (missedOneOff now) due)%list /\
    (forall t, In t due -> missed now t = true ->
       String.eqb (TriggerType_ t) TriggerTypeOneOff = true ->
       In t (goroutines s')) /\
    (forall t, In t due ->
       String.eqb (TriggerType_ t) TriggerTypeCron = true ->
       ~ In t (List.filter (missedOneOff now) due)) /\
    (forall t e next, In t due -> missed now t = true ->
       String.eqb (TriggerType_ t) TriggerTypeCron = true ->
       CronExpr t = Some e ->
       calculateNextCronRun lib e now = Some (cron.Ok next) ->
       tasks (store s') !! ID t
         = Some (withUpdatedAt (withNextRun t (Some next)) now)) /\
    (forall k t, tasks (store s) !! k = Some t ->
       String.eqb (TriggerType_ t) TriggerTypeCron = false ->
       tasks (store s') !! k = Some t) /\
    (forall k t, tasks (store s) !! k = Some t ->
       missed now t = false ->
       tasks (store s') !! k = Some t) /\
    (forall t, In t due -> NextRun t = None ->
       tasks (store s') !! ID t = Some t /\
       ~ In t (List.filter (missedOneOff now) due)) /\
    (forall k t, tasks (store s) !! k = Some t ->
       ~ In t due ->
       tasks (store s') !! k = Some t) /\
    (forall k t e err, tasks (store s) !! k = Some t ->
       CronExpr t = Some e ->
       calculateNextCronRun lib e now = Some (cron.Err err) ->
       tasks (store s') !! k = Some t) /\
    (forall k, tasks (store s) !! k = None -> tasks (store s') !! k = None) /\
    task_results (store s') = task_results (store s) /\
    world s' = world s /\
    cron s' = cron s /\
    oneOffTasks s' = oneOffTasks s.
Proof.
  intros Hk Hexpr now due.
  assert (Hdue : forall t, In t due <->
            tasks (store s) !! ID t = Some t /\
            Status t = TaskStatusScheduled /\
            (NextRun t = None \/ exists n, NextRun t = Some n /\ n <= now)).
  { intros t. apply GetScheduledTasks_exactly. exact Hk. }
  split; [exact Hdue | ].
  unfold checkMissedTasks.
  subst due now. unfold GetScheduledTasks in *. simpl fst in *.
  set (now := executor.now (world s)) in *.
  set (due := List.filter (isDue now) (map_to_list (tasks (store s))).*2) in *.
  rewrite (checkMissedTasks_loop_spec lib due s now eq_refl).
  2:{ intros t Hin. apply Hdue in Hin as (Hlook & _). exact (Hexpr _ _ Hlook). }
  eexists. split; [reflexivity | ]. simpl.
  split; [reflexivity | ].
  split.
  { intros t Hin Hmissed Hone. apply List.in_or_app. right.
    apply List.filter_In. split; [exact Hin | ].
    unfold missedOneOff. now rewrite Hmissed, Hone. }
  split.
  { intros t Hin Hcron Hin'. apply List.filter_In in Hin' as [_ H].
    unfold missedOneOff in H. apply andb_prop in H as [_ H].
    apply String.eqb_eq in H. rewrite H in Hcron. discriminate. }
  split.
  { intros t e next Hin Hmissed Hcron He Hcalc.
    rewrite (sweep_fold_recomputed lib now next e due t); auto.
    - apply Hdue in Hin as (Hlook & _). now rewrite Hlook.
    - exact (GetScheduledTasks_NoDup now (store s) Hk). }
  split.
  { intros k t Hlook Hnot. rewrite sweep_fold_not_cron; [exact Hlook | ].
    intros t' Hin Hid. apply Hdue in Hin as (Hlook' & _).
    rewrite Hid, Hlook in Hlook'. injection Hlook' as <-. exact Hnot. }
  assert (Hsame : forall k t t', tasks (store s) !! k = Some t ->
            In t' due -> ID t' = k -> t' = t).
  { intros k t t' Hlook Hin Hid. apply Hdue in Hin as (Hlook' & _).
    rewrite Hid, Hlook in Hlook'. now injection Hlook'. }
  split.
  { intros k t Hlook Hnot. rewrite sweep_fold_kept; [exact Hlook | ].
    intros t' Hin Hid m'. rewrite (Hsame k t t' Hlook Hin Hid).
    unfold sweepRow. now rewrite Hnot. }
  split.
  { intros t Hin Hnull. pose proof (proj1 (Hdue t) Hin) as (Hlook & _). split.
    - rewrite sweep_fold_kept; [exact Hlook | ].
      intros t' Hin' Hid m'. rewrite (Hsame (ID t) t t' Hlook Hin' Hid).
      unfold sweepRow, missed. now rewrite Hnull.
    - intros Hin'. apply List.filter_In in Hin' as [_ H].
      unfold missedOneOff, missed in H. rewrite Hnull in H. discriminate. }
  split.
  { intros k t Hlook Hnot. rewrite sweep_fold_other; [exact Hlook | ].
    intros Hin. apply List.in_map_iff in Hin as (t' & Hid & Hin).
    apply Hnot. now rewrite <- (Hsame k t t' Hlook Hin Hid). }
  split.
  { intros k t e err Hlook He Hcalc. rewrite sweep_fold_kept; [exact Hlook | ].
    intros t' Hin Hid m'. rewrite (Hsame k t t' Hlook Hin Hid).
    unfold sweepRow. destruct (missed now t && _); [ | reflexivity].
    now rewrite He, Hcalc. }
  split.
  { intros k Hnone. now apply sweep_fold_None. }
  repeat split.
Qed.

Lemma checkMissedTasks_sweep_witness :
  keyed (store (samples.sched samples.allOk)) /\
  exists s',
    checkMissedTasks samples.lib (samples.sched samples.allOk) = Some s' /\
    goroutines s' = [samples.ping] /\
    NextRun <$> tasks (store s') !! ID samples.everyMinute
      = Some (Some (1000 + 60 * second)).
Proof.
  assert (Hk : keyed (store (samples.sched samples.allOk))).
  { unfold keyed. compute_done. }
  assert (Hexpr : map_Forall
            (fun (_ : UUID) (t : Task) =>
               sweepable samples.lib (now (world (samples.sched samples.allOk))) t
                 = true)
            (tasks (store (samples.sched samples.allOk)))) by compute_done.
  split; [exact Hk | ].
  destruct (checkMissedTasks_sweep samples.lib (samples.sched samples.allOk)
              Hk Hexpr) as (_ & s' & Hrun & Hgo & _ & _ & Hcron & _).
  exists s'. split; [exact Hrun | ]. split.
  - rewrite Hgo. vm_compute. reflexivity.
  - rewrite (Hcron samples.everyMinute "* * * * *" (1000 + 60 * second)).
    + reflexivity.
    + vm_compute. tauto.
    + reflexivity.
    + reflexivity.
    + reflexivity.
    + vm_compute. reflexivity.
Defined.

(** C6 (as stated, refuted). A scheduled cron task whose next run is null
    is examined by the sweep, yet the sweep neither recomputes nor stores
    a next run for it: the row stays as it was. *)
Lemma sweep_skips_unplanned_cron_task :
  In samples.unplanned
     (fst (GetScheduledTasks (now (world samples.schedUnplanned))
                             (store samples.schedUnplanned))) /\
  String.eqb (TriggerType_ samples.unplanned) TriggerTypeCron = true /\
  checkMissedTasks samples.lib samples.schedUnplanned = Some samples.schedUnplanned /\
  NextRun <$> tasks (store samples.schedUnplanned) !! ID samples.unplanned
    = Some None.
Proof. vm_compute. repeat split. now left. Qed.

End sweep_facts.

(* ===================================================================== *)
(** ** More on [RetryExecutor]: any retry budget *)
(* ===================================================================== *)

Module retry_general.
Import models executor.

Section Generic.
Context {W : Type}.
Variable inner : Task -> W -> TaskResult * W.
Variable sleep : Z -> W -> W.

Lemma Execute_loop_attempts (n d : Z) (task : Task) (fuel : nat) :
  forall (attempt : Z) (last : option TaskResult) (w : W)
         (calls : list TaskResult),
  Z.of_nat fuel = n + 1 - attempt ->
  let r := mkRetryExecutor (recording inner) (sleepRecording sleep) n d in
  (fuel = 0%nat /\
   Execute_loop r fuel attempt last task (w, calls) = (last, (w, calls))) \/
  exists (failed : list TaskResult) (final : TaskResult) (w' : W),
    Execute_loop r fuel attempt last task (w, calls)
      = (Some final, (w', (calls ++ failed ++ [final])%list)) /\
    forallb (fun x => negb (Success x)) failed = true /\
    (List.length failed < fuel)%nat /\
    (Success final = true \/ S (List.length failed) = fuel).
Proof.
  induction fuel as [|fuel IH]; intros attempt last w calls Hfuel r.
  - left. split; reflexivity.
  - right. subst r. simpl.
    assert (Hle : (attempt <=? n) = true) by (apply Z.leb_le; lia).
    rewrite Hle.
    destruct (0 <? attempt); simpl;
      match goal with
      | |- context [inner task ?w0] => destruct (inner task w0) as [result w1]
      end; simpl;
      (destruct (Success result) eqn:Hs;
       [ exists [], result, w1; simpl; repeat split; auto; lia
       | destruct (IH (attempt + 1) (Some result) w1 (calls ++ [result])%list)
           as [[-> Hrun] | (failed & final & w' & Hrun & Hall & Hlen & Hlast)];
         [ lia
         | exists [], result, w1; simpl; repeat split; auto
         | exists (result :: failed), final, w'; simpl; rewrite Hrun, Hs, Hall;
           rewrite <- app_assoc; simpl; repeat split; auto; try lia;
           destruct Hlast as [Hlast | Hlast]; [now left | right; lia] ] ]).
Qed.

(** X1. For any retry budget [n >= 0] the attempts made are at most [n]
    failed ones followed by a final one whose result is returned; the
    final attempt is the first successful one, or attempt [n + 1] when
    none succeeds. *)
Theorem Execute_budget (n d : Z) (task : Task) (w : W) :
  0 <= n ->
  let r := mkRetryExecutor (recording inner) (sleepRecording sleep) n d in
  exists (failed : list TaskResult) (final : TaskResult) (w' : W),
    Execute r task (w, []) = (Some final, (w', (failed ++ [final])%list)) /\
    forallb (fun x => negb (Success x)) failed = true /\
    Z.of_nat (List.length failed) <= n /\
    (Success final = true \/ Z.of_nat (List.length failed) = n).
Proof.
  intros Hn r. subst r. unfold Execute. simpl maxRetries.
  destruct (Execute_loop_attempts n d task (Z.to_nat (n + 1)) 0 None w [])
    as [[Hz _] | (failed & final & w' & Hrun & Hall & Hlen & Hlast)];
    [lia | lia | ].
  exists failed, final, w'. simpl in Hrun. rewrite Hrun.
  repeat split; auto; try lia.
  destruct Hlast as [Hlast | Hlast]; [now left | right; lia].
Qed.

(** X2. With a negative retry budget nothing is attempted, nothing is
    slept, and the nil result is returned. *)
Theorem Execute_negative_budget (r : RetryExecutor W) (task : Task) (w : W) :
  maxRetries r < 0 ->
  Execute r task w = (None, w).
Proof.
  intros H. unfold Execute.
  replace (Z.to_nat (maxRetries r + 1)) with 0%nat by lia. reflexivity.
Qed.

Variable executeWithTimeout : Task -> Z -> W -> TaskResult * W.

Lemma ExecuteWithTimeout_loop_is_Execute_loop (r : RetryExecutor W)
    (task : Task) (timeout : Z) (fuel : nat) :
  forall (attempt : Z) (last : option TaskResult) (w : W),
  ExecuteWithTimeout_loop executeWithTimeout r fuel attempt last task timeout w =
  Execute_loop (mkRetryExecutor (fun t w => executeWithTimeout t timeout w)
                                (executor.sleep r) (maxRetries r) (retryDelay r))
               fuel attempt last task w.
Proof.
  induction fuel as [|fuel IH]; intros attempt last w; simpl; [reflexivity | ].
  destruct (attempt <=? maxRetries r); [ | reflexivity].
  destruct (executeWithTimeout task timeout _) as [result w1].
  destruct (Success result); [reflexivity | apply IH].
Qed.

(** X3. [ExecuteWithTimeout] retries exactly as [Execute] does over the
    executor with the timeout fixed: same attempts, same sleeps, same
    result. *)
Theorem ExecuteWithTimeout_is_Execute (r : RetryExecutor W) (task : Task)
    (timeout : Z) (w : W) :
  ExecuteWithTimeout executeWithTimeout r task timeout w =
  Execute (mkRetryExecutor (fun t w => executeWithTimeout t timeout w)
                           (executor.sleep r) (maxRetries r) (retryDelay r))
          task w.
Proof. apply ExecuteWithTimeout_loop_is_Execute_loop. Qed.

End Generic.

Lemma NewRetryExecutor_loop_sleeps (n d : Z) (task : Task) (fuel : nat) :
  forall (attempt : Z) (last : option TaskResult) (w : World),
  0 <= attempt ->
  exists k : nat,
    let w' := snd (Execute_loop (NewRetryExecutor n d) fuel attempt last task w) in
    (k <= fuel)%nat /\
    (fuel <> 0%nat -> attempt <= n -> (1 <= k)%nat) /\
    attempts w' = (attempts w + k)%nat /\
    sleeps w' = (sleeps w ++ repeat d (if attempt =? 0 then Nat.pred k else k))%list.
Proof.
  induction fuel as [|fuel IH]; intros attempt last w Hatt.
  - exists 0%nat. simpl. destruct (attempt =? 0); simpl;
      rewrite app_nil_r; repeat split; lia.
  - simpl. destruct (attempt <=? n) eqn:Hle.
    2:{ exists 0%nat. simpl. apply Z.leb_gt in Hle.
        destruct (attempt =? 0); simpl;
          rewrite app_nil_r; repeat split; lia. }
    destruct (0 <? attempt) eqn:Hpos.
    + assert (Hz : (attempt =? 0) = false)
        by (apply Z.eqb_neq; apply Z.ltb_lt in Hpos; lia).
      rewrite Hz. simpl.
      destruct (Success _).
      * exists 1%nat. simpl. repeat split; lia.
      * match goal with
        | |- context [Execute_loop _ fuel _ ?l task ?w1] =>
            destruct (IH (attempt + 1) l w1 ltac:(lia)) as (k & Hk & _ & Hat & Hsl)
        end.
        assert (Hz' : (attempt + 1 =? 0) = false) by (apply Z.eqb_neq; lia).
        rewrite Hz' in Hsl. simpl in Hk, Hat, Hsl.
        exists (S k). cbv zeta. rewrite Hat, Hsl. simpl.
        rewrite <- app_assoc. simpl. repeat split; lia.
    + assert (Hz : (attempt =? 0) = true)
        by (apply Z.eqb_eq; apply Z.ltb_ge in Hpos; lia).
      rewrite Hz. simpl.
      destruct (Success _).
      * exists 1%nat. simpl. rewrite app_nil_r. repeat split; lia.
      * match goal with
        | |- context [Execute_loop _ fuel _ ?l task ?w1] =>
            destruct (IH (attempt + 1) l w1 ltac:(lia)) as (k & Hk & _ & Hat & Hsl)
        end.
        assert (Hz' : (attempt + 1 =? 0) = false) by (apply Z.eqb_neq; lia).
        rewrite Hz' in Hsl. simpl in Hk, Hat, Hsl.
        exists (S k). cbv zeta. rewrite Hat, Hsl. simpl.
        repeat split; lia.
Qed.

(** X4. The HTTP executor wrapped with budget [n] and delay [d] makes [k]
    attempts with [1 <= k <= n + 1] and sleeps the delay exactly [k - 1]
    times: once before every attempt but the first, never after the last. *)
Theorem NewRetryExecutor_attempts_and_sleeps (n d : Z) (task : Task) (w : World) :
  0 <= n ->
  exists k : nat,
    let w' := snd (Execute (NewRetryExecutor n d) task w) in
    (1 <= k)%nat /\ Z.of_nat k <= n + 1 /\
    attempts w' = (attempts w + k)%nat /\
    sleeps w' = (sleeps w ++ repeat d (k - 1))%list.
Proof.
  intros Hn. unfold Execute. change (maxRetries (NewRetryExecutor n d)) with n.
  destruct (NewRetryExecutor_loop_sleeps n d task (Z.to_nat (n + 1)) 0 None w
              ltac:(lia)) as (k & Hk & Hone & Hat & Hsl).
  change (0 =? 0) with true in Hsl. cbv iota in Hsl.
  exists k. cbv zeta. split; [ | split; [lia | split; [exact Hat | ]]].
  - apply Hone; lia.
  - replace (k - 1)%nat with (Nat.pred k) by lia. exact Hsl.
Qed.

Lemma Execute_budget_witness :
  let r := mkRetryExecutor (recording HTTPExecutor_Execute) (sleepRecording Sleep)
                           2 second in
  exists (failed : list TaskResult) (final : TaskResult) (w' : World),
    Execute r samples.ping (samples.allFail, [])
      = (Some final, (w', (failed ++ [final])%list)) /\
    forallb (fun x => negb (Success x)) failed = true /\
    Z.of_nat (List.length failed) <= 2 /\
    (Success final = true \/ Z.of_nat (List.length failed) = 2).
Proof.
  apply (Execute_budget HTTPExecutor_Execute Sleep 2 second samples.ping
           samples.allFail).
  lia.
Defined.

Lemma Execute_negative_budget_witness :
  Execute (NewRetryExecutor (-1) second) samples.ping samples.allOk
    = (None, samples.allOk).
Proof.
  apply (Execute_negative_budget (NewRetryExecutor (-1) second) samples.ping
           samples.allOk).
  simpl. lia.
Defined.

Lemma NewRetryExecutor_attempts_and_sleeps_witness :
  exists k : nat,
    let w' := snd (Execute (NewRetryExecutor 3 second) samples.ping samples.allFail) in
    (1 <= k)%nat /\ Z.of_nat k <= 3 + 1 /\
    attempts w' = (attempts samples.allFail + k)%nat /\
    sleeps w' = (sleeps samples.allFail ++ repeat second (k - 1))%list.
Proof.
  apply (NewRetryExecutor_attempts_and_sleeps 3 second samples.ping samples.allFail).
  lia.
Defined.

End retry_general.

(* ===================================================================== *)
(** ** More on package [metrics]: counters and the one-minute window *)
(* ===================================================================== *)

Module metrics_counters.
Import models metrics.

Lemma wrap64_small (z : Z) : - 2 ^ 63 <= z < 2 ^ 63 -> wrap64 z = z.
Proof. intros H. unfold wrap64. rewrite Z.mod_small; lia. Qed.

Lemma RecordAll_counts (es : list Execution) : forall m : Metrics,
  0 <= SuccessfulTasks m ->
  0 <= FailedTasks m ->
  TotalTasksExecuted m = SuccessfulTasks m + FailedTasks m ->
  TotalTasksExecuted m + Z.of_nat (List.length es) < 2 ^ 63 ->
  0 <= TotalExecutionTime m ->
  Forall (fun e => 0 <= took e) es ->
  TotalExecutionTime m + totalTook es < 2 ^ 63 ->
  exists m',
    RecordAll m es = Some m' /\
    TotalTasksExecuted m' = TotalTasksExecuted m + Z.of_nat (List.length es) /\
    SuccessfulTasks m'
      = SuccessfulTasks m + Z.of_nat (List.length (List.filter succeeded es)) /\
    FailedTasks m'
      = FailedTasks m
        + Z.of_nat (List.length (List.filter (fun e => negb (succeeded e)) es)) /\
    TotalExecutionTime m' = TotalExecutionTime m + totalTook es /\
    (es <> [] ->
     AverageExecutionTime m' = Z.quot (TotalExecutionTime m') (TotalTasksExecuted m')).
Proof.
  induction es as [|e es IH]; intros m HS HF HT Hlen HTT Hpos Hsum.
  - exists m. simpl. repeat split; try lia. intros H. now destruct H.
  - inversion Hpos as [|? ? He Hpos']; subst.
    assert (Hes : 0 <= totalTook es).
    { clear -Hpos'. induction Hpos'; simpl; lia. }
    simpl in Hlen, Hsum |- *.
    unfold RecordTaskExecution.
    rewrite (wrap64_small (TotalTasksExecuted m + 1)) by lia.
    rewrite (wrap64_small (TotalExecutionTime m + took e)) by lia.
    destruct (TotalTasksExecuted m + 1 =? 0) eqn:E; [apply Z.eqb_eq in E; lia | ].
    assert (Hq : 0 <= Z.quot (TotalExecutionTime m + took e) (TotalTasksExecuted m + 1)
                 <= TotalExecutionTime m + took e).
    { split; [apply Z.quot_pos; lia | ].
      rewrite Z.quot_div_nonneg by lia.
      apply Z.div_le_upper_bound; [lia | nia]. }
    rewrite (wrap64_small (Z.quot _ _)) by lia.
    set (m1 := mkMetrics _ _ _ _ _ _ _).
    destruct (IH m1) as (m' & Hrun & HT' & HS' & HF' & HTT' & Havg).
    + subst m1. simpl. destruct (succeeded e); [rewrite wrap64_small | ]; lia.
    + subst m1. simpl. destruct (succeeded e); [ | rewrite wrap64_small]; lia.
    + subst m1. simpl.
      destruct (succeeded e); rewrite wrap64_small; lia.
    + subst m1. simpl. lia.
    + subst m1. simpl. lia.
    + exact Hpos'.
    + subst m1. simpl. lia.
    + exists m'. split; [exact Hrun | ].
      subst m1. simpl in HT', HS', HF', HTT'.
      split; [lia | ]. split.
      { rewrite HS'. destruct (succeeded e); simpl;
          [rewrite wrap64_small by lia | ]; lia. }
      split.
      { rewrite HF'. destruct (succeeded e); simpl;
          [ | rewrite wrap64_small by lia]; lia. }
      split; [lia | ]. intros _.
      destruct es as [|e' es']; [ | apply Havg; discriminate].
      simpl in Hrun. injection Hrun as <-. reflexivity.
Qed.

(** X5. Counting from a fresh [Metrics], and while the 64-bit counters do
    not overflow, a run of recordings leaves the number of recordings in
    [TotalTasksExecuted], the number of successes and of failures in the
    two other counters (so the total is their sum), the sum of the
    durations in [TotalExecutionTime], and their truncated mean in
    [AverageExecutionTime]; no recording panics. *)
Theorem RecordAll_from_new (es : list Execution) :
  Z.of_nat (List.length es) < 2 ^ 63 ->
  Forall (fun e => 0 <= took e) es ->
  totalTook es < 2 ^ 63 ->
  exists m,
    RecordAll NewMetrics es = Some m /\
    TotalTasksExecuted m = Z.of_nat (List.length es) /\
    SuccessfulTasks m = Z.of_nat (List.length (List.filter succeeded es)) /\
    FailedTasks m
      = Z.of_nat (List.length (List.filter (fun e => negb (succeeded e)) es)) /\
    TotalTasksExecuted m = SuccessfulTasks m + FailedTasks m /\
    TotalExecutionTime m = totalTook es /\
    (es <> [] ->
     AverageExecutionTime m = Z.quot (totalTook es) (Z.of_nat (List.length es))).
Proof.
  intros Hlen Hpos Hsum.
  destruct (RecordAll_counts es NewMetrics) as (m & Hrun & HT & HS & HF & HTT & Havg);
    simpl; try lia; try assumption.
  exists m. simpl in *. split; [exact Hrun | ].
  split; [exact HT | ]. split; [exact HS | ]. split; [exact HF | ].
  split.
  { rewrite HT, HS, HF. clear.
    induction es as [|e es IH]; simpl; [reflexivity | ].
    destruct (succeeded e); simpl; lia. }
  split; [exact HTT | ].
  intros Hne. rewrite (Havg Hne), HTT, HT. reflexivity.
Qed.

(** The window after one recording, when the clock readings so far are in
    order: the readings strictly after the cutoff. *)
Lemma prune_window (c cutoff now : Z) (prev : list Z) :
  c <= cutoff -> cutoff < now ->
  StronglySorted Z.le (prev ++ [now]) ->
  prune cutoff (List.filter (Z.ltb c) prev ++ [now])
    = Some (List.filter (Z.ltb cutoff) (prev ++ [now])).
Proof.
  intros Hc Hnow. induction prev as [|t prev IH]; intros Hsorted; simpl.
  - assert (H : (cutoff <? now) = true) by now apply Z.ltb_lt.
    rewrite H. reflexivity.
  - inversion Hsorted as [|? ? Hs Hall]; subst.
    destruct (c <? t) eqn:Hct; simpl.
    + destruct (cutoff <? t) eqn:Hcut.
      * f_equal. apply Z.ltb_lt in Hcut.
        assert (Hkeep : forall (b : Z) (l : list Z),
                  Forall (Z.le t) l -> b < t -> List.filter (Z.ltb b) l = l).
        { intros b l Hl Hb. induction Hl as [|x l Hx _ IHl]; simpl; [reflexivity | ].
          assert (Hbx : (b <? x) = true) by (apply Z.ltb_lt; lia).
          now rewrite Hbx, IHl. }
        rewrite (Hkeep cutoff (prev ++ [now])%list Hall Hcut).
        apply Forall_app in Hall as [Hprev _].
        apply Z.ltb_lt in Hct.
        now rewrite (Hkeep c prev Hprev Hct).
      * apply IH. exact Hs.
    + assert (Hcut : (cutoff <? t) = false)
        by (apply Z.ltb_ge; apply Z.ltb_ge in Hct; lia).
      rewrite Hcut. apply IH. exact Hs.
Qed.

Lemma RecordAll_window (es : list Execution) :
  forall (m : Metrics) (prev : list Z) (c : Z),
  es <> [] ->
  lastMinuteExecutions m = List.filter (Z.ltb c) prev ->
  StronglySorted Z.le (prev ++ List.map readAt es) ->
  Forall (fun e => c <= readAt e - minute) es ->
  forall m', RecordAll m es = Some m' ->
  let window :=
    List.filter (Z.ltb (List.last (List.map readAt es) 0 - minute))
                (prev ++ List.map readAt es) in
  lastMinuteExecutions m' = window /\
  TasksPerMinute m' = float64 (Z.of_nat (List.length window)).
Proof.
  induction es as [|e es IH]; intros m prev c Hne Hwin Hsorted Hc m' Hrun;
    [now destruct Hne | ].
  simpl in Hrun.
  destruct (RecordTaskExecution m (readAt e) (took e) (succeeded e)) as [m1|] eqn:Hrec;
    [ | discriminate].
  inversion Hc as [|? ? Hce Hc']; subst.
  assert (Hsorted1 : StronglySorted Z.le (prev ++ [readAt e])).
  { clear -Hsorted. simpl in Hsorted. revert Hsorted.
    induction prev as [|t prev IHp]; simpl; intros H.
    - constructor; constructor.
    - inversion H as [|? ? Hs Hall]; subst. constructor; [now apply IHp | ].
      apply Forall_app in Hall as [Hp Hr]. apply Forall_app. split; [exact Hp | ].
      inversion Hr; subst. now constructor. }
  assert (Hm1 : lastMinuteExecutions m1
                = List.filter (Z.ltb (readAt e - minute)) (prev ++ [readAt e]) /\
                TasksPerMinute m1
                = float64 (Z.of_nat (List.length (lastMinuteExecutions m1)))).
  { unfold RecordTaskExecution in Hrec.
    destruct (wrap64 (TotalTasksExecuted m + 1) =? 0); [discriminate | ].
    injection Hrec as <-. cbn [lastMinuteExecutions TasksPerMinute].
    rewrite Hwin. unfold Time.
    rewrite (prune_window c (readAt e - minute) (readAt e) prev Hce
               ltac:(unfold minute; lia) Hsorted1).
    split; reflexivity. }
  destruct Hm1 as [Hw1 Ht1].
  destruct es as [|e' es'].
  - simpl in Hrun. injection Hrun as <-. simpl. rewrite Ht1, Hw1. split; reflexivity.
  - assert (Hlast : List.last (List.map readAt (e :: e' :: es')) 0
                    = List.last (List.map readAt (e' :: es')) 0) by reflexivity.
    cbv zeta. rewrite Hlast.
    replace (prev ++ List.map readAt (e :: e' :: es'))%list
      with ((prev ++ [readAt e]) ++ List.map readAt (e' :: es'))%list
      by (rewrite <- app_assoc; reflexivity).
    apply (IH m1 (prev ++ [readAt e])%list (readAt e - minute));
      [discriminate | exact Hw1 | | | exact Hrun].
    + rewrite <- app_assoc. exact Hsorted.
    + clear -Hsorted. simpl in Hsorted.
      assert (Hafter : Forall (Z.le (readAt e)) (List.map readAt (e' :: es'))).
      { revert Hsorted. induction prev as [|t prev IHp]; simpl; intros H.
        - now inversion H.
        - inversion H; subst. now apply IHp. }
      apply List.Forall_forall. intros x Hx.
      rewrite List.Forall_forall in Hafter.
      specialize (Hafter (readAt x) (List.in_map readAt _ _ Hx)). lia.
Qed.

(** X6. When the clock readings of a run of recordings, counted from a
    fresh [Metrics], never go back, the window holds exactly the readings
    within the minute before the last one, and [TasksPerMinute] is their
    number. *)
Theorem RecordAll_tasks_per_minute (es : list Execution) (m : Metrics) :
  es <> [] ->
  StronglySorted Z.le (List.map readAt es) ->
  RecordAll NewMetrics es = Some m ->
  let window :=
    List.filter (Z.ltb (List.last (List.map readAt es) 0 - minute))
                (List.map readAt es) in
  lastMinuteExecutions m = window /\
  TasksPerMinute m = float64 (Z.of_nat (List.length window)).
Proof.
  intros Hne Hsorted Hrun.
  destruct es as [|e es]; [now destruct Hne | ].
  apply (RecordAll_window (e :: es) NewMetrics [] (readAt e - minute));
    [discriminate | reflexivity | exact Hsorted | | exact Hrun].
  simpl in Hsorted. inversion Hsorted as [|? ? _ Hall]; subst.
  constructor; [lia | ].
  apply List.Forall_forall. intros x Hx. rewrite List.Forall_forall in Hall.
  specialize (Hall (readAt x) (List.in_map readAt _ _ Hx)). lia.
Qed.

Lemma RecordAll_from_new_witness :
  exists m,
    RecordAll NewMetrics samples.run = Some m /\
    TotalTasksExecuted m = Z.of_nat (List.length samples.run) /\
    SuccessfulTasks m = Z.of_nat (List.length (List.filter succeeded samples.run)) /\
    FailedTasks m
      = Z.of_nat (List.length (List.filter (fun e => negb (succeeded e)) samples.run)) /\
    TotalTasksExecuted m = SuccessfulTasks m + FailedTasks m /\
    TotalExecutionTime m = totalTook samples.run /\
    (samples.run <> [] ->
     AverageExecutionTime m
       = Z.quot (totalTook samples.run) (Z.of_nat (List.length samples.run))).
Proof.
  apply (RecordAll_from_new samples.run).
  - vm_compute. reflexivity.
  - repeat constructor; vm_compute; discriminate.
  - vm_compute. reflexivity.
Defined.

Lemma RecordAll_tasks_per_minute_witness :
  let m := default NewMetrics (RecordAll NewMetrics samples.run) in
  let window :=
    List.filter (Z.ltb (List.last (List.map readAt samples.run) 0 - minute))
                (List.map readAt samples.run) in
  lastMinuteExecutions m = window /\
  TasksPerMinute m = float64 (Z.of_nat (List.length window)).
Proof.
  apply (RecordAll_tasks_per_minute samples.run
           (default NewMetrics (RecordAll NewMetrics samples.run))).
  - discriminate.
  - repeat constructor; vm_compute; discriminate.
  - vm_compute. reflexivity.
Defined.

End metrics_counters.

(* ===================================================================== *)
(** ** More on package [executor]: what every result looks like *)
(* ===================================================================== *)

Module executor_shape.
Import models gostrings executor.

(** X7. Every result of an attempt links the task and the start instant.
    It has a status code exactly when a response arrived; without one it
    is a failure with an error message, no body and no headers. A result
    is marked successful only with a 2xx status code, and every failure
    carries an error message. *)
Theorem Execute_attempt_shape (task : Task) (startTime : Time) (a : Attempt) :
  let r := Execute_attempt task startTime a in
  TaskID r = ID task /\
  RunAt r = startTime /\
  ResultID r = newID a /\
  DurationMs r = elapsedMs a /\
  (StatusCode r = None <-> forall resp, trip a <> DoOk resp) /\
  (StatusCode r = None ->
     Success r = false /\ ResponseBody r = None /\ ResponseHeaders r = ∅ /\
     ErrorMessage r <> None) /\
  (Success r = true ->
     exists code, StatusCode r = Some code /\ 200 <= code < 300) /\
  (Success r = false -> ErrorMessage r <> None).
Proof.
  intros r. subst r. unfold Execute_attempt.
  destruct (trip a) as [err|err|resp] eqn:Htrip.
  - simpl. repeat split; try discriminate; auto.
  - simpl. repeat split; try discriminate; auto.
  - destruct (RespBody resp) as [body|err]; simpl.
    + repeat split; try discriminate.
      * intros H. exfalso. exact (H resp eq_refl).
      * intros H. exists (RespStatusCode resp). split; [reflexivity | ].
        apply andb_prop in H as [H1 H2]. apply Z.leb_le in H1.
        apply Z.ltb_lt in H2. lia.
      * intros H. rewrite H. simpl. discriminate.
    + repeat split; try discriminate.
      * intros H. exfalso. exact (H resp eq_refl).
      * intros H. exists (RespStatusCode resp). split; [reflexivity | ].
        apply andb_prop in H as [H1 H2]. apply Z.leb_le in H1.
        apply Z.ltb_lt in H2. lia.
Qed.

End executor_shape.

(* ===================================================================== *)
(** ** More on package [repository]: writes *)
(* ===================================================================== *)

Module store_facts.
Import models repository.

(** X9. [Delete] and [UpdateNextRun] on an identity without a row report
    no error and leave the store as it is. *)
Theorem Delete_UpdateNextRun_unknown (id : UUID) (nextRun : option Time)
    (now : Time) (db : DB) :
  GetByID id db = None ->
  Delete id now db = (None, db) /\
  UpdateNextRun id nextRun now db = (None, db).
Proof.
  unfold GetByID, Delete, UpdateNextRun. intros H. destruct db as [ts rs].
  simpl in *. split; f_equal; f_equal; apply map_eq; intros j;
    (destruct (decide (id = j)) as [<-|Hne];
     [rewrite lookup_alter_eq, H; reflexivity
     | rewrite lookup_alter_ne by exact Hne; reflexivity]).
Qed.

(** X10. [Delete] marks and never removes: the row, if any, keeps every
    field but gets status cancelled (whatever the status was) and the
    update instant; no row appears or disappears, the other rows and all
    results are untouched; deleting again changes the status no more. *)
Theorem Delete_marks (id : UUID) (now : Time) (db : DB) :
  let db' := snd (Delete id now db) in
  fst (Delete id now db) = None /\
  GetByID id db'
    = (fun t => withUpdatedAt (withStatus t TaskStatusCancelled) now) <$> GetByID id db /\
  (forall j, j <> id -> GetByID j db' = GetByID j db) /\
  (forall j, is_Some (GetByID j db') <-> is_Some (GetByID j db)) /\
  task_results db' = task_results db /\
  (forall later, Status <$> GetByID id (snd (Delete id later db'))
                 = Status <$> GetByID id db').
Proof.
  unfold Delete, GetByID. simpl. repeat split.
  - apply lookup_alter_eq.
  - intros j Hne. apply lookup_alter_ne. congruence.
  - destruct (decide (id = j)) as [<-|Hne].
    + rewrite lookup_alter_eq. destruct (tasks db !! id); simpl; intros [x H];
        [eauto | discriminate].
    + rewrite lookup_alter_ne by exact Hne. trivial.
  - destruct (decide (id = j)) as [<-|Hne].
    + rewrite lookup_alter_eq. destruct (tasks db !! id); simpl; intros [x H];
        [eauto | discriminate].
    + rewrite lookup_alter_ne by exact Hne. trivial.
  - intros later. rewrite !lookup_alter_eq.
    destruct (tasks db !! id); reflexivity.
Qed.

Lemma Create_cases (result : TaskResult) (db : DB) :
  let '(err, db') := Create result db in
  tasks db' = tasks db /\
  ((err = None /\
    task_results db' = (task_results db ++ [result])%list /\
    is_Some (GetByID (TaskID result) db) /\
    Forall (fun r => ResultID r <> ResultID result) (task_results db)) \/
   (err <> None /\ db' = db /\
    (GetByID (TaskID result) db = None \/
     Exists (fun r => ResultID r = ResultID result) (task_results db)))).
Proof.
  unfold Create, GetByID.
  destruct (tasks db !! TaskID result) as [t|] eqn:Ht.
  - destruct (existsb _ (task_results db)) eqn:Hex.
    + split; [reflexivity | ]. right. split; [discriminate | ].
      split; [reflexivity | ]. right.
      apply existsb_exists in Hex as (r & Hin & Heq).
      apply List.Exists_exists. exists r. split; [exact Hin | ].
      now apply N.eqb_eq.
    + split; [reflexivity | ]. left. split; [reflexivity | ].
      split; [reflexivity | ]. split; [eauto | ].
      apply List.Forall_forall. intros r Hin Heq.
      assert (Hex' : existsb (fun r0 => N.eqb (ResultID r0) (ResultID result))
                             (task_results db) = true).
      { apply existsb_exists. exists r. split; [exact Hin | now apply N.eqb_eq]. }
      rewrite Hex' in Hex. discriminate.
  - split; [reflexivity | ]. right. split; [discriminate | ].
    split; [reflexivity | now left].
Qed.

(** What an insert of a task does: the record handed back carries the
    defaults and its identity; the insert fails exactly on an identity
    that has a row. *)
Lemma CreateTask_cases (task : Task) (fresh : UUID) (now : Time) (db : DB) :
  let '(saved, err, db') := CreateTask task fresh now db in
  ID saved = (if N.eqb (ID task) Nil then fresh else ID task) /\
  saved = withID (withDefaults task now) (ID saved) /\
  ((is_Some (GetByID (ID saved) db) /\ err <> None /\ db' = db) \/
   (GetByID (ID saved) db = None /\ err = None /\
    GetByID (ID saved) db' = Some saved /\
    (forall j, j <> ID saved -> GetByID j db' = GetByID j db) /\
    task_results db' = task_results db /\
    (keyed db -> keyed db'))).
Proof.
  unfold CreateTask, GetByID.
  change (ID (withDefaults task now)) with (ID task).
  set (t := if N.eqb (ID task) Nil then withID (withDefaults task now) fresh
            else withDefaults task now).
  assert (Hid : ID t = (if N.eqb (ID task) Nil then fresh else ID task)).
  { subst t. destruct (N.eqb (ID task) Nil); reflexivity. }
  assert (Hsaved : t = withID (withDefaults task now) (ID t)).
  { subst t. destruct (N.eqb (ID task) Nil); reflexivity. }
  destruct (tasks db !! ID t) as [old|] eqn:Hold.
  - split; [exact Hid | ]. split; [exact Hsaved | ]. left.
    split; [eauto | ]. split; [discriminate | reflexivity].
  - split; [exact Hid | ]. split; [exact Hsaved | ]. right.
    split; [exact Hold | ]. split; [reflexivity | ]. simpl.
    split; [apply lookup_insert_eq | ].
    split; [intros j Hne; apply lookup_insert_ne; congruence | ].
    split; [reflexivity | ].
    unfold keyed. simpl. intros Hk. apply map_Forall_insert_2; [reflexivity | exact Hk].
Qed.

Lemma Delete_UpdateNextRun_unknown_witness :
  Delete 99%N 10 samples.db0 = (None, samples.db0) /\
  UpdateNextRun 99%N (Some 5) 10 samples.db0 = (None, samples.db0).
Proof.
  apply (Delete_UpdateNextRun_unknown 99%N (Some 5) 10 samples.db0).
  vm_compute. reflexivity.
Defined.

End store_facts.

(* ===================================================================== *)
(** ** More on listing: order, paging and the pagination object *)
(* ===================================================================== *)

Module listing_facts.
Import models gostrings metrics repository handlers task_handler.

Section Sorting.
Context {A : Type}.
Variable key : A -> Z.

Lemma insertDesc_In (x y : A) (l : list A) :
  In y (insertDesc key x l) <-> y = x \/ In y l.
Proof.
  induction l as [|z l IH]; simpl.
  - intuition.
  - destruct (key z <? key x); simpl; [intuition | ].
    rewrite IH. intuition.
Qed.

Lemma sortDesc_In (y : A) (l : list A) : In y (sortDesc key l) <-> In y l.
Proof.
  induction l as [|x l IH]; simpl; [reflexivity | ].
  rewrite insertDesc_In, IH. intuition.
Qed.



Lemma insertDesc_sorted (x : A) (l : list A) :
  StronglySorted (descending key) l -> StronglySorted (descending key) (insertDesc key x l).
Proof.
  induction l as [|z l IH]; intros Hs; simpl.
  - constructor; constructor.
  - inversion Hs as [|? ? Hs' Hall]; subst.
    destruct (key z <? key x) eqn:E.
    + apply Z.ltb_lt in E. constructor; [exact Hs | ].
      constructor; [unfold descending; lia | ].
      apply List.Forall_forall. intros b Hb.
      rewrite List.Forall_forall in Hall. specialize (Hall b Hb).
      unfold descending in *. lia.
    + apply Z.ltb_ge in E. constructor; [now apply IH | ].
      apply List.Forall_forall. intros b Hb.
      apply insertDesc_In in Hb as [-> | Hb]; [exact E | ].
      rewrite List.Forall_forall in Hall. exact (Hall b Hb).
Qed.

Lemma sortDesc_sorted (l : list A) : StronglySorted (descending key) (sortDesc key l).
Proof.
  induction l as [|x l IH]; simpl; [constructor | now apply insertDesc_sorted].
Qed.

End Sorting.

Section Paging.
Context {A : Type}.

Lemma limitOffset_In (limit offset : Z) (rows : list A) (x : A) :
  In x (limitOffset limit offset rows) -> In x rows.
Proof.
  unfold limitOffset. intros H.
  assert (Hskip : forall n (l : list A), In x (skipn n l) -> In x l).
  { intros n. induction n as [|n IH]; intros [|y l] Hin; simpl in *; auto. }
  assert (Hfirst : forall n (l : list A), In x (firstn n l) -> In x l).
  { intros n. induction n as [|n IH]; intros [|y l] Hin; simpl in *;
      try contradiction. destruct Hin as [-> | Hin]; auto. }
  destruct (limit <? 0); destruct (0 <? offset); eauto.
Qed.


Lemma limitOffset_sorted (R : A -> A -> Prop) (limit offset : Z) (rows : list A) :
  StronglySorted R rows -> StronglySorted R (limitOffset limit offset rows).
Proof.
  unfold limitOffset. intros Hs.
  assert (Hskip : forall n (l : list A),
            StronglySorted R l -> StronglySorted R (skipn n l)).
  { intros n. induction n as [|n IH]; intros [|y l] H; simpl; auto.
    inversion H; subst. now apply IH. }
  assert (Hfirst : forall n (l : list A),
            StronglySorted R l -> StronglySorted R (firstn n l)).
  { intros n. induction n as [|n IH]; intros [|y l] H; simpl; try constructor.
    - inversion H; subst. now apply IH.
    - inversion H as [|? ? _ Hall]; subst.
      apply List.Forall_forall. intros b Hb.
      rewrite List.Forall_forall in Hall. apply Hall.
      clear -Hb. revert l Hb. induction n as [|n IHn]; intros [|z l] Hb;
        simpl in *; try contradiction. destruct Hb as [-> | Hb]; auto. }
  destruct (limit <? 0); destruct (0 <? offset); auto.
Qed.

End Paging.

(** X13. [total_pages] is the number of pages needed: zero for an empty
    listing, and otherwise the least count of pages of [limit] rows that
    holds [total] rows. *)
Theorem totalPages_ceiling (total limit : Z) :
  0 <= total < 2 ^ 62 -> 1 <= limit <= 100 ->
  let pages := totalPages total limit in
  (total = 0 -> pages = 0) /\
  (0 < total -> (pages - 1) * limit < total <= pages * limit).
Proof.
  intros Ht Hl pages. subst pages. unfold totalPages.
  rewrite (metrics_counters.wrap64_small (total + limit - 1)) by lia.
  assert (Hq : Z.quot (total + limit - 1) limit = (total + limit - 1) / limit)
    by (apply Z.quot_div_nonneg; lia).
  rewrite Hq.
  assert (Hb : 0 <= (total + limit - 1) / limit <= total + limit - 1).
  { split; [apply Z.div_pos; lia | ].
    apply Z.div_le_upper_bound; [lia | nia]. }
  rewrite metrics_counters.wrap64_small by lia.
  pose proof (Z.div_mod (total + limit - 1) limit ltac:(lia)) as Hdm.
  pose proof (Z.mod_pos_bound (total + limit - 1) limit ltac:(lia)) as Hmb.
  split.
  - intros ->. apply Z.div_small. lia.
  - intros Hpos. nia.
Qed.


(** X15. [GetTaskResults] answers 404 for an identity without task and
    touches no result; otherwise it answers 200 with at most [limit]
    results, all of that task, latest run first, and [total] counts the
    results of the task. *)
Theorem GetTaskResults_page (id : UUID) (pageQuery limitQuery : option string)
    (db : DB) :
  (GetByID id db = None ->
     GetTaskResults id pageQuery limitQuery db = (404, [], None)) /\
  (is_Some (GetByID id db) ->
     exists (page : list TaskResult) (pg : Pagination),
       GetTaskResults id pageQuery limitQuery db = (200, page, Some pg) /\
       1 <= limit pg <= 100 /\
       total pg = Z.of_nat (List.length (resultsOf id db)) /\
       (List.length page <= Z.to_nat (limit pg))%nat /\
       (forall r, In r page -> TaskID r = id /\ In r (task_results db)) /\
       StronglySorted (fun a b => RunAt b <= RunAt a) page).
Proof.
  unfold GetTaskResults. split.
  - intros ->. reflexivity.
  - intros [t ->]. unfold GetTaskResults_paging, GetByTaskID.
    set (p0 := fst (Atoi (DefaultQuery pageQuery "1"))).
    set (l0 := fst (Atoi (DefaultQuery limitQuery "10"))).
    set (l := if (l0 <? 1) || (100 <? l0) then 10 else l0).
    assert (Hl : 1 <= l <= 100).
    { subst l. destruct (l0 <? 1) eqn:E1; simpl; [lia | ].
      destruct (100 <? l0) eqn:E2; [lia | ].
      apply Z.ltb_ge in E1. apply Z.ltb_ge in E2. lia. }
    eexists _, _. split; [reflexivity | ]. simpl.
    split; [lia | ]. split; [reflexivity | ]. split.
    { unfold limitOffset.
      assert (E : (l <? 0) = false) by (apply Z.ltb_ge; lia). rewrite E.
      rewrite List.length_firstn. lia. }
    split.
    + intros r Hin. apply limitOffset_In, sortDesc_In in Hin.
      apply List.filter_In in Hin as [Hin Hid]. split; [now apply N.eqb_eq | exact Hin].
    + apply limitOffset_sorted. apply (sortDesc_sorted RunAt).
Qed.

(** X16. [ResultRepository.List] returns only rows that pass the filters
    given, the task's and the success flag's, and restricts nothing for a
    filter left out; [total] counts the rows that pass, whatever the page. *)
Theorem ListResults_filters (limit offset : Z) (taskID : option UUID)
    (success : option bool) (db : DB) :
  let '(page, total, err) := ListResults limit offset taskID success db in
  let passes (r : TaskResult) :=
    match taskID with Some id => N.eqb (TaskID r) id | None => true end &&
    match success with Some b => Bool.eqb (Success r) b | None => true end in
  err = None /\
  total = Z.of_nat (List.length (List.filter passes (task_results db))) /\
  (forall r, In r page -> In r (task_results db) /\ passes r = true) /\
  StronglySorted (fun a b => RunAt b <= RunAt a) page.
Proof.
  unfold ListResults. cbv zeta.
  set (passes := fun r : TaskResult =>
         match taskID with Some id => N.eqb (TaskID r) id | None => true end &&
         match success with Some b => Bool.eqb (Success r) b | None => true end).
  set (query := match success with
                | Some b => List.filter (fun r => Bool.eqb (Success r) b) _
                | None => _
                end).
  assert (Hquery : query = List.filter passes (task_results db)).
  { subst query passes.
    assert (Hff : forall (f g : TaskResult -> bool) (rows : list TaskResult),
              List.filter g (List.filter f rows)
              = List.filter (fun r => f r && g r) rows).
    { intros f g rows. induction rows as [|r rows IH]; simpl; [reflexivity | ].
      destruct (f r); simpl; [destruct (g r); now rewrite IH | exact IH]. }
    assert (Hid : forall (rows : list TaskResult),
              rows = List.filter (fun _ => true) rows).
    { intros rows. induction rows as [|r rows IH]; simpl; [reflexivity | now rewrite <- IH]. }
    destruct taskID as [id|], success as [b|]; simpl.
    - apply Hff.
    - apply List.filter_ext. intros r. now rewrite andb_true_r.
    - reflexivity.
    - apply Hid. }
  split; [reflexivity | ]. split; [now rewrite Hquery | ]. split.
  - intros r Hin. apply limitOffset_In, sortDesc_In in Hin.
    rewrite Hquery in Hin. now apply List.filter_In in Hin.
  - apply limitOffset_sorted. apply (sortDesc_sorted RunAt).
Qed.

Lemma totalPages_ceiling_witness :
  let pages := totalPages 25 10 in
  (25 = 0 -> pages = 0) /\
  (0 < 25 -> (pages - 1) * 10 < 25 <= pages * 10).
Proof.
  apply (totalPages_ceiling 25 10).
  - split; [discriminate | reflexivity].
  - split; discriminate.
Defined.


End listing_facts.

(* ===================================================================== *)
(** ** More on package [scheduler]: timers, start-up and dispatch *)
(* ===================================================================== *)

Module scheduler_more.
Import models gostrings executor metrics repository scheduler.

(** A dispatch never touches the timers, the registry, the started workers
    or the executor. *)
Lemma executeTask_frame (task task' : Task) (s s' : Scheduler) :
  executeTask task s = Some (task', s') ->
  oneOffTasks s' = oneOffTasks s /\ cron s' = cron s /\
  goroutines s' = goroutines s /\ scheduler.executor s' = scheduler.executor s /\
  ID task' = ID task.
Proof.
  unfold executeTask.
  destruct (Execute _ task (world s)) as [[result|] w]; [ | discriminate].
  destruct (RecordTaskExecution _ _ _ _) as [m|]; [ | discriminate].
  destruct (taskLogger s) as [entries|]; [ | discriminate].
  destruct (Create _ (store s)) as [err db].
  destruct (String.eqb (TriggerType_ task) TriggerTypeOneOff).
  - unfold Update. intros H. injection H as <- <-. simpl. auto.
  - intros H. injection H as <- <-. simpl. auto.
Qed.

Section Arming.
Context (lib : cron.TimeLib).

(** What one call of [ScheduleTask] can change. *)
Lemma ScheduleTask_frame (task : Task) (s s' : Scheduler)
    (err : option cron.ParseError) :
  ScheduleTask lib task s = Some (err, s') ->
  store s' = store s /\ world s' = world s /\
  (forall j, j <> ID task -> oneOffTasks s' !! j = oneOffTasks s !! j) /\
  (exists added, cron.entries (cron s') = (cron.entries (cron s) ++ added)%list /\
                 Forall (fun e => cron.EntryJob e = task) added /\
                 (List.length added <= 1)%nat) /\
  (exists started, goroutines s' = (goroutines s ++ started)%list /\
                   Forall (fun t => t = task) started) /\
  (err <> None -> s' = s).
Proof.
  assert (Hsame : forall x : Scheduler,
            store x = store x /\ world x = world x /\
            (forall j, j <> ID task -> oneOffTasks x !! j = oneOffTasks x !! j) /\
            (exists added, cron.entries (cron x) = (cron.entries (cron x) ++ added)%list /\
                           Forall (fun e => cron.EntryJob e = task) added /\
                           (List.length added <= 1)%nat) /\
            (exists started, goroutines x = (goroutines x ++ started)%list /\
                             Forall (fun t => t = task) started)).
  { intros x. repeat split; auto.
    - exists []. rewrite app_nil_r. auto.
    - exists []. rewrite app_nil_r. auto. }
  unfold ScheduleTask.
  destruct (String.eqb (TriggerType_ task) TriggerTypeOneOff).
  - unfold scheduleOneOffTask.
    destruct (TriggerTime task) as [tt|].
    2:{ intros H. injection H as <- <-.
        destruct (Hsame s) as (H1 & H2 & H3 & H4 & H5). repeat split; auto. }
    set (s0 := match oneOffTasks s !! ID task with
               | Some timer => _
               | None => s
               end).
    assert (H0 : store s0 = store s /\ world s0 = world s /\ cron s0 = cron s /\
                 goroutines s0 = goroutines s /\
                 forall j, j <> ID task -> oneOffTasks s0 !! j = oneOffTasks s !! j).
    { subst s0. destruct (oneOffTasks s !! ID task); simpl; repeat split; auto.
      intros j Hne. apply lookup_insert_ne. congruence. }
    destruct H0 as (Hst & Hw & Hc & Hg & Hj).
    destruct (Hsame s) as (_ & _ & _ & H4 & H5).
    destruct (tt - now (world s0) <=? 0).
    + intros H. injection H as <- <-. simpl. rewrite Hc, Hg.
      split; [exact Hst | ]. split; [exact Hw | ]. split; [exact Hj | ].
      split; [exact H4 | ]. split; [exists [task]; auto | ].
      intros H; now destruct H.
    + intros H. injection H as <- <-. simpl. rewrite Hc, Hg.
      split; [exact Hst | ]. split; [exact Hw | ]. split.
      { intros j Hne. rewrite lookup_insert_ne by congruence. now apply Hj. }
      split; [exact H4 | ]. split; [exact H5 | ].
      intros H; now destruct H.
  - destruct (String.eqb (TriggerType_ task) TriggerTypeCron).
    2:{ intros H. injection H as <- <-.
        destruct (Hsame s) as (H1 & H2 & H3 & H4 & H5). repeat split; auto. }
    unfold scheduleCronTask.
    destruct (CronExpr task) as [e|].
    2:{ intros H. injection H as <- <-.
        destruct (Hsame s) as (H1 & H2 & H3 & H4 & H5). repeat split; auto. }
    unfold cron.AddFunc.
    destruct (Hsame s) as (H1 & H2 & H3 & H4 & H5).
    destruct (cron.Parse lib (cron.parser (cron s)) e) as [sch|pe].
    + intros H. injection H as <- <-. simpl.
      split; [reflexivity | ]. split; [reflexivity | ]. split; [auto | ].
      split.
      { eexists [_]. split; [reflexivity | ]. split; [ | auto].
        constructor; [reflexivity | constructor]. }
      split; [exact H5 | ]. intros H; now destruct H.
    + destruct pe; try discriminate;
        (intros H; injection H as <- <-; repeat split; auto).
Qed.

(** X17. Scheduling a one-off task with a trigger time returns nil. When
    the time has come the task goes to a worker at once and no timer of
    its identity can fire any more; otherwise exactly one live timer
    holds the task, set to the trigger time, and no worker starts. The
    store, the registry and the timers of other tasks are untouched. *)
Theorem ScheduleTask_one_off (task : Task) (triggerTime : Time) (s : Scheduler) :
  String.eqb (TriggerType_ task) TriggerTypeOneOff = true ->
  TriggerTime task = Some triggerTime ->
  exists s',
    ScheduleTask lib task s = Some (None, s') /\
    store s' = store s /\ cron s' = cron s /\ world s' = world s /\
    (forall j, j <> ID task -> oneOffTasks s' !! j = oneOffTasks s !! j) /\
    (triggerTime <= now (world s) ->
       goroutines s' = (goroutines s ++ [task])%list /\
       liveTimer (ID task) s' = false) /\
    (now (world s) < triggerTime ->
       goroutines s' = goroutines s /\
       oneOffTasks s' !! ID task = Some (mkTimer task triggerTime false)) /\
    (timersKeyed s -> timersKeyed s').
Proof.
  intros Hone Htt. unfold ScheduleTask, scheduleOneOffTask. rewrite Hone, Htt.
  destruct (oneOffTasks s !! ID task) as [timer|] eqn:Hold.
  - change (world (setTimers s _)) with (world s).
    destruct (triggerTime - now (world s) <=? 0) eqn:Hdue.
    + apply Z.leb_le in Hdue. eexists. split; [reflexivity | ]. simpl.
      repeat split; auto; try lia.
      * intros j Hne. apply lookup_insert_ne. congruence.
      * unfold liveTimer. simpl. rewrite lookup_insert_eq. reflexivity.
      * unfold timersKeyed. simpl. intros Hk.
        apply map_Forall_insert_2; [exact (Hk _ _ Hold) | exact Hk].
    + apply Z.leb_gt in Hdue. eexists. split; [reflexivity | ]. simpl.
      repeat split; auto; try lia.
      * intros j Hne. rewrite !lookup_insert_ne by congruence. reflexivity.
      * apply lookup_insert_eq.
      * unfold timersKeyed. simpl. intros Hk.
        apply map_Forall_insert_2; [reflexivity | ].
        apply map_Forall_insert_2; [exact (Hk _ _ Hold) | exact Hk].
  - destruct (triggerTime - now (world s) <=? 0) eqn:Hdue.
    + apply Z.leb_le in Hdue. eexists. split; [reflexivity | ]. simpl.
      repeat split; auto; try lia.
      unfold liveTimer. simpl. now rewrite Hold.
    + apply Z.leb_gt in Hdue. eexists. split; [reflexivity | ]. simpl.
      repeat split; auto; try lia.
      * intros j Hne. apply lookup_insert_ne. congruence.
      * apply lookup_insert_eq.
      * unfold timersKeyed. simpl. intros Hk.
        apply map_Forall_insert_2; [reflexivity | exact Hk].
Qed.

End Arming.

Lemma UnscheduleTask_cases (taskID : UUID) (s : Scheduler) :
  let s' := UnscheduleTask taskID s in
  oneOffTasks s' !! taskID = None /\
  (forall j, j <> taskID -> oneOffTasks s' !! j = oneOffTasks s !! j) /\
  cron s' = cron s /\ store s' = store s /\ goroutines s' = goroutines s /\
  world s' = world s /\
  (forall d, timerFires taskID (elapse d s') = Some (elapse d s')) /\
  UnscheduleTask taskID s' = s'.
Proof.
  unfold UnscheduleTask.
  destruct (oneOffTasks s !! taskID) as [timer|] eqn:Hold; simpl.
  - repeat split; auto.
    + apply lookup_delete_eq.
    + intros j Hne. apply lookup_delete_ne. congruence.
    + intros d. unfold timerFires. simpl. now rewrite lookup_delete_eq.
    + rewrite lookup_delete_eq. reflexivity.
  - repeat split; auto.
    + intros d. unfold timerFires. simpl. now rewrite Hold.
    + now rewrite Hold.
Qed.

(** X18. [UnscheduleTask] drops the timer of the task, after which that
    timer never fires however much time passes; the timers of other
    tasks, the cron registry (so also the entries of the task itself),
    the store and the workers are untouched, and unscheduling again
    changes nothing. *)
Theorem UnscheduleTask_effect (taskID : UUID) (s : Scheduler) :
  let s' := UnscheduleTask taskID s in
  oneOffTasks s' !! taskID = None /\
  (forall j, j <> taskID -> oneOffTasks s' !! j = oneOffTasks s !! j) /\
  cron s' = cron s /\ store s' = store s /\ goroutines s' = goroutines s /\
  world s' = world s /\
  (forall d, timerFires taskID (elapse d s') = Some (elapse d s')) /\
  UnscheduleTask taskID s' = s'.
Proof. apply UnscheduleTask_cases. Qed.

(** X19. A timer fires at most once. When the live timer of a task fires
    at or after its instant, the task is dispatched once and the timer is
    dropped, so firing it again does nothing, however much later. *)
Theorem timerFires_once (id : UUID) (timer : Timer) (s s1 : Scheduler) :
  oneOffTasks s !! id = Some timer ->
  ID (timerTask timer) = id ->
  stopped timer = false ->
  fireAt timer <= now (world s) ->
  timerFires id s = Some s1 ->
  dispatched id s s1 /\
  oneOffTasks s1 !! id = None /\
  (forall j, j <> id -> oneOffTasks s1 !! j = oneOffTasks s !! j) /\
  (forall d, timerFires id (elapse d s1) = Some (elapse d s1)).
Proof.
  intros Hold Hid Hlive Hdue. unfold timerFires. rewrite Hold, Hlive.
  assert (E : (now (world s) <? fireAt timer) = false) by now apply Z.ltb_ge.
  rewrite E. simpl.
  destruct (executeTask (timerTask timer) s) as [[task' s2]|] eqn:Hexec;
    [ | discriminate].
  intros H. injection H as <-.
  destruct (executeTask_frame _ _ _ _ Hexec) as (Ht & _ & _ & _ & Hid').
  destruct (tick_facts.executeTask_other _ _ _ _ id Hexec) as (_ & _ & Hd & _).
  rewrite Hid in Hd. rewrite Hid', Hid. simpl.
  split; [ | split; [ | split]].
  - destruct Hd as (entries & result & H1 & H2).
    exists entries, result. simpl. auto.
  - rewrite Ht. apply lookup_delete_eq.
  - intros j Hne. rewrite Ht. apply lookup_delete_ne. congruence.
  - intros d. unfold timerFires. simpl. rewrite Ht, lookup_delete_eq. reflexivity.
Qed.

(** X20. A dispatch stamps its result with the start instant and the
    task, counts one execution in the metrics, and appends at most one
    row to the results: exactly that result when the task has a row and
    the result's identity is new, nothing otherwise. Earlier results are
    never changed. *)
Theorem executeTask_one_result (task task' : Task) (s s' : Scheduler) :
  executeTask task s = Some (task', s') ->
  TotalTasksExecuted (scheduler.metrics s')
    = wrap64 (TotalTasksExecuted (scheduler.metrics s) + 1) /\
  exists result,
    RunAt result = now (world s) /\ TaskID result = ID task /\
    (exists entries, taskLogger s = Some entries /\
                     taskLogger s' = Some (entries ++ [(ID task, result)])%list) /\
    ((is_Some (GetByID (ID task) (store s)) /\
      Forall (fun r => ResultID r <> ResultID result) (task_results (store s)) /\
      task_results (store s') = (task_results (store s) ++ [result])%list) \/
     ((GetByID (ID task) (store s) = None \/
       Exists (fun r => ResultID r = ResultID result) (task_results (store s))) /\
      task_results (store s') = task_results (store s))).
Proof.
  unfold executeTask.
  destruct (Execute _ task (world s)) as [[result|] w]; [ | discriminate].
  destruct (RecordTaskExecution _ _ _ _) as [m|] eqn:Hrec; [ | discriminate].
  destruct (taskLogger s) as [entries|] eqn:Hlog; [ | discriminate].
  assert (Hm : TotalTasksExecuted m
               = wrap64 (TotalTasksExecuted (scheduler.metrics s) + 1)).
  { unfold RecordTaskExecution in Hrec.
    destruct (wrap64 _ =? 0); [discriminate | ]. now injection Hrec as <-. }
  pose proof (store_facts.Create_cases
                (withRun result (now (world s)) (ID task)) (store s)) as Hc.
  destruct (Create _ (store s)) as [err db] eqn:Hcreate.
  destruct Hc as [Htasks Hc].
  assert (Hres : (is_Some (GetByID (ID task) (store s)) /\
                  Forall (fun r => ResultID r <> ResultID (withRun result (now (world s)) (ID task)))
                         (task_results (store s)) /\
                  task_results db
                    = (task_results (store s) ++ [withRun result (now (world s)) (ID task)])%list) \/
                 ((GetByID (ID task) (store s) = None \/
                   Exists (fun r => ResultID r = ResultID (withRun result (now (world s)) (ID task)))
                          (task_results (store s))) /\
                  task_results db = task_results (store s))).
  { destruct Hc as [(_ & Happ & Hsome & Hfresh) | (_ & -> & Hwhy)];
      [left; auto | right; auto]. }
  destruct (String.eqb (TriggerType_ task) TriggerTypeOneOff).
  - unfold Update. intros H. injection H as <- <-. simpl.
    split; [exact Hm | ].
    exists (withRun result (now (world s)) (ID task)).
    split; [reflexivity | ]. split; [reflexivity | ].
    split; [exists entries; auto | exact Hres].
  - intros H. injection H as <- <-. simpl.
    split; [exact Hm | ].
    exists (withRun result (now (world s)) (ID task)).
    split; [reflexivity | ]. split; [reflexivity | ].
    split; [exists entries; auto | exact Hres].
Qed.

Lemma ScheduleTask_one_off_witness :
  exists s',
    ScheduleTask samples.lib samples.ping (samples.sched samples.allOk)
      = Some (None, s') /\
    goroutines s' = [samples.ping] /\
    liveTimer (ID samples.ping) s' = false.
Proof.
  destruct (ScheduleTask_one_off samples.lib samples.ping 100
              (samples.sched samples.allOk))
    as (s' & Hrun & _ & _ & _ & _ & Hdue & _); [reflexivity | reflexivity | ].
  exists s'. split; [exact Hrun | ].
  apply Hdue. vm_compute. discriminate.
Defined.

Lemma timerFires_once_witness :
  let s1 := default samples.armed (timerFires (ID samples.ping) samples.armed) in
  dispatched (ID samples.ping) samples.armed s1 /\
  oneOffTasks s1 !! ID samples.ping = None /\
  (forall j, j <> ID samples.ping ->
     oneOffTasks s1 !! j = oneOffTasks samples.armed !! j) /\
  (forall d, timerFires (ID samples.ping) (elapse d s1) = Some (elapse d s1)).
Proof.
  apply (timerFires_once (ID samples.ping) (mkTimer samples.ping 100 false)
           samples.armed).
  - vm_compute. reflexivity.
  - reflexivity.
  - reflexivity.
  - vm_compute. discriminate.
  - vm_compute. reflexivity.
Defined.

Lemma executeTask_one_result_witness :
  let s := samples.sched samples.allOk in
  let s' := snd (default (samples.ping, s) (executeTask samples.ping s)) in
  TotalTasksExecuted (scheduler.metrics s')
    = wrap64 (TotalTasksExecuted (scheduler.metrics s) + 1) /\
  exists result,
    RunAt result = now (world s) /\ TaskID result = ID samples.ping /\
    (exists entries, taskLogger s = Some entries /\
                     taskLogger s'
                       = Some (entries ++ [(ID samples.ping, result)])%list) /\
    ((is_Some (GetByID (ID samples.ping) (store s)) /\
      Forall (fun r => ResultID r <> ResultID result) (task_results (store s)) /\
      task_results (store s') = (task_results (store s) ++ [result])%list) \/
     ((GetByID (ID samples.ping) (store s) = None \/
       Exists (fun r => ResultID r = ResultID result) (task_results (store s))) /\
      task_results (store s') = task_results (store s))).
Proof.
  intros s s'.
  apply (executeTask_one_result samples.ping
           (fst (default (samples.ping, s) (executeTask samples.ping s))) s s').
  vm_compute. reflexivity.
Defined.

End scheduler_more.

(* ===================================================================== *)
(** ** More on cron ticks and on start-up *)
(* ===================================================================== *)

Module tick_more.
Import models gostrings executor metrics repository scheduler.

Lemma executeTask_completes (task : Task) (s : Scheduler) :
  canDispatch s = true -> exists task' s', executeTask task s = Some (task', s').
Proof.
  unfold canDispatch. intros H.
  apply andb_prop in H as [H Hwrap]. apply andb_prop in H as [Hlog Hretry].
  apply Z.leb_le in Hretry. apply negb_true_iff in Hwrap.
  destruct (dispatch_facts.Execute_returns (scheduler.executor s) task (world s) Hretry)
    as (result & w & Hexec).
  unfold executeTask. rewrite Hexec.
  unfold RecordTaskExecution. rewrite Hwrap.
  destruct (taskLogger s) as [entries|]; [ | discriminate].
  destruct (Create _ (store s)) as [err db].
  destruct (String.eqb (TriggerType_ task) TriggerTypeOneOff).
  - unfold Update. eauto.
  - eauto.
Qed.

(** The dispatch of a task that is not one-off leaves the tasks table and
    the task as they are. *)
Lemma executeTask_not_one_off (task task' : Task) (s s' : Scheduler) :
  String.eqb (TriggerType_ task) TriggerTypeOneOff = false ->
  executeTask task s = Some (task', s') ->
  task' = task /\ tasks (store s') = tasks (store s).
Proof.
  intros Hone. unfold executeTask.
  destruct (Execute _ task (world s)) as [[result|] w]; [ | discriminate].
  destruct (RecordTaskExecution _ _ _ _) as [m|]; [ | discriminate].
  destruct (taskLogger s) as [entries|]; [ | discriminate].
  pose proof (store_facts.Create_cases
                (withRun result (now (world s)) (ID task)) (store s)) as Hc.
  destruct (Create _ (store s)) as [err db]. destruct Hc as [Htasks _].
  rewrite Hone. intros H. injection H as <- <-. simpl. auto.
Qed.

Section Ticks.
Context (lib : cron.TimeLib).

(** X21. A tick that finds its cron task scheduled, with an expression of
    five fields that parses, dispatches the task and then stores as its
    next run what the schedule gives for the clock read after the
    dispatch; the task stays scheduled. *)
Theorem cronTick_next_run (task cur : Task) (e : string) (sch : cron.Schedule)
    (s : Scheduler) :
  keyed (store s) ->
  canDispatch s = true ->
  GetByID (ID task) (store s) = Some cur ->
  Status cur = TaskStatusScheduled ->
  String.eqb (TriggerType_ cur) TriggerTypeOneOff = false ->
  CronExpr cur = Some e ->
  cron.Parse lib fiveFieldParser e = cron.Ok sch ->
  exists s',
    cronTick lib task s = Some s' /\
    dispatched (ID task) s s' /\
    GetByID (ID task) (store s')
      = Some (withUpdatedAt
                (withNextRun cur (Some (cron.Next lib sch (now (world s')))))
                (now (world s'))) /\
    (Status <$> GetByID (ID task) (store s')) = Some TaskStatusScheduled.
Proof.
  intros Hk Hcan Hget Hst Hone He Hparse.
  destruct (executeTask_completes cur s Hcan) as (cur' & s1 & Hexec).
  destruct (executeTask_not_one_off cur cur' s s1 Hone Hexec) as [-> Htasks].
  destruct (tick_facts.executeTask_other cur cur s s1 (ID task) Hexec)
    as (_ & _ & Hd & _).
  assert (Hid : ID cur = ID task) by exact (Hk _ _ Hget).
  rewrite Hid in Hd.
  unfold cronTick. rewrite Hget, Hst. simpl. rewrite Hexec, He.
  unfold calculateNextCronRun. change (Z.lor cron.Minute _) with fiveFieldParser.
  rewrite Hparse. unfold UpdateNextRun.
  eexists. split; [reflexivity | ]. simpl.
  split; [exact Hd | ].
  unfold GetByID in *. simpl. rewrite Hid, lookup_alter_eq, Htasks, Hget.
  simpl. split; [reflexivity | now rewrite Hst].
Qed.

(** X22. A tick that finds its task scheduled but without cron expression
    panics: it runs the dispatch, if that completes, and then dereferences
    the nil expression. *)
Theorem cronTick_without_expression (task cur : Task) (s : Scheduler) :
  GetByID (ID task) (store s) = Some cur ->
  Status cur = TaskStatusScheduled ->
  CronExpr cur = None ->
  cronTick lib task s = None.
Proof.
  intros Hget Hst He. unfold cronTick. rewrite Hget, Hst. simpl.
  destruct (executeTask cur s) as [[cur' s1]|] eqn:Hexec; [ | reflexivity].
  destruct (tick_facts.executeTask_other cur cur' s s1 (ID task) Hexec)
    as (_ & Hexpr & _).
  now rewrite Hexpr, He.
Qed.

Lemma loadExistingTasks_loop_unarmed (id : UUID) (l : list Task) :
  forall s s' : Scheduler,
  Forall (fun t => ID t <> id) l ->
  unarmed id s ->
  loadExistingTasks_loop lib l s = Some s' ->
  unarmed id s' /\ store s' = store s.
Proof.
  induction l as [|t l IH]; intros s s' Hl Hun; simpl.
  - intros H. injection H as <-. auto.
  - inversion Hl as [|? ? Ht Hl']; subst.
    destruct (ScheduleTask lib t s) as [[err s1]|] eqn:Hsched; [ | discriminate].
    destruct (scheduler_more.ScheduleTask_frame lib t s s1 err Hsched)
      as (Hst & _ & Htimers & (added & Hadd & Hjobs & _) & (started & Hgo & Hstarted) & _).
    intros Hrun.
    assert (Hun1 : unarmed id s1).
    { destruct Hun as (H1 & H2 & H3). split; [ | split].
      - rewrite Htimers by congruence. exact H1.
      - rewrite Hadd. apply Forall_app. split; [exact H2 | ].
        eapply List.Forall_impl; [ | exact Hjobs]. simpl. intros e ->. exact Ht.
      - rewrite Hgo. apply Forall_app. split; [exact H3 | ].
        eapply List.Forall_impl; [ | exact Hstarted]. simpl. intros x ->. exact Ht. }
    destruct (IH s1 s' Hl' Hun1 Hrun) as [Hun' Hst']. split; [exact Hun' | congruence].
Qed.

(** X23. Start-up arms only what is due. A stored task whose next run lies
    after the clock reading of [loadExistingTasks] gets no timer, no cron
    entry and no worker from it; the store is left as it is. *)
Theorem loadExistingTasks_skips_planned (id : UUID) (t : Task) (n : Time)
    (s s' : Scheduler) (err : error) :
  keyed (store s) ->
  unarmed id s ->
  GetByID id (store s) = Some t ->
  NextRun t = Some n ->
  now (world s) < n ->
  loadExistingTasks lib s = Some (err, s') ->
  err = None /\ unarmed id s' /\ store s' = store s.
Proof.
  intros Hk Hun Hget Hnext Hlater. unfold loadExistingTasks.
  set (due := GetScheduledTasks (now (world s)) (store s)).
  assert (Hdue : due = (fst due, None)) by reflexivity.
  rewrite Hdue.
  destruct (loadExistingTasks_loop lib (fst due) s) as [s1|] eqn:Hrun;
    [ | discriminate].
  intros H. injection H as <- <-.
  split; [reflexivity | ].
  apply (loadExistingTasks_loop_unarmed id (fst due) s s1); [ | exact Hun | exact Hrun].
  apply List.Forall_forall. intros t' Hin Hid.
  apply (sweep_facts.GetScheduledTasks_exactly _ _ _ Hk) in Hin
    as (Hlook & _ & Hnr).
  unfold GetByID in Hget. rewrite Hid, Hget in Hlook. injection Hlook as <-.
  rewrite Hnext in Hnr. destruct Hnr as [Hnr | (n' & Hn' & Hle)];
    [discriminate | ].
  injection Hn' as <-. lia.
Qed.

End Ticks.

Lemma cronTick_next_run_witness :
  let s := samples.sched samples.allOk in
  exists s',
    cronTick samples.lib samples.everyMinute s = Some s' /\
    dispatched (ID samples.everyMinute) s s' /\
    GetByID (ID samples.everyMinute) (store s')
      = Some (withUpdatedAt
                (withNextRun samples.everyMinute
                   (Some (cron.Next samples.lib samples.everyMinuteSchedule
                                    (now (world s')))))
                (now (world s'))) /\
    (Status <$> GetByID (ID samples.everyMinute) (store s'))
      = Some TaskStatusScheduled.
Proof.
  apply (cronTick_next_run samples.lib samples.everyMinute samples.everyMinute
           "* * * * *" samples.everyMinuteSchedule (samples.sched samples.allOk)).
  - unfold keyed. compute_done.
  - reflexivity.
  - vm_compute. reflexivity.
  - reflexivity.
  - reflexivity.
  - reflexivity.
  - vm_compute. reflexivity.
Defined.

Lemma cronTick_without_expression_witness :
  cronTick samples.lib samples.everyMinute samples.schedRetyped = None.
Proof.
  apply (cronTick_without_expression samples.lib samples.everyMinute
           samples.retyped samples.schedRetyped).
  - vm_compute. reflexivity.
  - reflexivity.
  - reflexivity.
Defined.

Lemma loadExistingTasks_skips_planned_witness :
  let s := samples.schedLater in
  let s' := snd (default (None, s) (loadExistingTasks samples.lib s)) in
  fst (default (None, s) (loadExistingTasks samples.lib s)) = None /\
  unarmed (ID samples.later) s' /\ store s' = store s.
Proof.
  intros s s'.
  apply (loadExistingTasks_skips_planned samples.lib (ID samples.later)
           samples.later 5000 s s').
  - unfold keyed. compute_done.
  - repeat split; try constructor.
  - vm_compute. reflexivity.
  - reflexivity.
  - vm_compute. reflexivity.
  - vm_compute. reflexivity.
Defined.

End tick_more.

(* ===================================================================== *)
(** ** Properties of package [service] *)
(* ===================================================================== *)

Module service_facts.
Import models gostrings executor repository scheduler.

(** X24. Cancelling through the service disarms before it marks: the timer
    of the task is gone, so it never fires however much time passes; the
    row, if any, has status cancelled; no result is touched and the cron
    registry keeps all its entries. *)
Theorem DeleteTask_disarms (id : UUID) (s : Scheduler) :
  let '(err, s') := service.DeleteTask id s in
  err = None /\
  oneOffTasks s' !! id = None /\
  (forall d, timerFires id (elapse d s') = Some (elapse d s')) /\
  (Status <$> GetByID id (store s'))
    = ((fun _ => TaskStatusCancelled) <$> GetByID id (store s)) /\
  task_results (store s') = task_results (store s) /\
  cron s' = cron s.
Proof.
  unfold service.DeleteTask, Delete.
  destruct (scheduler_more.UnscheduleTask_cases id s)
    as (Hnone & _ & Hcron & Hstore & _ & Hworld & _ & _).
  cbv zeta in *. simpl.
  split; [reflexivity | ]. split; [exact Hnone | ]. split.
  { intros d. unfold timerFires. simpl. now rewrite Hnone. }
  split.
  { unfold GetByID. simpl. rewrite lookup_alter_eq, Hstore.
    destruct (tasks (store s) !! id); reflexivity. }
  split; [now rewrite Hstore | exact Hcron].
Qed.

Section WithTimeLib.
Context (lib : cron.TimeLib).

(** X25. [CreateTask] of the service does not roll back. When the store
    refuses the task nothing changes; otherwise the task is stored under
    its identity even when the scheduler then refuses it and its error is
    handed back, in which case nothing is armed. *)
Theorem CreateTask_no_rollback (task saved : Task) (fresh : UUID)
    (s s' : Scheduler) (err : option service.serviceError) :
  service.CreateTask lib task fresh s = Some (saved, err, s') ->
  ((exists e, err = Some (service.StoreError e)) /\ s' = s /\
   is_Some (GetByID (ID saved) (store s))) \/
  (GetByID (ID saved) (store s) = None /\
   GetByID (ID saved) (store s') = Some saved /\
   (forall j, j <> ID saved -> GetByID j (store s') = GetByID j (store s)) /\
   ((err = None) \/
    (exists e, err = Some (service.ScheduleError e) /\
               oneOffTasks s' = oneOffTasks s /\ cron s' = cron s /\
               goroutines s' = goroutines s))).
Proof.
  unfold service.CreateTask.
  pose proof (store_facts.CreateTask_cases task fresh (executor.now (world s))
                (store s)) as Hc.
  destruct (repository.CreateTask task fresh (executor.now (world s)) (store s))
    as [[t e] db].
  destruct Hc as (_ & _ & [(Hsome & Herr & ->) | (Hnone & -> & Hget & Hother & _)]).
  - destruct e as [e|]; [ | now destruct Herr].
    intros H. injection H as <- <- <-. left. eauto.
  - destruct (ScheduleTask lib t (setStore s db)) as [[err1 s1]|] eqn:Hsched;
      [ | discriminate].
    intros H. injection H as <- <- <-. right.
    destruct (scheduler_more.ScheduleTask_frame lib t _ s1 err1 Hsched)
      as (Hst & _ & _ & _ & _ & Hsame).
    simpl in Hst. rewrite Hst.
    split; [exact Hnone | ]. split; [exact Hget | ]. split; [exact Hother | ].
    destruct err1 as [pe|]; [right | now left].
    exists pe. split; [reflexivity | ].
    rewrite (Hsame ltac:(discriminate)). simpl. auto.
Qed.

(** X26. [UpdateTask] of the service never removes a cron entry: the
    registry afterwards holds every entry it held, followed by at most
    one new entry, whose job is the saved task. A scheduled cron task
    whose expression the registry accepts therefore has one more entry
    after every update. *)
Theorem UpdateTask_keeps_entries (task saved : Task) (s s' : Scheduler)
    (err : option service.serviceError) :
  service.UpdateTask lib task s = Some (saved, err, s') ->
  saved = withUpdatedAt task (now (world s)) /\
  GetByID (ID task) (store s') = Some saved /\
  exists added,
    cron.entries (cron s') = (cron.entries (cron s) ++ added)%list /\
    Forall (fun e => cron.EntryJob e = saved) added /\
    (List.length added <= 1)%nat /\
    (err = None ->
     Status task = TaskStatusScheduled ->
     String.eqb (TriggerType_ task) TriggerTypeCron = true ->
     CronExpr task <> None ->
     List.length added = 1%nat).
Proof.
  unfold service.UpdateTask.
  destruct (scheduler_more.UnscheduleTask_cases (ID task) s)
    as (_ & _ & Hcron & Hstore & _ & Hworld & _ & _).
  cbv zeta in Hcron, Hstore, Hworld.
  unfold Update. rewrite Hworld.
  set (t := withUpdatedAt task (now (world s))).
  set (s0 := setStore (UnscheduleTask (ID task) s) _).
  assert (Hget0 : GetByID (ID task) (store s0) = Some t).
  { subst s0. unfold GetByID. simpl. apply lookup_insert_eq. }
  assert (Hc0 : cron s0 = cron s) by (subst s0; simpl; exact Hcron).
  change (Status t) with (Status task).
  destruct (String.eqb (Status task) TaskStatusScheduled) eqn:Hst.
  - destruct (ScheduleTask lib t s0) as [[err1 s1]|] eqn:Hsched; [ | discriminate].
    intros H. injection H as <- <- <-.
    destruct (scheduler_more.ScheduleTask_frame lib t s0 s1 err1 Hsched)
      as (Hst1 & _ & _ & (added & Hadd & Hjobs & Hlen) & _ & _).
    split; [reflexivity | ]. split; [now rewrite Hst1 | ].
    exists added. rewrite Hadd, Hc0. split; [reflexivity | ].
    split; [exact Hjobs | ]. split; [exact Hlen | ].
    intros Herr _ Hcr Hexpr.
    destruct err1; [discriminate | ].
    unfold ScheduleTask in Hsched.
    assert (Hone : String.eqb (TriggerType_ t) TriggerTypeOneOff = false).
    { change (TriggerType_ t) with (TriggerType_ task).
      apply String.eqb_eq in Hcr. rewrite Hcr. reflexivity. }
    rewrite Hone in Hsched. change (TriggerType_ t) with (TriggerType_ task) in Hsched.
    rewrite Hcr in Hsched. unfold scheduleCronTask in Hsched.
    change (CronExpr t) with (CronExpr task) in Hsched.
    destruct (CronExpr task) as [e|]; [ | now destruct Hexpr].
    unfold cron.AddFunc in Hsched.
    destruct (cron.Parse lib (cron.parser (cron s0)) e) as [sch|pe].
    + injection Hsched as <-. simpl in Hadd.
      apply (f_equal (@List.length _)) in Hadd.
      rewrite !List.length_app in Hadd. simpl in Hadd. lia.
    + destruct pe; discriminate.
  - intros H. injection H as <- <- <-.
    split; [reflexivity | ]. split; [exact Hget0 | ].
    exists []. rewrite app_nil_r, Hc0. split; [reflexivity | ].
    split; [constructor | ]. split; [simpl; lia | ].
    intros _ Hs. apply String.eqb_neq in Hst. contradiction.
Qed.

End WithTimeLib.

Lemma CreateTask_no_rollback_witness :
  let s := samples.sched samples.allOk in
  let out := default (samples.unsaved, None, s)
                     (service.CreateTask samples.lib samples.unsaved 50%N s) in
  let saved := fst (fst out) in
  let err := snd (fst out) in
  let s' := snd out in
  ((exists e, err = Some (service.StoreError e)) /\ s' = s /\
   is_Some (GetByID (ID saved) (store s))) \/
  (GetByID (ID saved) (store s) = None /\
   GetByID (ID saved) (store s') = Some saved /\
   (forall j, j <> ID saved -> GetByID j (store s') = GetByID j (store s)) /\
   ((err = None) \/
    (exists e, err = Some (service.ScheduleError e) /\
               oneOffTasks s' = oneOffTasks s /\ cron s' = cron s /\
               goroutines s' = goroutines s))).
Proof.
  intros s out saved err s'.
  apply (CreateTask_no_rollback samples.lib samples.unsaved saved 50%N s s' err).
  vm_compute. reflexivity.
Defined.

Lemma UpdateTask_keeps_entries_witness :
  let s := samples.sched samples.allOk in
  let out := default (samples.hourly, None, s)
                     (service.UpdateTask samples.lib samples.hourly s) in
  let saved := fst (fst out) in
  let err := snd (fst out) in
  let s' := snd out in
  saved = withUpdatedAt samples.hourly (now (world s)) /\
  GetByID (ID samples.hourly) (store s') = Some saved /\
  exists added,
    cron.entries (cron s') = (cron.entries (cron s) ++ added)%list /\
    Forall (fun e => cron.EntryJob e = saved) added /\
    (List.length added <= 1)%nat /\
    (err = None ->
     Status samples.hourly = TaskStatusScheduled ->
     String.eqb (TriggerType_ samples.hourly) TriggerTypeCron = true ->
     CronExpr samples.hourly <> None ->
     List.length added = 1%nat).
Proof.
  intros s out saved err s'.
  apply (UpdateTask_keeps_entries samples.lib samples.hourly saved s s' err).
  vm_compute. reflexivity.
Defined.

End service_facts.

(* ===================================================================== *)
(** ** More on package [handlers]: creating and updating tasks *)
(* ===================================================================== *)

Module handler_facts.
Import models gostrings repository scheduler handlers task_handler.

Lemma expandFields_ext (o1 o2 : Z) (pl : list Z) :
  forall (df fields : list string),
  Forall (fun p => cron.has o1 p = cron.has o2 p) pl ->
  cron.expandFields pl df fields o1 = cron.expandFields pl df fields o2.
Proof.
  induction pl as [|p pl IH]; intros df fields Hall; [reflexivity | ].
  inversion Hall as [|? ? Hp Hall']; subst.
  destruct df as [|d df]; [reflexivity | ]. simpl. rewrite Hp.
  destruct (cron.has o2 p).
  - destruct fields; now rewrite IH.
  - now rewrite IH.
Qed.

Lemma normalizeFields_five_standard (fields : list string) :
  cron.normalizeFields fields fiveFieldParser
  = cron.normalizeFields fields cron.standardParser.
Proof.
  assert (Hexp : cron.expandFields cron.places cron.defaults fields fiveFieldParser
                 = cron.expandFields cron.places cron.defaults fields cron.standardParser).
  { apply expandFields_ext. repeat constructor. }
  unfold cron.normalizeFields.
  change (cron.has fiveFieldParser cron.SecondOptional) with false.
  change (cron.has cron.standardParser cron.SecondOptional) with false.
  cbv beta iota zeta.
  change (cron.has fiveFieldParser cron.DowOptional) with false.
  change (cron.has cron.standardParser cron.DowOptional) with false.
  cbv beta iota zeta.
  change (Z.of_nat (List.length (List.filter (cron.has fiveFieldParser) cron.places)))
    with 5.
  change (Z.of_nat (List.length (List.filter (cron.has cron.standardParser) cron.places)))
    with 5.
  change (1 <? 0) with false. change (5 - 0 <? 5) with false.
  cbv beta iota. rewrite andb_false_l. unfold cron.bind.
  now rewrite Hexp.
Qed.

Section Handlers.
Context (lib : cron.TimeLib).

(** The five-field parser reads what the standard parser reads, except
    that it refuses every descriptor. *)
Lemma Parse_five_standard (spec : string) :
  HasPrefix spec "TZ=" || HasPrefix spec "CRON_TZ=" = false ->
  (HasPrefix spec "@" = true ->
     cron.Parse lib fiveFieldParser spec = cron.Err (cron.NoDescriptors spec)) /\
  (HasPrefix spec "@" = false ->
     cron.Parse lib fiveFieldParser spec = cron.ParseStandard lib spec).
Proof.
  intros Htz. unfold cron.ParseStandard, cron.Parse. rewrite Htz.
  split; intros Hat.
  - destruct (len spec =? 0) eqn:Hlen.
    + exfalso. apply Z.eqb_eq in Hlen. unfold len in Hlen.
      destruct spec; [discriminate Hat | simpl in Hlen; lia].
    + unfold cron.bind. rewrite Hat. reflexivity.
  - destruct (len spec =? 0); [reflexivity | ].
    unfold cron.bind at 1 3. rewrite Hat.
    now rewrite normalizeFields_five_standard.
Qed.

Lemma calculateNextCronRun_and_validation_aux (spec : string) (now : Time) :
  HasPrefix spec "TZ=" || HasPrefix spec "CRON_TZ=" = false ->
  HasPrefix spec "@" = true ->
  task_handler.calculateNextCronRun lib spec now
    = Some (cron.Err (cron.NoDescriptors spec)) /\
  scheduler.calculateNextCronRun lib spec now
    = Some (cron.Err (cron.NoDescriptors spec)).
Proof.
  intros Htz Hat. destruct (Parse_five_standard spec Htz) as [Hdesc _].
  unfold task_handler.calculateNextCronRun, scheduler.calculateNextCronRun.
  change (Z.lor cron.Minute _) with fiveFieldParser.
  rewrite (Hdesc Hat). split; reflexivity.
Qed.

(** X27. The next run a handler computes agrees with create-time
    validation on expressions of plain fields, and differs on
    descriptors: validation reads them, [calculateNextCronRun] refuses
    every one of them. *)
Theorem calculateNextCronRun_and_validation (spec : string) (now : Time) :
  HasPrefix spec "TZ=" || HasPrefix spec "CRON_TZ=" = false ->
  (HasPrefix spec "@" = true ->
     task_handler.calculateNextCronRun lib spec now
       = Some (cron.Err (cron.NoDescriptors spec)) /\
     scheduler.calculateNextCronRun lib spec now
       = Some (cron.Err (cron.NoDescriptors spec))) /\
  (HasPrefix spec "@" = false ->
     forall sch, cron.ParseStandard lib spec = cron.Ok sch ->
       task_handler.calculateNextCronRun lib spec now
         = Some (cron.Ok (cron.Next lib sch now)) /\
       scheduler.calculateNextCronRun lib spec now
         = Some (cron.Ok (cron.Next lib sch now))) /\
  (HasPrefix spec "@" = false ->
     forall e, cron.ParseStandard lib spec = cron.Err e ->
       task_handler.calculateNextCronRun lib spec now <> None ->
       task_handler.calculateNextCronRun lib spec now = Some (cron.Err e)).
Proof.
  intros Htz. destruct (Parse_five_standard spec Htz) as [Hdesc Hplain].
  unfold task_handler.calculateNextCronRun, scheduler.calculateNextCronRun.
  change (Z.lor cron.Minute _) with fiveFieldParser.
  split; [ | split].
  - intros Hat. rewrite (Hdesc Hat). split; reflexivity.
  - intros Hat sch Hstd. rewrite (Hplain Hat), Hstd. split; reflexivity.
  - intros Hat e Hstd. rewrite (Hplain Hat), Hstd.
    destruct e; intros H; try reflexivity. now destruct H.
Qed.

(** X28. [CreateTask] gives no answer to a refused trigger: the handler
    panics on the message of the error, before anything is stored. It
    answers 201 only after storing a new row under the generated identity:
    the task is scheduled, created now, and carries the request's name and
    action. A one-off task has its trigger time, not before now, also as
    next run; any other task has the request's cron expression and no
    trigger time, and no next run when the expression is a descriptor.
    The only other answer is 500, for an insert that the store refuses,
    and it leaves the store as it is. *)
Theorem CreateTask_stores (req : CreateTaskRequest) (now : Time) (fresh : UUID)
    (db : DB) :
  (forall meta, validateTrigger lib (ReqTrigger req) now = Some (Some meta) ->
     task_handler.CreateTask lib req now fresh db = None) /\
  (forall (code : Z) (answer : option Task) (db' : DB),
     task_handler.CreateTask lib req now fresh db = Some (code, answer, db') ->
     validateTrigger lib (ReqTrigger req) now = Some None /\
     ((code = 201 /\
       exists task,
         answer = Some task /\ ID task = fresh /\
         GetByID fresh db = None /\ GetByID fresh db' = Some task /\
         (forall j, j <> fresh -> GetByID j db' = GetByID j db) /\
         task_results db' = task_results db /\
         Status task = TaskStatusScheduled /\ CreatedAt task = now /\
         Name task = ReqName req /\
         (Method task, URL task, Headers task, Payload task)
           = (ActionMethod (ReqAction req), ActionURL (ReqAction req),
              ActionHeaders (ReqAction req), ActionPayload (ReqAction req)) /\
         (String.eqb (Type_ (ReqTrigger req)) TriggerTypeOneOff = true ->
            exists dateTime,
              now <= dateTime /\ TriggerTime task = Some dateTime /\
              NextRun task = Some dateTime /\ CronExpr task = None) /\
         (String.eqb (Type_ (ReqTrigger req)) TriggerTypeOneOff = false ->
            exists c,
              Cron (ReqTrigger req) = Some c /\ CronExpr task = Some c /\
              TriggerTime task = None /\
              (HasPrefix c "TZ=" || HasPrefix c "CRON_TZ=" = false ->
               HasPrefix c "@" = true -> NextRun task = None))) \/
      (code = 500 /\ answer = None /\ db' = db))).
Proof.
  unfold task_handler.CreateTask. split.
  { intros meta Hvalid. now rewrite Hvalid. }
  intros code answer db'.
  destruct (validateTrigger lib (ReqTrigger req) now) as [[meta|]|] eqn:Hvalid;
    [discriminate | | discriminate].
  destruct (triggerFields lib (ReqTrigger req) now None)
    as [[[triggerTime cronExpr] nextRun]|] eqn:Hfields; [ | discriminate].
  set (task := mkTask Nil _ _ _ _ _ _ _ _ _ _ _ _).
  pose proof (store_facts.CreateTask_cases task fresh now db) as Hc.
  destruct (repository.CreateTask task fresh now db) as [[saved err] db1].
  destruct Hc as (Hid & Hsaved & [(Hsome & Herr & ->) | (Hnone & -> & Hget & Hother & Hres & _)]).
  { destruct err as [e|]; [ | now destruct Herr].
    intros H. injection H as <- <- <-. split; [reflexivity | ]. right. auto. }
  intros H. injection H as <- <- <-. split; [reflexivity | ]. left.
  split; [reflexivity | ].
  simpl in Hid. rewrite Hid in *.
  assert (Hfilled : withDefaults task now = task).
  { unfold withDefaults, task. simpl. destruct (now =? zeroTime); reflexivity. }
  rewrite Hfilled in Hsaved. rewrite Hsaved.
  exists (withID task fresh). simpl.
  split; [reflexivity | ]. split; [reflexivity | ]. split; [exact Hnone | ].
  split; [now rewrite <- Hsaved | ]. split; [exact Hother | ].
  split; [exact Hres | ]. split; [reflexivity | ]. split; [reflexivity | ].
  split; [reflexivity | ]. split; [reflexivity | ].
  unfold triggerFields in Hfields. unfold validateTrigger in Hvalid.
  split.
  - intros Hone. rewrite Hone in Hfields, Hvalid.
    injection Hfields as <- <- <-.
    destruct (DateTime (ReqTrigger req)) as [dt|]; [ | discriminate].
    destruct (dt <? now) eqn:Hpast; [discriminate | ].
    apply Z.ltb_ge in Hpast. exists dt. auto.
  - intros Hone. rewrite Hone in Hfields.
    destruct (Cron (ReqTrigger req)) as [c|]; [ | discriminate].
    exists c. split; [reflexivity | ].
    destruct (task_handler.calculateNextCronRun lib c now) as [[next|e]|] eqn:Hcalc;
      [ | | discriminate].
    + injection Hfields as <- <- <-. split; [reflexivity | ].
      split; [reflexivity | ]. intros Htz Hat.
      destruct (calculateNextCronRun_and_validation_aux c now Htz Hat) as [Hh _].
      rewrite Hh in Hcalc. discriminate.
    + injection Hfields as <- <- <-. auto.
Qed.

(** X29. [UpdateTask], for a task with an identity: it answers 404,
    changing nothing, when the identity has no row, and gives no answer to
    a refused trigger, on whose error message the handler panics before
    anything is written. With a 200 answer the row holds the answered
    task: same identity, status and creation instant as before, updated
    now, with the name, the trigger fields and the action left as they
    were for every part the request omits; a one-off trigger clears the
    cron expression and sets trigger time and next run to its time; no
    other row and no result is touched. The only other answer is 500, for
    a write that the store refuses, and it leaves the store as it is. *)
Theorem UpdateTask_keeps (id : UUID) (req : UpdateTaskRequest) (now : Time)
    (db : DB) :
  keyed db ->
  id <> Nil ->
  (GetByID id db = None ->
     task_handler.UpdateTask lib id req now db = Some (404, None, db)) /\
  (forall trigger meta,
     is_Some (GetByID id db) ->
     UpdTrigger req = Some trigger ->
     validateTrigger lib trigger now = Some (Some meta) ->
     task_handler.UpdateTask lib id req now db = None) /\
  (forall (old : Task) (code : Z) (answer : option Task) (db' : DB),
     GetByID id db = Some old ->
     task_handler.UpdateTask lib id req now db = Some (code, answer, db') ->
     (code = 500 /\ answer = None /\ db' = db) \/
     code = 200 /\
     exists task,
       answer = Some task /\
       GetByID id db' = Some task /\
       (forall j, j <> id -> GetByID j db' = GetByID j db) /\
       task_results db' = task_results db /\
       ID task = id /\ Status task = Status old /\
       CreatedAt task = CreatedAt old /\ UpdatedAt task = now /\
       Name task = default (Name old) (UpdName req) /\
       (UpdTrigger req = None ->
          (TriggerType_ task, TriggerTime task, CronExpr task, NextRun task)
            = (TriggerType_ old, TriggerTime old, CronExpr old, NextRun old)) /\
       (forall trigger, UpdTrigger req = Some trigger ->
          validateTrigger lib trigger now = Some None /\
          (String.eqb (Type_ trigger) TriggerTypeOneOff = true ->
           exists dateTime,
             now <= dateTime /\
             (TriggerType_ task, TriggerTime task, CronExpr task, NextRun task)
               = (TriggerTypeOneOff, Some dateTime, None, Some dateTime))) /\
       (UpdAction req = None ->
          (Method task, URL task, Headers task, Payload task)
            = (Method old, URL old, Headers old, Payload old))).
Proof.
  intros Hk _. unfold task_handler.UpdateTask. split; [ | split].
  { intros Hget. now rewrite Hget. }
  { intros trigger meta [old Hget] Htrigger Hvalid.
    now rewrite Hget, Htrigger, Hvalid. }
  intros old code answer db' Hget. rewrite Hget.
  assert (Hid : ID old = id) by exact (Hk _ _ Hget).
  set (tf := match UpdTrigger req with
             | Some trigger => _
             | None => _
             end).
  destruct tf as [[[[tt0 ttime] cexpr] nrun]|] eqn:Htf; [ | discriminate].
  destruct (match UpdAction req with
            | Some action => _
            | None => _
            end) as [[[method url] headers] payload] eqn:Hact.
  unfold Update. cbn [withUpdatedAt ID]. intros H. injection H as <- <- <-.
  right. split; [reflexivity | ].
  eexists. split; [reflexivity | ].
  unfold GetByID in *. simpl. rewrite Hid.
  split; [apply lookup_insert_eq | ].
  split; [intros j Hne; apply lookup_insert_ne; congruence | ].
  split; [reflexivity | ]. split; [reflexivity | ]. split; [reflexivity | ].
  split; [reflexivity | ]. split; [reflexivity | ].
  split; [destruct (UpdName req); reflexivity | ].
  subst tf. split; [ | split].
  - intros Hnone. rewrite Hnone in Htf. injection Htf as <- <- <- <-. reflexivity.
  - intros trigger Hsome. rewrite Hsome in Htf.
    destruct (validateTrigger lib trigger now) as [[meta|]|] eqn:Hvalid;
      [discriminate | | discriminate].
    split; [reflexivity | ]. intros Hone.
    unfold validateTrigger in Hvalid. unfold triggerFields in Htf.
    rewrite Hone in Htf, Hvalid.
    destruct (DateTime trigger) as [dt|]; [ | discriminate].
    destruct (dt <? now) eqn:Hpast; [discriminate | ].
    injection Htf as <- <- <- <-. apply Z.ltb_ge in Hpast.
    apply String.eqb_eq in Hone. rewrite Hone. exists dt. auto.
  - intros Hnone. rewrite Hnone in Hact. injection Hact as <- <- <- <-. reflexivity.
Qed.

End Handlers.

Lemma calculateNextCronRun_and_validation_witness :
  task_handler.calculateNextCronRun samples.lib "@hourly" 0
    = Some (cron.Err (cron.NoDescriptors "@hourly")) /\
  scheduler.calculateNextCronRun samples.lib "@hourly" 0
    = Some (cron.Err (cron.NoDescriptors "@hourly")).
Proof.
  destruct (calculateNextCronRun_and_validation samples.lib "@hourly" 0)
    as [Hdescriptor _]; [reflexivity | ].
  apply Hdescriptor. reflexivity.
Defined.

Lemma CreateTask_stores_witness :
  let refused := mkCreateTaskRequest "no time"
                   (mkTrigger TriggerTypeOneOff None None)
                   (mkAction "GET" "http://mock/ok" ∅ None) in
  let req := mkCreateTaskRequest "hourly report"
               (mkTrigger TriggerTypeCron None (Some "@hourly"))
               (mkAction "POST" "http://mock/ok" ∅ (Some "{}")) in
  let out := default (0, None, samples.db0)
                     (task_handler.CreateTask samples.lib req 1000 50%N samples.db0) in
  task_handler.CreateTask samples.lib refused 1000 50%N samples.db0 = None /\
  fst (fst out) = 201 /\
  exists task,
    snd (fst out) = Some task /\ GetByID 50%N (snd out) = Some task /\
    Status task = TaskStatusScheduled /\
    CronExpr task = Some "@hourly" /\ NextRun task = None.
Proof.
  intros refused req out. split.
  { apply (proj1 (CreateTask_stores samples.lib refused 1000 50%N samples.db0)
             "datetime is required for one-off triggers").
    reflexivity. }
  destruct (proj2 (CreateTask_stores samples.lib req 1000 50%N samples.db0)
              (fst (fst out)) (snd (fst out)) (snd out))
    as [_ [(Hcode & task & Hanswer & _ & _ & Hget & _ & _ & Hstatus & _ & _ & _ & _ & Hcron)
          | (Hcode & _)]];
    [vm_compute; reflexivity | | vm_compute in Hcode; discriminate].
  split; [exact Hcode | ]. exists task.
  destruct Hcron as (c & Hc & Hexpr & _ & Hnext); [reflexivity | ].
  injection Hc as <-.
  repeat split; [exact Hanswer | exact Hget | exact Hstatus | exact Hexpr | ].
  apply Hnext; reflexivity.
Defined.

Lemma UpdateTask_keeps_witness :
  let req := mkUpdateTaskRequest (Some "renamed") None None in
  let past := mkUpdateTaskRequest None
                (Some (mkTrigger TriggerTypeOneOff (Some 5) None)) None in
  let out := default (0, None, samples.db0)
                     (task_handler.UpdateTask samples.lib (ID samples.ping) req 1000
                                              samples.db0) in
  task_handler.UpdateTask samples.lib (ID samples.ping) past 1000 samples.db0 = None /\
  fst (fst out) = 200 /\
  exists task,
    snd (fst out) = Some task /\
    GetByID (ID samples.ping) (snd out) = Some task /\
    Name task = "renamed" /\ Status task = Status samples.ping /\
    UpdatedAt task = 1000 /\ NextRun task = NextRun samples.ping.
Proof.
  intros req past out.
  assert (Hk : keyed samples.db0) by (unfold keyed; compute_done).
  assert (Hid : ID samples.ping <> Nil) by discriminate.
  split.
  { apply (proj1 (proj2 (UpdateTask_keeps samples.lib (ID samples.ping) past 1000
                           samples.db0 Hk Hid))
             (mkTrigger TriggerTypeOneOff (Some 5) None)
             "datetime must be in the future");
      [exists samples.ping; reflexivity | reflexivity | reflexivity]. }
  destruct (proj2 (proj2 (UpdateTask_keeps samples.lib (ID samples.ping) req 1000
                            samples.db0 Hk Hid))
              samples.ping (fst (fst out)) (snd (fst out)) (snd out))
    as [(Hcode & _)
       | (Hcode & task & Hanswer & Hget & _ & _ & _ & Hstatus & _ & Hupdated & Hname
          & Htrigger & _)];
    [reflexivity | vm_compute; reflexivity | vm_compute in Hcode; discriminate | ].
  split; [exact Hcode | ]. exists task.
  repeat split; [exact Hanswer | exact Hget | exact Hname | exact Hstatus
                 | exact Hupdated | ].
  specialize (Htrigger eq_refl). now injection Htrigger.
Defined.

End handler_facts.
